(** * The performance agent of the DevTools AI assistance panel

    A shallow embedding of [PerformanceAgent] (src/unnamed/part_003,
    front_end/models/ai_assistance/agents/PerformanceAgent.ts) and of
    [AgentFocus] (src/unnamed/part_004,
    front_end/models/ai_assistance/performance/AIContext.ts), with the
    properties of the conversation loop stated over it.

    JavaScript strings are sequences of UTF-16 code units; objects that
    the source compares by reference carry an explicit identity. *)

From Stdlib Require Import Ascii String.
From stdpp Require Import base numbers option list gmap strings.

Set Default Proof Using "Type".

(** ** JavaScript strings *)

Module JS.

(** A string is its sequence of UTF-16 code units. *)
Definition jsstring : Type := list N.

(** A literal of the source, character by character. *)
Fixpoint lit (s : string) : jsstring :=
  match s with
  | EmptyString => []
  | String a s' => N_of_ascii a :: lit s'
  end.

(** ECMAScript LineTerminator: LF, CR, LS, PS.  The regular expression
    atom [.] matches every code unit but these. *)
Definition isLineTerminator (c : N) : bool :=
  ((c =? 10) || (c =? 13) || (c =? 8232) || (c =? 8233))%N.

(** ECMAScript WhiteSpace and LineTerminator, the set that both
    [String.prototype.trim] and the class escape [\s] use. *)
Definition isWhiteSpace (c : N) : bool :=
  ((c =? 9) || (c =? 10) || (c =? 11) || (c =? 12) || (c =? 13) || (c =? 32)
   || (c =? 160) || (c =? 5760) || ((8192 <=? c) && (c <=? 8202))
   || (c =? 8232) || (c =? 8233) || (c =? 8239) || (c =? 8287)
   || (c =? 12288) || (c =? 65279))%N.

Fixpoint trimStart (s : jsstring) : jsstring :=
  match s with
  | [] => []
  | c :: t => if isWhiteSpace c then trimStart t else s
  end.

Definition trimEnd (s : jsstring) : jsstring := rev (trimStart (rev s)).

(** [String.prototype.trim] *)
Definition trim (s : jsstring) : jsstring := trimEnd (trimStart s).

(** [s.startsWith(p)] *)
Fixpoint startsWith (s p : jsstring) {struct p} : bool :=
  match p, s with
  | [], _ => true
  | _ :: _, [] => false
  | a :: p', b :: s' => (a =? b)%N && startsWith s' p'
  end.

(** [s.endsWith(p)] *)
Definition endsWith (s p : jsstring) : bool := startsWith (rev s) (rev p).

(** [s.includes(p)] *)
Fixpoint includes (s p : jsstring) : bool :=
  startsWith s p ||
  match s with
  | [] => false
  | _ :: t => includes t p
  end.

(** The relative index of [String.prototype.slice]: negative indices
    count from the end, and everything is clamped to [0, len]. *)
Definition relativeIndex (len i : Z) : Z :=
  if (i <? 0)%Z then Z.max (len + i) 0 else Z.min i len.

(** [s.slice(start, end)] *)
Definition slice (s : jsstring) (start end_ : Z) : jsstring :=
  let len := Z.of_nat (length s) in
  let from := relativeIndex len start in
  let to := relativeIndex len end_ in
  let span := Z.max (to - from) 0 in
  take (Z.to_nat span) (drop (Z.to_nat from) s).

(** [parts.join('')] *)
Definition join (parts : list jsstring) : jsstring := concat parts.

(** Decimal digits of a natural number, most significant first; the
    fuel bounds the number of digits. *)
Fixpoint digits (fuel : nat) (n : N) (acc : jsstring) : jsstring :=
  match fuel with
  | O => acc
  | S fuel' =>
      let acc' := (48 + n mod 10)%N :: acc in
      if (n <? 10)%N then acc' else digits fuel' (n / 10)%N acc'
  end.

(** The string that a template literal gives for an integer number,
    [`${n}`], below the magnitude from which JavaScript writes an
    exponent. *)
Definition ofZ (z : Z) : jsstring :=
  let n := Z.to_N (Z.abs z) in
  let d := digits (S (N.to_nat (N.log2 n))) n [] in
  if (z <? 0)%Z then 45%N :: d else d.

End JS.

Export JS (jsstring).
Arguments JS.lit : simpl never.
Notation "'js' s" := (JS.lit s%string) (at level 9, s at level 0, only parsing).

(** ** The trace model, as far as the agent reads it *)

Module Trace.

(** A trace event.  [event_json] is what [JSON.stringify] gives for it;
    [event_url] is [args.data.url] when the event is a synthetic network
    request and [None] for every other kind of event. *)
Record Event : Type := {
  event_id : nat;
  event_json : jsstring;
  event_url : option jsstring;
}.

(** [Trace.Types.Events.isSyntheticNetworkRequest] *)
Definition isSyntheticNetworkRequest (e : Event) : bool :=
  bool_decide (is_Some (event_url e)).

Definition JSON_stringify (e : Event) : jsstring := event_json e.

(** An insight model; [insight_id] is the identity of the object. *)
Record InsightModel : Type := {
  insight_id : nat;
  insightKey : jsstring;
  insight_title : jsstring;
}.

Record InsightSet : Type := {
  insightSet_navigation : bool;
  insightSet_model : list (jsstring * InsightModel);
}.

Record TraceWindowMicro : Type := {
  tw_min : Z;
  tw_max : Z;
  tw_range : Z;
}.

(** Modelled from the spec: [Trace.Helpers.Timing.traceWindowFromMicroSeconds]
    is not under src/; the time bounds it returns are the two it is given. *)
Definition traceWindowFromMicroSeconds (lo hi : Z) : TraceWindowMicro :=
  {| tw_min := lo; tw_max := hi; tw_range := hi - lo |}.

(** [parsedTrace.insights] may be missing; [traceBounds] is
    [data.Meta.traceBounds]; [NetworkRequests_byTime] is
    [data.NetworkRequests.byTime]; [scripts_content] lists the [content]
    of [data.Scripts.scripts]. *)
Record ParsedTrace : Type := {
  insights : option (list InsightSet);
  traceBounds : TraceWindowMicro;
  NetworkRequests_byTime : list Event;
  enhancedTraceVersion : bool;
  scripts_content : list (option jsstring);
}.

(** A call tree; [callTree_id] is the identity of the object and
    [serialize] the text its method of that name returns. *)
Record AICallTree : Type := {
  callTree_id : nat;
  callTree_parsedTrace : ParsedTrace;
  serialize : jsstring;
}.

End Trace.

Import Trace.

(** What a JavaScript call completes with: a value, or a thrown error
    (carried as the text of [err.toString()]). *)
Inductive Completion (A : Type) : Type :=
  | Normal (a : A)
  | Throw (err : jsstring).
Arguments Normal {A} a.
Arguments Throw {A} err.

(** The parts of the trace engine that are not in the source files at
    hand.  They are taken as an interface. *)
Class TraceEngine : Type := {
  (** [AICallTree.fromEvent(event, parsedTrace)] *)
  AICallTree_fromEvent : Event → ParsedTrace → option AICallTree;
  (** [EventsSerializer.eventForKey(key, parsedTrace)]: the event, or
      nothing, or an exception. *)
  eventForKey : jsstring → ParsedTrace → Completion (option Event);
  (** [EventsSerializer.keyForEvent(event)] *)
  keyForEvent : Event → option jsstring;
}.

(** ** AgentFocus (AIContext.ts)

    [withInsight] and [withEvent] build a new focus around the data
    object of the focus they are called on, and then assign to that
    object.  The data objects therefore live in a store, and a focus
    holds a reference into it. *)

Module AIContext.

Record AgentFocusData : Type := {
  parsedTrace : ParsedTrace;
  event : option Event;
  callTree : option AICallTree;
  insight : option InsightModel;
}.

Definition set_insight (i : option InsightModel) (d : AgentFocusData) : AgentFocusData :=
  {| parsedTrace := parsedTrace d; event := event d; callTree := callTree d; insight := i |}.

Definition set_callTree (c : option AICallTree) (d : AgentFocusData) : AgentFocusData :=
  {| parsedTrace := parsedTrace d; event := event d; callTree := c; insight := insight d |}.

Definition set_event (e : option Event) (d : AgentFocusData) : AgentFocusData :=
  {| parsedTrace := parsedTrace d; event := e; callTree := callTree d; insight := insight d |}.

(** The insight set to use: the only one, else the first that has a
    navigation, else the first. *)
Definition getPrimaryInsightSet (insightSets : list InsightSet) : option InsightSet :=
  match insightSets with
  | [] => None
  | [s] => Some s
  | _ =>
      match head (filter (λ s, insightSet_navigation s = true) insightSets) with
      | Some s => Some s
      | None => head insightSets
      end
  end.

(** The store of data objects. *)
Abbreviation Store := (gmap nat AgentFocusData).

Record AgentFocus : Type := {
  data_ref : nat;
  primaryInsightSet : option InsightSet;
}.

Definition missingInsights : jsstring := js "Error: missing insights".

(** [new AgentFocus(data)], for the data object at [ref].  A reference
    always points to a live object; the last case cannot arise from the
    operations below. *)
Definition new_AgentFocus (h : Store) (ref : nat) : Completion AgentFocus :=
  match h !! ref with
  | Some d =>
      match insights (parsedTrace d) with
      | None => Throw missingInsights
      | Some ins => Normal {| data_ref := ref; primaryInsightSet := getPrimaryInsightSet ins |}
      end
  | None => Throw (js "TypeError")
  end.

(** An object literal: a new data object in the store. *)
Definition alloc (h : Store) (d : AgentFocusData) : Store * nat :=
  let ref := fresh (dom h) in (<[ref := d]> h, ref).

Section WithEngine.
Context {engine : TraceEngine}.

(** [AgentFocus.#getCallTreeOrEvent] *)
Definition getCallTreeOrEvent (pt : ParsedTrace) (ev : option Event)
  : option AICallTree * option Event :=
  let callTree := ev ≫= (λ e, AICallTree_fromEvent e pt) in
  match callTree with
  | Some ct => (Some ct, None)
  | None =>
      match ev with
      | Some e => if isSyntheticNetworkRequest e then (None, Some e) else (None, None)
      | None => (None, None)
      end
  end.

Definition fromParsedTrace (h : Store) (pt : ParsedTrace) : Store * Completion AgentFocus :=
  match insights pt with
  | None => (h, Throw missingInsights)
  | Some _ =>
      let '(h', ref) :=
        alloc h {| parsedTrace := pt; event := None; callTree := None; insight := None |} in
      (h', new_AgentFocus h' ref)
  end.

Definition fromInsight (h : Store) (pt : ParsedTrace) (i : InsightModel)
  : Store * Completion AgentFocus :=
  match insights pt with
  | None => (h, Throw missingInsights)
  | Some _ =>
      let '(h', ref) :=
        alloc h {| parsedTrace := pt; event := None; callTree := None; insight := Some i |} in
      (h', new_AgentFocus h' ref)
  end.

Definition fromEvent (h : Store) (pt : ParsedTrace) (ev : Event)
  : Store * Completion AgentFocus :=
  match insights pt with
  | None => (h, Throw missingInsights)
  | Some _ =>
      let result := getCallTreeOrEvent pt (Some ev) in
      let '(h', ref) :=
        alloc h {| parsedTrace := pt; event := result.2; callTree := result.1;
                   insight := None |} in
      (h', new_AgentFocus h' ref)
  end.

Definition fromCallTree (h : Store) (ct : AICallTree) : Store * Completion AgentFocus :=
  let '(h', ref) :=
    alloc h {| parsedTrace := callTree_parsedTrace ct; event := None; callTree := Some ct;
               insight := None |} in
  (h', new_AgentFocus h' ref).

(** [this.withInsight(insight)]: the new focus shares the data object
    of [this], and the assignment is to that shared object. *)
Definition withInsight (h : Store) (this : AgentFocus) (i : option InsightModel)
  : Store * Completion AgentFocus :=
  match new_AgentFocus h (data_ref this) with
  | Normal focus => (alter (set_insight i) (data_ref focus) h, Normal focus)
  | Throw err => (h, Throw err)
  end.

(** [this.withEvent(event)] *)
Definition withEvent (h : Store) (this : AgentFocus) (ev : option Event)
  : Store * Completion AgentFocus :=
  match new_AgentFocus h (data_ref this), h !! data_ref this with
  | Normal focus, Some d =>
      let result := getCallTreeOrEvent (parsedTrace d) ev in
      let h1 := alter (set_callTree result.1) (data_ref focus) h in
      let h2 := alter (set_event result.2) (data_ref focus) h1 in
      (h2, Normal focus)
  | Throw err, _ => (h, Throw err)
  | Normal _, None => (h, Throw (js "TypeError"))
  end.

(** The getters read the data object through the reference. *)
Definition get_event (h : Store) (f : AgentFocus) : option Event :=
  h !! data_ref f ≫= event.
Definition get_callTree (h : Store) (f : AgentFocus) : option AICallTree :=
  h !! data_ref f ≫= callTree.
Definition get_insight (h : Store) (f : AgentFocus) : option InsightModel :=
  h !! data_ref f ≫= insight.

Definition includesUnknown (err : jsstring) : bool :=
  JS.includes err (js "Unknown trace event") || JS.includes err (js "Unknown profile call").

(** [this.lookupEvent(key)]: an unknown key is reported by the
    serializer as an exception; those that say so give [null], every
    other exception is thrown again. *)
Definition lookupEvent (pt : ParsedTrace) (key : jsstring) : Completion (option Event) :=
  match eventForKey key pt with
  | Normal e => Normal e
  | Throw err => if includesUnknown err then Normal None else Throw err
  end.

(** One operation that produces a focus.  [this] of the two
    derivations is an earlier result, by its position. *)
Inductive Op : Type :=
  | OpFromParsedTrace (pt : ParsedTrace)
  | OpFromInsight (pt : ParsedTrace) (i : InsightModel)
  | OpFromEvent (pt : ParsedTrace) (ev : Event)
  | OpFromCallTree (ct : AICallTree)
  | OpWithInsight (this : nat) (i : option InsightModel)
  | OpWithEvent (this : nat) (ev : option Event).

(** Runs one operation; [made] lists the foci produced so far. *)
Definition exec (h : Store) (made : list AgentFocus) (op : Op)
  : Store * Completion AgentFocus :=
  match op with
  | OpFromParsedTrace pt => fromParsedTrace h pt
  | OpFromInsight pt i => fromInsight h pt i
  | OpFromEvent pt ev => fromEvent h pt ev
  | OpFromCallTree ct => fromCallTree h ct
  | OpWithInsight n i =>
      match made !! n with
      | Some this => withInsight h this i
      | None => (h, Throw (js "ReferenceError"))
      end
  | OpWithEvent n ev =>
      match made !! n with
      | Some this => withEvent h this ev
      | None => (h, Throw (js "ReferenceError"))
      end
  end.

Fixpoint execAll (h : Store) (made : list AgentFocus) (ops : list Op)
  : Store * list AgentFocus :=
  match ops with
  | [] => (h, made)
  | op :: ops' =>
      match exec h made op with
      | (h', Normal f) => execAll h' (made ++ [f]) ops'
      | (h', Throw _) => execAll h' made ops'
      end
  end.

End WithEngine.

(** The invariant of the data object of a focus. *)
Definition atMostOne (d : AgentFocusData) : Prop :=
  event d = None ∨ callTree d = None.

(** Every data object of the store satisfies the invariant. *)
Definition storeOk (h : Store) : Prop := map_Forall (λ _ d, atMostOne d) h.

(** Every focus made so far refers to a data object of the store. *)
Definition madeOk (h : Store) (made : list AgentFocus) : Prop :=
  Forall (λ f, is_Some (h !! data_ref f)) made.

End AIContext.

(** ** The performance agent (PerformanceAgent.ts) *)

Module PerformanceAgent.

(** The line feed of the template literals. *)
Definition NL : jsstring := [10%N].

(** [lockedString] marks a text as not translated and returns it. *)
Definition lockedString (s : jsstring) : jsstring := s.

Definition analyzingTrace : jsstring := js "Analyzing trace".
Definition networkActivitySummary : jsstring :=
  js "Investigating network activity" ++ [8230%N].
Definition mainThreadActivity : jsstring :=
  js "Investigating main thread activity" ++ [8230%N].

Definition extraPreambleWhenNotExternal : jsstring :=
  js "Additional notes:

When referring to a trace event that has a corresponding `eventKey`, annotate your output using markdown link syntax. For example:
- When referring to an event that is a long task: [Long task](#r-123)
- When referring to a URL for which you know the eventKey of: [https://www.example.com](#s-1827)
- Never show the eventKey (like " ++ [34%N] ++
  js "eventKey: s-1852" ++ [34%N] ++
  js "); instead, use a markdown link as described above.
".

Definition callFrameDataFormatDescription : jsstring :=
  js "Each call frame is presented in the following format:

'id;name;duration;selfTime;urlIndex;childRange;[S]'

Key definitions:

* id: A unique numerical identifier for the call frame. Never mention this id in the output to the user.
* name: A concise string describing the call frame (e.g., 'Evaluate Script', 'render', 'fetchData').
* duration: The total execution time of the call frame, including its children.
* selfTime: The time spent directly within the call frame, excluding its children's execution.
* urlIndex: Index referencing the " ++ [34%N] ++
  js "All URLs" ++ [34%N] ++
  js " list. Empty if no specific script URL is associated.
* childRange: Specifies the direct children of this node using their IDs. If empty ('' or 'S' at the end), the node has no children. If a single number (e.g., '4'), the node has one child with that ID. If in the format 'firstId-lastId' (e.g., '4-5'), it indicates a consecutive range of child IDs from 'firstId' to 'lastId', inclusive.
* S: _Optional_. The letter 'S' terminates the line if that call frame was selected by the user.

Example Call Tree:

1;main;500;100;;
2;update;200;50;;3
3;animate;150;20;0;4-5;S
4;calculatePosition;80;80;;
5;applyStyles;50;50;;
".

Inductive ScorePriority : Type := REQUIRED | CRITICAL | DEFAULT.

Definition ScorePriority_value (p : ScorePriority) : Z :=
  match p with REQUIRED => 3 | CRITICAL => 2 | DEFAULT => 1 end.

(** [Host.AidaClient.RequestFact]: [{text, metadata: {source, score}}]. *)
Record RequestFact : Type := {
  text : jsstring;
  source : jsstring;
  score : ScorePriority;
}.

(** What the agent reads of a focus, [focus.data], with the identity of
    the focus object, by which the cache of function calls is keyed. *)
Record AgentFocus : Type := {
  focus_id : nat;
  parsedTrace : ParsedTrace;
  insightSet : option InsightSet;
  insight : option InsightModel;
  callTree : option AICallTree;
}.

Record PerformanceTraceContext : Type := {
  getItem : AgentFocus;
  external : bool;
}.

(** [PerformanceTraceContext.getOrigin] *)
Definition getOrigin (c : PerformanceTraceContext) : jsstring :=
  let b := traceBounds (parsedTrace (getItem c)) in
  js "trace-" ++ JS.ofZ (tw_min b) ++ js "-" ++ JS.ofZ (tw_max b).

(** 16k tokens, about 4 characters per token. *)
Definition MAX_FUNCTION_RESULT_BYTE_LENGTH : Z := 16384 * 4.

(** The names of the functions the agent declares. *)
Inductive FunctionName : Type :=
  | getInsightDetails
  | getEventByKey
  | getMainThreadTrackSummary
  | getNetworkTrackSummary
  | getDetailedCallTree
  | getResourceContent
  | selectEventByKey.

#[export] Instance FunctionName_eq_dec : EqDecision FunctionName.
Proof. solve_decision. Defined.

(** A function call of the model: the name with the arguments that the
    parameter schema of that function describes.  A bound that the call
    leaves out is [None] (the handler reads [undefined]). *)
Inductive FunctionCall : Type :=
  | Call_getInsightDetails (insightName : jsstring)
  | Call_getEventByKey (eventKey : jsstring)
  | Call_getMainThreadTrackSummary (min max : option Z)
  | Call_getNetworkTrackSummary (min max : option Z)
  | Call_getDetailedCallTree (eventKey : jsstring)
  | Call_getResourceContent (url : jsstring)
  | Call_selectEventByKey (eventKey : jsstring).

Definition FunctionCall_name (c : FunctionCall) : FunctionName :=
  match c with
  | Call_getInsightDetails _ => getInsightDetails
  | Call_getEventByKey _ => getEventByKey
  | Call_getMainThreadTrackSummary _ _ => getMainThreadTrackSummary
  | Call_getNetworkTrackSummary _ _ => getNetworkTrackSummary
  | Call_getDetailedCallTree _ => getDetailedCallTree
  | Call_getResourceContent _ => getResourceContent
  | Call_selectEventByKey _ => selectEventByKey
  end.

(** What a handler returns: [{result: ...}] with the text of its one
    field, [{result: {success: true}}], or [{error: ...}]. *)
Inductive FunctionResult : Type :=
  | result (payload : jsstring)
  | result_success
  | error (reason : jsstring).

(** The response events of the agent. *)
Inductive ResponseData : Type :=
  | CONTEXT (title : jsstring) (details : list (jsstring * jsstring))
  | ANSWER (answer : jsstring)
  | ACTION (title action : jsstring).

(** The two histograms the handlers report to. *)
Inductive Metric : Type :=
  | performanceAIMainThreadActivityResponseSize
  | performanceAINetworkSummaryResponseSize.

(** What the agent calls that is not in the source files at hand: the
    two formatters, the resource tree of the SDK, the tracker of fresh
    recordings, and [parseTextResponse] of the class it extends.  A
    [PerformanceTraceFormatter] is made from a focus and its methods read
    nothing else, so each method is a function of that focus. *)
Class Host : Type := {
  networkDataFormatDescription : jsstring;
  formatTraceSummary : AgentFocus → jsstring;
  formatCriticalRequests : AgentFocus → jsstring;
  formatMainThreadBottomUpSummary : AgentFocus → jsstring;
  formatThirdPartySummary : AgentFocus → jsstring;
  formatLongestTasks : AgentFocus → jsstring;
  formatMainThreadTrackSummary : AgentFocus → TraceWindowMicro → jsstring;
  formatNetworkTrackSummary : AgentFocus → TraceWindowMicro → jsstring;
  formatCallTree : AgentFocus → AICallTree → jsstring;
  (** [new PerformanceInsightFormatter(focus, insight).formatInsight()] *)
  formatInsight : AgentFocus → InsightModel → jsstring;
  countWtf8Bytes : jsstring → N;
  recordingIsFresh : ParsedTrace → bool;
  (** [resourceForURL(url)] and then [requestContentData()]: no resource,
      or its text ([inl]), or [{error}] ([inr]). *)
  resourceContent : jsstring → option (jsstring + jsstring);
  ParsedResponse : Type;
  super_parseTextResponse : jsstring → ParsedResponse;
}.

(** The state of one agent, that is of one conversation: the private
    fields of [PerformanceAgent]; of the class it extends, the context of
    the running turn, the fact store and the declared functions; and what
    the agent has done to its host (debug log, histograms, events
    revealed in the flame chart). *)
Record Agent : Type := {
  formatter : option AgentFocus;
  lastInsightForEnhancedQuery : option InsightModel;
  hasShownAnalyzeTraceContext : bool;
  functionCallCacheForFocus : gmap nat (list (jsstring * RequestFact));
  traceFacts : list RequestFact;
  callTreeContextSet : gset nat;
  context : option PerformanceTraceContext;
  facts : list RequestFact;
  declaredFunctions : list (FunctionName * PerformanceTraceContext);
  debugLog : list jsstring;
  userMetrics : list (Metric * N);
  revealed : list Event;
}.

Definition set_formatter (v : option AgentFocus)
    (a : Agent) : Agent :=
  {| formatter := v;
     lastInsightForEnhancedQuery := lastInsightForEnhancedQuery a;
     hasShownAnalyzeTraceContext := hasShownAnalyzeTraceContext a;
     functionCallCacheForFocus := functionCallCacheForFocus a;
     traceFacts := traceFacts a;
     callTreeContextSet := callTreeContextSet a;
     context := context a;
     facts := facts a;
     declaredFunctions := declaredFunctions a;
     debugLog := debugLog a;
     userMetrics := userMetrics a;
     revealed := revealed a |}.

Definition set_lastInsightForEnhancedQuery (v : option InsightModel)
    (a : Agent) : Agent :=
  {| formatter := formatter a;
     lastInsightForEnhancedQuery := v;
     hasShownAnalyzeTraceContext := hasShownAnalyzeTraceContext a;
     functionCallCacheForFocus := functionCallCacheForFocus a;
     traceFacts := traceFacts a;
     callTreeContextSet := callTreeContextSet a;
     context := context a;
     facts := facts a;
     declaredFunctions := declaredFunctions a;
     debugLog := debugLog a;
     userMetrics := userMetrics a;
     revealed := revealed a |}.

Definition set_hasShownAnalyzeTraceContext (v : bool)
    (a : Agent) : Agent :=
  {| formatter := formatter a;
     lastInsightForEnhancedQuery := lastInsightForEnhancedQuery a;
     hasShownAnalyzeTraceContext := v;
     functionCallCacheForFocus := functionCallCacheForFocus a;
     traceFacts := traceFacts a;
     callTreeContextSet := callTreeContextSet a;
     context := context a;
     facts := facts a;
     declaredFunctions := declaredFunctions a;
     debugLog := debugLog a;
     userMetrics := userMetrics a;
     revealed := revealed a |}.

Definition set_functionCallCacheForFocus (v : gmap nat (list (jsstring * RequestFact)))
    (a : Agent) : Agent :=
  {| formatter := formatter a;
     lastInsightForEnhancedQuery := lastInsightForEnhancedQuery a;
     hasShownAnalyzeTraceContext := hasShownAnalyzeTraceContext a;
     functionCallCacheForFocus := v;
     traceFacts := traceFacts a;
     callTreeContextSet := callTreeContextSet a;
     context := context a;
     facts := facts a;
     declaredFunctions := declaredFunctions a;
     debugLog := debugLog a;
     userMetrics := userMetrics a;
     revealed := revealed a |}.

Definition set_traceFacts (v : list RequestFact)
    (a : Agent) : Agent :=
  {| formatter := formatter a;
     lastInsightForEnhancedQuery := lastInsightForEnhancedQuery a;
     hasShownAnalyzeTraceContext := hasShownAnalyzeTraceContext a;
     functionCallCacheForFocus := functionCallCacheForFocus a;
     traceFacts := v;
     callTreeContextSet := callTreeContextSet a;
     context := context a;
     facts := facts a;
     declaredFunctions := declaredFunctions a;
     debugLog := debugLog a;
     userMetrics := userMetrics a;
     revealed := revealed a |}.

Definition set_callTreeContextSet (v : gset nat)
    (a : Agent) : Agent :=
  {| formatter := formatter a;
     lastInsightForEnhancedQuery := lastInsightForEnhancedQuery a;
     hasShownAnalyzeTraceContext := hasShownAnalyzeTraceContext a;
     functionCallCacheForFocus := functionCallCacheForFocus a;
     traceFacts := traceFacts a;
     callTreeContextSet := v;
     context := context a;
     facts := facts a;
     declaredFunctions := declaredFunctions a;
     debugLog := debugLog a;
     userMetrics := userMetrics a;
     revealed := revealed a |}.

Definition set_context (v : option PerformanceTraceContext)
    (a : Agent) : Agent :=
  {| formatter := formatter a;
     lastInsightForEnhancedQuery := lastInsightForEnhancedQuery a;
     hasShownAnalyzeTraceContext := hasShownAnalyzeTraceContext a;
     functionCallCacheForFocus := functionCallCacheForFocus a;
     traceFacts := traceFacts a;
     callTreeContextSet := callTreeContextSet a;
     context := v;
     facts := facts a;
     declaredFunctions := declaredFunctions a;
     debugLog := debugLog a;
     userMetrics := userMetrics a;
     revealed := revealed a |}.

Definition set_facts (v : list RequestFact)
    (a : Agent) : Agent :=
  {| formatter := formatter a;
     lastInsightForEnhancedQuery := lastInsightForEnhancedQuery a;
     hasShownAnalyzeTraceContext := hasShownAnalyzeTraceContext a;
     functionCallCacheForFocus := functionCallCacheForFocus a;
     traceFacts := traceFacts a;
     callTreeContextSet := callTreeContextSet a;
     context := context a;
     facts := v;
     declaredFunctions := declaredFunctions a;
     debugLog := debugLog a;
     userMetrics := userMetrics a;
     revealed := revealed a |}.

Definition set_declaredFunctions (v : list (FunctionName * PerformanceTraceContext))
    (a : Agent) : Agent :=
  {| formatter := formatter a;
     lastInsightForEnhancedQuery := lastInsightForEnhancedQuery a;
     hasShownAnalyzeTraceContext := hasShownAnalyzeTraceContext a;
     functionCallCacheForFocus := functionCallCacheForFocus a;
     traceFacts := traceFacts a;
     callTreeContextSet := callTreeContextSet a;
     context := context a;
     facts := facts a;
     declaredFunctions := v;
     debugLog := debugLog a;
     userMetrics := userMetrics a;
     revealed := revealed a |}.

Definition set_debugLog (v : list jsstring)
    (a : Agent) : Agent :=
  {| formatter := formatter a;
     lastInsightForEnhancedQuery := lastInsightForEnhancedQuery a;
     hasShownAnalyzeTraceContext := hasShownAnalyzeTraceContext a;
     functionCallCacheForFocus := functionCallCacheForFocus a;
     traceFacts := traceFacts a;
     callTreeContextSet := callTreeContextSet a;
     context := context a;
     facts := facts a;
     declaredFunctions := declaredFunctions a;
     debugLog := v;
     userMetrics := userMetrics a;
     revealed := revealed a |}.

Definition set_userMetrics (v : list (Metric * N))
    (a : Agent) : Agent :=
  {| formatter := formatter a;
     lastInsightForEnhancedQuery := lastInsightForEnhancedQuery a;
     hasShownAnalyzeTraceContext := hasShownAnalyzeTraceContext a;
     functionCallCacheForFocus := functionCallCacheForFocus a;
     traceFacts := traceFacts a;
     callTreeContextSet := callTreeContextSet a;
     context := context a;
     facts := facts a;
     declaredFunctions := declaredFunctions a;
     debugLog := debugLog a;
     userMetrics := v;
     revealed := revealed a |}.

Definition set_revealed (v : list Event)
    (a : Agent) : Agent :=
  {| formatter := formatter a;
     lastInsightForEnhancedQuery := lastInsightForEnhancedQuery a;
     hasShownAnalyzeTraceContext := hasShownAnalyzeTraceContext a;
     functionCallCacheForFocus := functionCallCacheForFocus a;
     traceFacts := traceFacts a;
     callTreeContextSet := callTreeContextSet a;
     context := context a;
     facts := facts a;
     declaredFunctions := declaredFunctions a;
     debugLog := debugLog a;
     userMetrics := userMetrics a;
     revealed := v |}.

(** A new agent. *)
Definition new_PerformanceAgent : Agent :=
  {| formatter := None; lastInsightForEnhancedQuery := None;
     hasShownAnalyzeTraceContext := false; functionCallCacheForFocus := ∅;
     traceFacts := []; callTreeContextSet := ∅; context := None; facts := [];
     declaredFunctions := []; debugLog := []; userMetrics := []; revealed := [] |}.

(** *** Methods: a state monad over the agent, with exceptions *)

Definition M (A : Type) : Type := Agent → Agent * Completion A.

Definition ret {A} (x : A) : M A := λ a, (a, Normal x).

Definition throw {A} (err : jsstring) : M A := λ a, (a, Throw err).

Definition bind {A B} (m : M A) (k : A → M B) : M B :=
  λ a, match m a with
       | (a', Normal x) => k x a'
       | (a', Throw err) => (a', Throw err)
       end.

Definition gets {A} (f : Agent → A) : M A := λ a, (a, Normal (f a)).

Definition modify (f : Agent → Agent) : M unit := λ a, (f a, Normal tt).

#[export] Instance M_ret : MRet M := @ret.
#[export] Instance M_bind : MBind M := λ A B k m, bind m k.

(** [for (const x of xs) body(x)] *)
Fixpoint forEach {A} (xs : list A) (body : A → M unit) : M unit :=
  match xs with
  | [] => ret tt
  | x :: xs' => body x;; forEach xs' body
  end.

(** *** Plain objects used as maps

    [Record<string, V>]: the own properties of an object, in the order of
    their creation (no key of the agent is an array index, which alone
    would be ordered differently).  Properties inherited from
    [Object.prototype] are not part of the model. *)

Fixpoint assocGet {V} (key : jsstring) (o : list (jsstring * V)) : option V :=
  match o with
  | [] => None
  | (k, v) :: o' => if decide (k = key) then Some v else assocGet key o'
  end.

(** [o[key] = v]: an existing property keeps its place. *)
Fixpoint assocSet {V} (key : jsstring) (v : V) (o : list (jsstring * V)) : list (jsstring * V) :=
  match o with
  | [] => [(key, v)]
  | (k, w) :: o' => if decide (k = key) then (k, v) :: o' else (k, w) :: assocSet key v o'
  end.

(** [Object.values(o)] *)
Definition values {V} (o : list (jsstring * V)) : list V := o.*2.

(** A string is falsy when it is empty. *)
Definition isEmpty (s : jsstring) : bool :=
  match s with [] => true | _ => false end.

(** *** The regular expression of [#parseForKnownUrls]

    [/(\[(.*?)\]\((.*?)\))|(https?:\/\/[^\s<>()]+)/g], matched the way a
    backtracking matcher does: at each position the markdown link first,
    then the standalone URL. *)

Record RegExpMatch : Type := {
  match_ : jsstring;
  markdownLink : option jsstring;
  linkText : option jsstring;
  linkDest : option jsstring;
  standaloneUrlText : option jsstring;
}.

Fixpoint stripPrefix (p s : jsstring) {struct p} : option jsstring :=
  match p, s with
  | [], _ => Some s
  | _ :: _, [] => None
  | a :: p', b :: s' => if (a =? b)%N then stripPrefix p' s' else None
  end.

(** [(.*?)\)] at the end of the first alternative: the lazy group takes
    no more than it must, so it ends at the first closing parenthesis, and
    it cannot cross a line terminator.  The result is the group and the
    rest of the input. *)
Fixpoint lazyDest (s : jsstring) : option (jsstring * jsstring) :=
  match s with
  | [] => None
  | c :: t =>
      if (c =? 41)%N then Some ([], t)
      else if JS.isLineTerminator c then None
      else '(d, r) ← lazyDest t; Some (c :: d, r)
  end.

(** [(.*?)\]\((.*?)\)] after the opening bracket: the lazy text group is
    extended one code unit at a time until the rest matches. *)
Fixpoint lazyText (s : jsstring) : option (jsstring * jsstring * jsstring) :=
  match s with
  | [] => None
  | c :: t =>
      match stripPrefix (js "](") s ≫= lazyDest with
      | Some (d, r) => Some ([], d, r)
      | None =>
          if JS.isLineTerminator c then None
          else '(x, d, r) ← lazyText t; Some (c :: x, d, r)
      end
  end.

(** [[^\s<>()]] *)
Definition urlChar (c : N) : bool :=
  negb (JS.isWhiteSpace c || (c =? 60) || (c =? 62) || (c =? 40) || (c =? 41))%N.

(** [[^\s<>()]*], greedy: the longest run and the rest. *)
Fixpoint spanUrl (s : jsstring) : jsstring * jsstring :=
  match s with
  | [] => ([], [])
  | c :: t => if urlChar c then let '(u, r) := spanUrl t in (c :: u, r) else ([], s)
  end.

(** [:\/\/[^\s<>()]+] after the scheme. *)
Definition afterScheme (scheme s : jsstring) : option (jsstring * jsstring) :=
  u ← stripPrefix (js "://") s;
  let '(run, rest) := spanUrl u in
  if isEmpty run then None else Some (scheme ++ js "://" ++ run, rest).

(** [https?:\/\/[^\s<>()]+]: the optional [s] is tried first. *)
Definition standaloneUrl (s : jsstring) : option (jsstring * jsstring) :=
  t ← stripPrefix (js "http") s;
  match stripPrefix (js "s") t ≫= afterScheme (js "https") with
  | Some m => Some m
  | None => afterScheme (js "http") t
  end.

(** The match that starts at the head of [s], if there is one. *)
Definition execAt (s : jsstring) : option RegExpMatch :=
  match stripPrefix (js "[") s ≫= lazyText with
  | Some (x, d, _) =>
      let whole := js "[" ++ x ++ js "](" ++ d ++ js ")" in
      Some {| match_ := whole; markdownLink := Some whole; linkText := Some x;
              linkDest := Some d; standaloneUrlText := None |}
  | None =>
      match standaloneUrl s with
      | Some (u, _) =>
          Some {| match_ := u; markdownLink := None; linkText := None;
                  linkDest := None; standaloneUrlText := Some u |}
      | None => None
      end
  end.

(** [s.replace(urlRegex, replacer)] with the global flag: the matches are
    found from left to right, each search starting where the match before
    ended; [skip] counts the code units of the current match that are
    still to be passed over.  No match is empty. *)
Fixpoint replaceFrom (replacer : RegExpMatch → jsstring) (skip : nat) (s : jsstring) : jsstring :=
  match s with
  | [] => []
  | c :: t =>
      match skip with
      | S k => replaceFrom replacer k t
      | O =>
          match execAt s with
          | Some m => replacer m ++ replaceFrom replacer (pred (length (match_ m))) t
          | None => c :: replaceFrom replacer 0 t
          end
      end
  end.

Definition replace (s : jsstring) (replacer : RegExpMatch → jsstring) : jsstring :=
  replaceFrom replacer 0 s.





Section Methods.
Context {engine : TraceEngine} {host : Host}.

(** *** The class the agent extends *)

(** Modelled from the spec: [addFact] of [AiAgent] (AiAgent.ts is not
    under src/).  The fact store keeps the facts in the order of their
    insertion. *)
Definition addFact (fact : RequestFact) : M unit :=
  modify (λ a, set_facts (facts a ++ [fact]) a).

(** Modelled from the spec: [clearFacts] of [AiAgent]; it empties the
    fact store. *)
Definition clearFacts : M unit := modify (set_facts []).

(** Modelled from the spec: [declareFunction] of [AiAgent]; a name is
    declared once in a batch.  The handler of the source is a closure over
    the context the functions were declared for, which the registry keeps. *)
Definition declareFunction (name : FunctionName) (context : PerformanceTraceContext) : M unit :=
  declared ← gets declaredFunctions;
  if bool_decide (name ∈ declared.*1)
  then throw (js "Error: Duplicate function declared")
  else modify (set_declaredFunctions (declared ++ [(name, context)])).

(** Modelled from the spec: [clearDeclaredFunctions] of [AiAgent]. *)
Definition clearDeclaredFunctions : M unit := modify (set_declaredFunctions []).

(** [debugLog(message, ...)], recorded by its message. *)
Definition logDebug (message : jsstring) : M unit :=
  modify (λ a, set_debugLog (debugLog a ++ [message]) a).

(** *** Context details *)

(** [handleContextDetails], run to its end: the events it yields. *)
Definition handleContextDetails (context : option PerformanceTraceContext) : M (list ResponseData) :=
  match context with
  | None => ret []
  | Some _ =>
      shown ← gets hasShownAnalyzeTraceContext;
      if shown : bool then ret []
      else
        fmt ← gets formatter;
        let summary := match fmt with Some f => formatTraceSummary f | None => [] end in
        modify (set_hasShownAnalyzeTraceContext true);;
        ret [CONTEXT (lockedString analyzingTrace) [(js "Trace", summary)]]
  end.

Definition isFunctionResponseTooLarge (response : jsstring) : bool :=
  (Z.of_nat (length response) >? MAX_FUNCTION_RESULT_BYTE_LENGTH)%Z.

(** *** Parsing the response *)

(** The replacer function of [#parseForKnownUrls]. *)
Definition replacer (focus : AgentFocus) (m : RegExpMatch) : jsstring :=
  let internal :=
    match markdownLink m, linkDest m with
    | Some l, Some d => negb (isEmpty l) && JS.startsWith d (js "#")
    | _, _ => false
    end in
  if internal then match_ m
  else
    let urlText := match linkDest m with Some d => Some d | None => standaloneUrlText m end in
    match urlText with
    | None => match_ m
    | Some urlText =>
        if isEmpty urlText then match_ m
        else
          match List.find (λ request, bool_decide (event_url request = Some urlText))
                          (NetworkRequests_byTime (parsedTrace focus)) with
          | None => match_ m
          | Some request =>
              match keyForEvent request with
              | None => match_ m
              | Some eventKey =>
                  if isEmpty eventKey then match_ m
                  else js "[" ++ urlText ++ js "](#" ++ eventKey ++ js ")"
              end
          end
    end.

Definition parseForKnownUrls (a : Agent) (response : jsstring) : jsstring :=
  match context a with
  | None => response
  | Some c => replace response (replacer (getItem c))
  end.

Definition FIVE_BACKTICKS : jsstring := js "`````".

Definition parseTextResponse (a : Agent) (response : jsstring) : ParsedResponse :=
  let response := parseForKnownUrls a response in
  let trimmed := JS.trim response in
  if JS.startsWith trimmed FIVE_BACKTICKS && JS.endsWith trimmed FIVE_BACKTICKS
  then
    let stripped :=
      JS.slice trimmed (Z.of_nat (length FIVE_BACKTICKS)) (- Z.of_nat (length FIVE_BACKTICKS)) in
    super_parseTextResponse stripped
  else super_parseTextResponse response.

(** *** The cache of function calls *)

Definition cacheFunctionResult (focus : AgentFocus) (key result : jsstring) : M unit :=
  let fact :=
    {| text := js "This is the result of calling " ++ key ++ js ":" ++ NL ++ result;
       source := key; score := DEFAULT |} in
  modify (λ a,
    let cache := default [] (functionCallCacheForFocus a !! focus_id focus) in
    let cache := assocSet key fact cache in
    set_functionCallCacheForFocus (<[focus_id focus := cache]> (functionCallCacheForFocus a)) a).

(** *** The handlers of the declared functions *)

Definition getInsightDetails_handler (focus : AgentFocus) (insightName : jsstring)
  : M FunctionResult :=
  logDebug (js "Function call: getInsightDetails");;
  match insightSet focus ≫= (λ s, assocGet insightName (insightSet_model s)) with
  | None => ret (error (js "No insight available"))
  | Some insight =>
      let details := formatInsight focus insight in
      let key := js "getInsightDetails('" ++ insightName ++ js "')" in
      cacheFunctionResult focus key details;;
      ret (result details)
  end.

(** [focus.lookupEvent(key)] *)
Definition lookupEvent (focus : AgentFocus) (key : jsstring) : M (option Event) :=
  λ a, (a, AIContext.lookupEvent (parsedTrace focus) key).

Definition getEventByKey_handler (focus : AgentFocus) (eventKey : jsstring)
  : M FunctionResult :=
  logDebug (js "Function call: getEventByKey");;
  event ← lookupEvent focus eventKey;
  match event with
  | None => ret (error (js "Invalid eventKey"))
  | Some event =>
      let details := JSON_stringify event in
      let key := js "getEventByKey('" ++ eventKey ++ js "')" in
      cacheFunctionResult focus key details;;
      ret (result details)
  end.

(** [min > max] on two numbers of which either may be [undefined]: a
    comparison with [undefined] is false. *)
Definition gt (x y : option Z) : bool :=
  match x, y with
  | Some x, Some y => (x >? y)%Z
  | _, _ => false
  end.

(** [createBounds]; [Math.min(Number.POSITIVE_INFINITY, b)] is [b]. *)
Definition createBounds (parsedTrace : ParsedTrace) (min max : option Z)
  : option TraceWindowMicro :=
  if gt min max then None
  else
    let clampedMin := Z.max (default 0%Z min) (tw_min (traceBounds parsedTrace)) in
    let clampedMax :=
      match max with
      | Some m => Z.min m (tw_max (traceBounds parsedTrace))
      | None => tw_max (traceBounds parsedTrace)
      end in
    if (clampedMin >? clampedMax)%Z then None
    else Some (traceWindowFromMicroSeconds clampedMin clampedMax).

Definition recordMetric (m : Metric) (n : N) : M unit :=
  modify (λ a, set_userMetrics (userMetrics a ++ [(m, n)]) a).

Definition missingFormatter : jsstring := js "Error: missing formatter".

Definition getMainThreadTrackSummary_handler (focus : AgentFocus) (min max : option Z)
  : M FunctionResult :=
  logDebug (js "Function call: getMainThreadTrackSummary");;
  fmt ← gets formatter;
  match fmt with
  | None => throw missingFormatter
  | Some fmt =>
      match createBounds (parsedTrace focus) min max with
      | None => ret (error (js "invalid bounds"))
      | Some bounds =>
          let summary := formatMainThreadTrackSummary fmt bounds in
          if isFunctionResponseTooLarge summary
          then ret (error (js "getMainThreadTrackSummary response is too large. Try investigating using other functions, or a more narrow bounds"))
          else
            let byteCount := countWtf8Bytes summary in
            recordMetric performanceAIMainThreadActivityResponseSize byteCount;;
            let key := js "getMainThreadTrackSummary({min: " ++ JS.ofZ (tw_min bounds)
                       ++ js ", max: " ++ JS.ofZ (tw_max bounds) ++ js "})" in
            cacheFunctionResult focus key summary;;
            ret (result summary)
      end
  end.

Definition getNetworkTrackSummary_handler (focus : AgentFocus) (min max : option Z)
  : M FunctionResult :=
  logDebug (js "Function call: getNetworkTrackSummary");;
  fmt ← gets formatter;
  match fmt with
  | None => throw missingFormatter
  | Some fmt =>
      match createBounds (parsedTrace focus) min max with
      | None => ret (error (js "invalid bounds"))
      | Some bounds =>
          let summary := formatNetworkTrackSummary fmt bounds in
          if isFunctionResponseTooLarge summary
          then ret (error (js "getNetworkTrackSummary response is too large. Try investigating using other functions, or a more narrow bounds"))
          else
            let byteCount := countWtf8Bytes summary in
            recordMetric performanceAINetworkSummaryResponseSize byteCount;;
            let key := js "getNetworkTrackSummary({min: " ++ JS.ofZ (tw_min bounds)
                       ++ js ", max: " ++ JS.ofZ (tw_max bounds) ++ js "})" in
            cacheFunctionResult focus key summary;;
            ret (result summary)
      end
  end.

Definition getDetailedCallTree_handler (focus : AgentFocus) (eventKey : jsstring)
  : M FunctionResult :=
  logDebug (js "Function call: getDetailedCallTree");;
  fmt ← gets formatter;
  match fmt with
  | None => throw missingFormatter
  | Some fmt =>
      event ← lookupEvent focus eventKey;
      match event with
      | None => ret (error (js "Invalid eventKey"))
      | Some event =>
          let tree := AICallTree_fromEvent event (parsedTrace focus) in
          let callTree :=
            match tree with
            | Some tree => formatCallTree fmt tree
            | None => js "No call tree found"
            end in
          let key := js "getDetailedCallTree(" ++ eventKey ++ js ")" in
          cacheFunctionResult focus key callTree;;
          ret (result callTree)
      end
  end.

Definition getResourceContent_handler (focus : AgentFocus) (url : jsstring)
  : M FunctionResult :=
  logDebug (js "Function call: getResourceContent");;
  match resourceContent url with
  | None => ret (error (js "Resource not found"))
  | Some (inr err) => ret (error (js "Could not get resource content: " ++ err))
  | Some (inl content) =>
      let key := js "getResourceContent(" ++ url ++ js ")" in
      cacheFunctionResult focus key content;;
      ret (result content)
  end.

Definition selectEventByKey_handler (focus : AgentFocus) (eventKey : jsstring)
  : M FunctionResult :=
  logDebug (js "Function call: selectEventByKey");;
  event ← lookupEvent focus eventKey;
  match event with
  | None => ret (error (js "Invalid eventKey"))
  | Some event =>
      modify (λ a, set_revealed (revealed a ++ [event]) a);;
      ret result_success
  end.

(** The handler that [#declareFunctions] gives the function of a call,
    for the context the functions were declared for. *)
Definition handler (context : PerformanceTraceContext) (call : FunctionCall) : M FunctionResult :=
  let focus := getItem context in
  match call with
  | Call_getInsightDetails insightName => getInsightDetails_handler focus insightName
  | Call_getEventByKey eventKey => getEventByKey_handler focus eventKey
  | Call_getMainThreadTrackSummary min max => getMainThreadTrackSummary_handler focus min max
  | Call_getNetworkTrackSummary min max => getNetworkTrackSummary_handler focus min max
  | Call_getDetailedCallTree eventKey => getDetailedCallTree_handler focus eventKey
  | Call_getResourceContent url => getResourceContent_handler focus url
  | Call_selectEventByKey eventKey => selectEventByKey_handler focus eventKey
  end.

(** [`${x}`] for a bound that may be missing. *)
Definition ofBound (x : option Z) : jsstring :=
  match x with Some z => JS.ofZ z | None => js "undefined" end.

(** [displayInfoFromArgs] of the function of a call: title and action. *)
Definition displayInfoFromArgs (call : FunctionCall) : jsstring * jsstring :=
  match call with
  | Call_getInsightDetails insightName =>
      (lockedString (js "Investigating insight " ++ insightName ++ [8230%N]),
       js "getInsightDetails('" ++ insightName ++ js "')")
  | Call_getEventByKey eventKey =>
      (lockedString (js "Looking at trace event" ++ [8230%N]),
       js "getEventByKey('" ++ eventKey ++ js "')")
  | Call_getMainThreadTrackSummary min max =>
      (lockedString mainThreadActivity,
       js "getMainThreadTrackSummary({min: " ++ ofBound min ++ js ", max: " ++ ofBound max
       ++ js "})")
  | Call_getNetworkTrackSummary min max =>
      (lockedString networkActivitySummary,
       js "getNetworkTrackSummary({min: " ++ ofBound min ++ js ", max: " ++ ofBound max
       ++ js "})")
  | Call_getDetailedCallTree eventKey =>
      (lockedString (js "Looking at call tree" ++ [8230%N]),
       js "getDetailedCallTree('" ++ eventKey ++ js "')")
  | Call_getResourceContent url =>
      (lockedString (js "Looking at resource content" ++ [8230%N]),
       js "getResourceContent('" ++ url ++ js "')")
  | Call_selectEventByKey eventKey =>
      (lockedString (js "Selecting event" ++ [8230%N]),
       js "selectEventByKey('" ++ eventKey ++ js "')")
  end.

Definition declareFunctions (context : PerformanceTraceContext) : M unit :=
  let focus := getItem context in
  let parsedTrace := parsedTrace focus in
  declareFunction getInsightDetails context;;
  declareFunction getEventByKey context;;
  declareFunction getMainThreadTrackSummary context;;
  declareFunction getNetworkTrackSummary context;;
  declareFunction getDetailedCallTree context;;
  let isFresh := recordingIsFresh parsedTrace in
  let hasScriptContents :=
    enhancedTraceVersion parsedTrace
    && existsb (λ content, negb (isEmpty (default [] content))) (scripts_content parsedTrace) in
  (if isFresh || hasScriptContents then declareFunction getResourceContent context else ret tt);;
  (if negb (external context) then declareFunction selectEventByKey context else ret tt).

(** *** Enhancing the query *)

(** [a !== b] on an insight and the insight sent last, by identity. *)
Definition differsFrom (i : InsightModel) (last : option InsightModel) : bool :=
  match last with
  | Some l => negb (insight_id i =? insight_id l)
  | None => true
  end.

Definition callTreeSection (contextString : jsstring) : jsstring :=
  js "User selected the following call tree:" ++ NL ++ NL ++ contextString ++ NL ++ NL.

Definition insightSection (i : InsightModel) : jsstring :=
  js "User selected the " ++ insightKey i ++ js " insight." ++ NL ++ NL.

(** The part of [enhanceQuery] that fills the array [selected]. *)
Definition selectedParts (focus : AgentFocus) : M (list jsstring) :=
  fromCallTree ←
    match callTree focus with
    | Some ct =>
        shown ← gets (λ a, bool_decide (callTree_id ct ∈ callTreeContextSet a));
        contextString ←
          (if shown : bool then ret []
           else
             modify (λ a, set_callTreeContextSet ({[callTree_id ct]} ∪ callTreeContextSet a) a);;
             ret (serialize ct));
        ret (if isEmpty contextString then [] else [callTreeSection contextString])
    | None => ret []
    end;
  fromInsight ←
    match insight focus with
    | Some i =>
        last ← gets lastInsightForEnhancedQuery;
        let includeInsightInfo := differsFrom i last in
        modify (set_lastInsightForEnhancedQuery (Some i));;
        ret (if includeInsightInfo then [insightSection i] else [])
    | None => ret []
    end;
  ret (fromCallTree ++ fromInsight).

Definition userQuery (query : jsstring) : jsstring :=
  js "# User query" ++ NL ++ NL ++ query.

Definition enhanceQuery (query : jsstring) (context : option PerformanceTraceContext) : M jsstring :=
  match context with
  | None => clearDeclaredFunctions;; ret query
  | Some context =>
      clearDeclaredFunctions;;
      declareFunctions context;;
      selected ← selectedParts (getItem context);
      match selected with
      | [] => ret query
      | _ => ret (JS.join (selected ++ [userQuery query]))
      end
  end.

(** *** The facts of a turn *)

Definition notExternalExtraPreambleFact : RequestFact :=
  {| text := extraPreambleWhenNotExternal; source := js "devtools"; score := CRITICAL |}.

Definition networkDataDescriptionFact : RequestFact :=
  {| text := networkDataFormatDescription; source := js "devtools"; score := CRITICAL |}.

Definition callFrameDataDescriptionFact : RequestFact :=
  {| text := callFrameDataFormatDescription; source := js "devtools"; score := CRITICAL |}.

(** The shape the five [#createFactFor...] methods share: nothing
    without a formatter, nothing for an empty text, else one more trace
    fact. *)
Definition createFactFrom (format : AgentFocus → jsstring) (fact : jsstring → RequestFact) : M unit :=
  fmt ← gets formatter;
  match fmt with
  | None => ret tt
  | Some fmt =>
      let text := format fmt in
      if isEmpty text then ret tt
      else modify (λ a, set_traceFacts (traceFacts a ++ [fact text]) a)
  end.

Definition devtoolsFact (p : ScorePriority) (text : jsstring) : RequestFact :=
  {| text := text; source := js "devtools"; score := p |}.

Definition createFactForTraceSummary : M unit :=
  createFactFrom formatTraceSummary
    (λ text, devtoolsFact REQUIRED (js "Trace summary:" ++ NL ++ text)).

Definition createFactForCriticalRequests : M unit :=
  createFactFrom formatCriticalRequests (devtoolsFact CRITICAL).

Definition createFactForMainThreadBottomUpSummary : M unit :=
  createFactFrom formatMainThreadBottomUpSummary (devtoolsFact CRITICAL).

Definition createFactForThirdPartySummary : M unit :=
  createFactFrom formatThirdPartySummary (devtoolsFact CRITICAL).

Definition createFactForLongestTasks : M unit :=
  createFactFrom formatLongestTasks (devtoolsFact CRITICAL).

Definition addFacts (context : PerformanceTraceContext) : M unit :=
  let focus := getItem context in
  (if negb (external context) then addFact notExternalExtraPreambleFact else ret tt);;
  addFact callFrameDataDescriptionFact;;
  addFact networkDataDescriptionFact;;
  memo ← gets traceFacts;
  (if bool_decide (length memo = 0)
   then
     modify (set_formatter (Some focus));;
     createFactForTraceSummary;;
     createFactForCriticalRequests;;
     createFactForMainThreadBottomUpSummary;;
     createFactForThirdPartySummary;;
     createFactForLongestTasks
   else ret tt);;
  memo ← gets traceFacts;
  forEach memo addFact;;
  cachedFunctionCalls ← gets (λ a, functionCallCacheForFocus a !! focus_id focus);
  match cachedFunctionCalls with
  | Some cached => forEach (values cached) addFact
  | None => ret tt
  end.

(** [run]: the facts are rebuilt, and the turn goes on in [run] of the
    class the agent extends, which is [super_run] here. *)
Definition run {R} (super_run : jsstring → option PerformanceTraceContext → M R)
    (initialQuery : jsstring) (selected : option PerformanceTraceContext) : M R :=
  clearFacts;;
  match selected with
  | Some context => addFacts context
  | None => ret tt
  end;;
  super_run initialQuery selected.

(** *** The function-calling step *)

(** Modelled from the spec: one round of the function-calling sub-loop of
    [AiAgent.run] (AiAgent.ts is not under src/), after sections 2, 4.1,
    4.2 and 4.4 of the specification.  The declared function is looked up
    by its name.  The canonical call string of the call is the action of
    [displayInfoFromArgs].  A call whose canonical call string has an
    entry in the function-result cache of the current focus, the focus of
    the context the functions are declared for, is served from the cache:
    the answer is the cached fact text, and the handler is not invoked.
    Every other call invokes the handler with the arguments; storing the
    result in the cache is what the handlers under src/ do themselves, in
    [#cacheFunctionResult].  An ACTION event carries the title and the
    action. *)
Definition callFunction (call : FunctionCall) : M (ResponseData * FunctionResult) :=
  declared ← gets declaredFunctions;
  match List.find (λ d, bool_decide (d.1 = FunctionCall_name call)) declared with
  | None => throw (js "Error: Function not found")
  | Some (_, context) =>
      let '(title, action) := displayInfoFromArgs call in
      cached ← gets (λ a,
        assocGet action
          (default [] (functionCallCacheForFocus a !! focus_id (getItem context))));
      r ← match cached with
          | Some fact => ret (result (text fact))
          | None => handler context call
          end;
      ret (ACTION title action, r)
  end.

(** Several calls, each on the state the call before left. *)
Fixpoint sequence {A} (ms : list (M A)) : M (list A) :=
  match ms with
  | [] => ret []
  | m :: ms' => x ← m; xs ← sequence ms'; ret (x :: xs)
  end.

(** The summary facts that [#addFacts] computes for a focus when none are
    memoized. *)
Definition summaryFacts (focus : AgentFocus) : list RequestFact :=
  let one (format : AgentFocus → jsstring) (fact : jsstring → RequestFact) :=
    if isEmpty (format focus) then [] else [fact (format focus)] in
  one formatTraceSummary (λ text, devtoolsFact REQUIRED (js "Trace summary:" ++ NL ++ text))
  ++ one formatCriticalRequests (devtoolsFact CRITICAL)
  ++ one formatMainThreadBottomUpSummary (devtoolsFact CRITICAL)
  ++ one formatThirdPartySummary (devtoolsFact CRITICAL)
  ++ one formatLongestTasks (devtoolsFact CRITICAL).

(** The static facts of a context, in the order [#addFacts] adds them. *)
Definition staticFacts (context : PerformanceTraceContext) : list RequestFact :=
  (if external context then [] else [notExternalExtraPreambleFact])
  ++ [callFrameDataDescriptionFact; networkDataDescriptionFact].

(** The functions that [#declareFunctions] declares for a context, in
    their order. *)
Definition declaredFor (context : PerformanceTraceContext)
  : list (FunctionName * PerformanceTraceContext) :=
  let parsedTrace := parsedTrace (getItem context) in
  [(getInsightDetails, context); (getEventByKey, context);
   (getMainThreadTrackSummary, context); (getNetworkTrackSummary, context);
   (getDetailedCallTree, context)]
  ++ (if recordingIsFresh parsedTrace
         || enhancedTraceVersion parsedTrace
            && existsb (λ content, negb (isEmpty (default [] content)))
                       (scripts_content parsedTrace)
      then [(getResourceContent, context)] else [])
  ++ (if negb (external context) then [(selectEventByKey, context)] else []).


(** The requested range and a time window have a time in common. *)
Definition intersects (min max : Z) (w : TraceWindowMicro) : Prop :=
  ∃ t : Z, (min ≤ t ≤ max)%Z ∧ (tw_min w ≤ t ≤ tw_max w)%Z.

(** The serializer reports the key as unknown: it finds nothing, or it
    throws one of the two errors that [lookupEvent] takes for that. *)
Definition reportsUnknown (parsedTrace : ParsedTrace) (key : jsstring) : Prop :=
  match eventForKey key parsedTrace with
  | Normal None => True
  | Normal (Some _) => False
  | Throw err => AIContext.includesUnknown err = true
  end.

(** The handler invocations so far: each handler starts with a call of
    [debugLog], and nothing else logs. *)
Definition handlerInvocations (a : Agent) : nat := length (debugLog a).

(** The cached function-call facts of a focus. *)
Definition cachedFacts (a : Agent) (focus : AgentFocus) : list RequestFact :=
  values (default [] (functionCallCacheForFocus a !! focus_id focus)).

End Methods.

End PerformanceAgent.

(** ** Concrete traces, contexts and collaborators

    Small instances of the interfaces, on which the statements below are
    evaluated. *)

Module Examples.
Import PerformanceAgent.

(** A text of [n] code units. *)
Definition filler (n : nat) : jsstring := replicate n 120%N.

Definition requestX : Event :=
  {| event_id := 1; event_json := js "{}"; event_url := Some (js "https://a.com/x") |}.

(** An event whose JSON text is longer than the budget of a result. *)
Definition bigEvent : Event :=
  {| event_id := 2; event_json := filler (Z.to_nat 70000); event_url := None |}.

Definition traceA : ParsedTrace :=
  {| insights := Some []; traceBounds := traceWindowFromMicroSeconds 0 100000;
     NetworkRequests_byTime := [requestX]; enhancedTraceVersion := false;
     scripts_content := [] |}.

Definition traceB : ParsedTrace :=
  {| insights := Some []; traceBounds := traceWindowFromMicroSeconds 5 50;
     NetworkRequests_byTime := []; enhancedTraceVersion := false;
     scripts_content := [] |}.

Definition tree7 : AICallTree :=
  {| callTree_id := 7; callTree_parsedTrace := traceA; serialize := js "1;main;500;100;;" |}.

Definition focusA : AgentFocus :=
  {| focus_id := 1; parsedTrace := traceA; insightSet := None; insight := None;
     callTree := None |}.

Definition focusB : AgentFocus :=
  {| focus_id := 2; parsedTrace := traceB; insightSet := None; insight := None;
     callTree := None |}.

Definition focusTree : AgentFocus :=
  {| focus_id := 3; parsedTrace := traceA; insightSet := None; insight := None;
     callTree := Some tree7 |}.

Definition contextA : PerformanceTraceContext := {| getItem := focusA; external := false |}.
Definition contextB : PerformanceTraceContext := {| getItem := focusB; external := false |}.
Definition contextTree : PerformanceTraceContext :=
  {| getItem := focusTree; external := false |}.

(** A serializer whose keys are [s-] and the identity of the event; the
    key [r-2] is that of [bigEvent]. *)
Definition exampleKey (e : Event) : jsstring := js "s-" ++ JS.ofZ (Z.of_nat (event_id e)).

Definition exampleEngine : TraceEngine :=
  {| AICallTree_fromEvent := λ _ _, None;
     eventForKey := λ key pt,
       if decide (key = js "r-2") then Normal (Some bigEvent)
       else
         match List.find (λ e, bool_decide (exampleKey e = key)) (NetworkRequests_byTime pt) with
         | Some e => Normal (Some e)
         | None => Throw (js "Error: Unknown trace event")
         end;
     keyForEvent := λ e, Some (exampleKey e) |}.

(** Formatters whose trace summary names the trace by its bounds, and
    whose track summaries are as long as the window they are asked for. *)
Definition exampleHost : Host :=
  {| networkDataFormatDescription := js "network data format";
     formatTraceSummary := λ f,
       js "Summary of " ++ getOrigin {| getItem := f; external := false |};
     formatCriticalRequests := λ _, [];
     formatMainThreadBottomUpSummary := λ _, [];
     formatThirdPartySummary := λ _, [];
     formatLongestTasks := λ _, [];
     formatMainThreadTrackSummary := λ _ w, filler (Z.to_nat (tw_range w));
     formatNetworkTrackSummary := λ _ w, filler (Z.to_nat (tw_range w));
     formatCallTree := λ _ t, serialize t;
     formatInsight := λ _ i, insight_title i;
     countWtf8Bytes := λ s, N.of_nat (length s);
     recordingIsFresh := λ _, false;
     resourceContent := λ _, None;
     ParsedResponse := jsstring;
     super_parseTextResponse := λ s, s |}.

#[local] Existing Instances exampleEngine exampleHost.

(** An agent in the middle of a turn on [contextA]. *)
Definition agentOnA : Agent := set_context (Some contextA) new_PerformanceAgent.

(** A turn as far as the facts go: [run], with nothing done by the base
    class. *)
Definition factsOfTurn (selected : option PerformanceTraceContext) : M unit :=
  run (λ _ _, ret tt) (js "q") selected.

(** The functions are declared for [contextA], and the model makes the
    same call twice. *)
Definition twoIdenticalCalls (call : FunctionCall)
  : M ((ResponseData * FunctionResult) * (ResponseData * FunctionResult)) :=
  enhanceQuery (js "q") (Some contextA);;
  first ← callFunction call;
  second ← callFunction call;
  mret (first, second).

(** An agent whose formatter was made for [focusA]. *)
Definition agentWithFormatter : Agent := set_formatter (Some focusA) new_PerformanceAgent.

(** The agent after [enhanceQuery] for [contextA]. *)
Definition agentDeclaredA : Agent := (enhanceQuery (js "q") (Some contextA) new_PerformanceAgent).1.

(** A response wrapped in the fence, with the URL of [requestX] inside. *)
Definition fencedInner : jsstring := NL ++ js "see https://a.com/x now" ++ NL.

Definition fencedResponse : jsstring := js "`````" ++ fencedInner ++ js "`````".

(** The match of the expression at a standalone URL. *)
Definition standaloneMatch (url : jsstring) : RegExpMatch :=
  {| match_ := url; markdownLink := None; linkText := None; linkDest := None;
     standaloneUrlText := Some url |}.

End Examples.

(** ** The rest of the two files *)

Module AIContextModel.
Import AIContext.

(** [getPerformanceAgentFocusFromModel]: [model.parsedTrace()] is the
    parsed trace of the model, or [null]. *)
Definition getPerformanceAgentFocusFromModel {engine : TraceEngine}
    (h : Store) (model_parsedTrace : option ParsedTrace)
  : Store * Completion (option AgentFocus) :=
  match model_parsedTrace with
  | None => (h, Normal None)
  | Some parsedTrace =>
      match fromParsedTrace h parsedTrace with
      | (h', Normal focus) => (h', Normal (Some focus))
      | (h', Throw err) => (h', Throw err)
      end
  end.

End AIContextModel.

Module FunctionCalls.
Import PerformanceAgent.

(** The fact that [#cacheFunctionResult] stores for a key and a result. *)
Definition functionCallFact (key result : jsstring) : RequestFact :=
  {| text := js "This is the result of calling " ++ key ++ js ":" ++ NL ++ result;
     source := key; score := DEFAULT |}.

(** The key under which the handler of a call caches its result: the
    constant [key] of each handler.  The two track summaries write the
    bounds of the window into it, not those of the call;
    [selectEventByKey] caches nothing. *)
Definition cacheKey (parsedTrace : ParsedTrace) (call : FunctionCall) : option jsstring :=
  match call with
  | Call_getInsightDetails insightName =>
      Some (js "getInsightDetails('" ++ insightName ++ js "')")
  | Call_getEventByKey eventKey => Some (js "getEventByKey('" ++ eventKey ++ js "')")
  | Call_getMainThreadTrackSummary min max =>
      bounds ← createBounds parsedTrace min max;
      Some (js "getMainThreadTrackSummary({min: " ++ JS.ofZ (tw_min bounds)
            ++ js ", max: " ++ JS.ofZ (tw_max bounds) ++ js "})")
  | Call_getNetworkTrackSummary min max =>
      bounds ← createBounds parsedTrace min max;
      Some (js "getNetworkTrackSummary({min: " ++ JS.ofZ (tw_min bounds)
            ++ js ", max: " ++ JS.ofZ (tw_max bounds) ++ js "})")
  | Call_getDetailedCallTree eventKey => Some (js "getDetailedCallTree(" ++ eventKey ++ js ")")
  | Call_getResourceContent url => Some (js "getResourceContent(" ++ url ++ js ")")
  | Call_selectEventByKey _ => None
  end.

(** The keys of the cached calls of a focus, in the order of the cache. *)
Definition cachedKeys (a : Agent) (focus : AgentFocus) : list jsstring :=
  (default [] (functionCallCacheForFocus a !! focus_id focus)).*1.

(** The invariant behind [#formatter]: summary facts are memoized only
    by a formatter that is still there. *)
Definition formatterReady (a : Agent) : Prop :=
  traceFacts a = [] ∨ is_Some (formatter a).

End FunctionCalls.

(** What happens to an agent in the course of a conversation. *)
Module Turns.
Import PerformanceAgent.

Section WithCollaborators.
Context {engine : TraceEngine} {host : Host}.

(** One call of a method of the agent, or of a handler that
    [#declareFunctions] made for a context; [run] is taken as far as the
    facts go. *)
Inductive Operation : Type :=
  | Op_handler (context : PerformanceTraceContext) (call : FunctionCall)
  | Op_enhanceQuery (query : jsstring) (context : option PerformanceTraceContext)
  | Op_run (query : jsstring) (selected : option PerformanceTraceContext)
  | Op_handleContextDetails (context : option PerformanceTraceContext).

(** The agent after an operation, whether it returned or threw. *)
Definition operate (op : Operation) (a : Agent) : Agent :=
  match op with
  | Op_handler context call => (handler context call a).1
  | Op_enhanceQuery query context => (enhanceQuery query context a).1
  | Op_run query selected => (run (λ _ _, ret tt) query selected a).1
  | Op_handleContextDetails context => (handleContextDetails context a).1
  end.

Definition operations (ops : list Operation) (a : Agent) : Agent :=
  foldl (λ a op, operate op a) a ops.




End WithCollaborators.

End Turns.

Module Suggestions.
Import PerformanceAgent.

(** One entry of [ConversationSuggestions]. *)
Record ConversationSuggestion : Type := {
  title : jsstring;
  jslogContext : jsstring;
}.

Inductive ScoreClassification : Type := GOOD | OK | BAD.

#[export] Instance ScoreClassification_eq_dec : EqDecision ScoreClassification.
Proof. solve_decision. Defined.

(** What [getSuggestions] reads of the insights and of the handlers of
    the trace engine: the three metrics of an insight set, each with a
    value or missing, the classification of a value, and the suggestions
    of the formatter of an insight. *)
Class Insights : Type := {
  MetricValue : Type;
  getLCP : InsightSet → option MetricValue;
  getCLS : InsightSet → option MetricValue;
  getINP : InsightSet → option MetricValue;
  scoreClassificationForLargestContentfulPaint : MetricValue → ScoreClassification;
  scoreClassificationForInteractionToNextPaint : MetricValue → ScoreClassification;
  scoreClassificationForLayoutShift : MetricValue → ScoreClassification;
  (** [new PerformanceInsightFormatter(focus, insight).getSuggestions()] *)
  insightSuggestions : AgentFocus → InsightModel → list ConversationSuggestion;
}.

Definition performanceDefault (title : jsstring) : ConversationSuggestion :=
  {| title := title; jslogContext := js "performance-default" |}.

Definition callTreeSuggestions : list ConversationSuggestion :=
  [performanceDefault (js "What's the purpose of this work?");
   performanceDefault (js "Where is time being spent?");
   performanceDefault (js "How can I optimize this?")].

Definition firstSuggestion : ConversationSuggestion :=
  performanceDefault (js "What performance issues exist with my page?").

(** [metric && classify(metric.value) !== GOOD] *)
Definition notGood {V} (metric : option V) (classify : V → ScoreClassification) : bool :=
  match metric with
  | Some value => negb (bool_decide (classify value = GOOD))
  | None => false
  end.

(** [PerformanceTraceContext.getSuggestions] *)
Definition getSuggestions {insights : Insights} (context : PerformanceTraceContext)
  : list ConversationSuggestion :=
  let data := getItem context in
  match callTree data with
  | Some _ => callTreeSuggestions
  | None =>
      match insight data with
      | Some i => insightSuggestions data i
      | None =>
          let suggestions := [firstSuggestion] in
          match insightSet data with
          | Some set =>
              let lcp := getLCP set in
              let cls := getCLS set in
              let inp := getINP set in
              let suggestions :=
                if notGood lcp scoreClassificationForLargestContentfulPaint
                then suggestions ++ [performanceDefault (js "How can I improve LCP?")]
                else suggestions in
              let suggestions :=
                if notGood inp scoreClassificationForInteractionToNextPaint
                then suggestions ++ [performanceDefault (js "How can I improve INP?")]
                else suggestions in
              let suggestions :=
                if notGood cls scoreClassificationForLayoutShift
                then suggestions ++ [performanceDefault (js "How can I improve CLS?")]
                else suggestions in
              suggestions
          | None => suggestions
          end
      end
  end.

End Suggestions.

(** Instances of the additional interfaces, for the evaluations. *)
Module MoreExamples.
Import PerformanceAgent Examples Suggestions.

Definition insightLCP : InsightModel :=
  {| insight_id := 11; insightKey := js "LCPBreakdown"; insight_title := js "LCP breakdown" |}.

Definition insightCLS : InsightModel :=
  {| insight_id := 12; insightKey := js "CLSCulprits"; insight_title := js "Layout shifts" |}.

Definition setWithNavigation : InsightSet :=
  {| insightSet_navigation := true;
     insightSet_model := [(js "LCPBreakdown", insightLCP); (js "CLSCulprits", insightCLS)] |}.

Definition setWithoutNavigation : InsightSet :=
  {| insightSet_navigation := false; insightSet_model := [] |}.

Definition contextWithInsight (i : InsightModel) : PerformanceTraceContext :=
  {| getItem := {| focus_id := 4; parsedTrace := traceA; insightSet := Some setWithNavigation;
                   insight := Some i; callTree := None |};
     external := false |}.

Definition contextWithInsightSet : PerformanceTraceContext :=
  {| getItem := {| focus_id := 5; parsedTrace := traceA; insightSet := Some setWithNavigation;
                   insight := None; callTree := None |};
     external := true |}.

(** Metrics in milliseconds: an LCP of 4000 and an INP of 100 for every
    insight set, no CLS; the thresholds of the three classifications. *)
Definition exampleInsights : Insights :=
  {| MetricValue := Z;
     getLCP := λ _, Some 4000%Z;
     getCLS := λ _, None;
     getINP := λ _, Some 100%Z;
     scoreClassificationForLargestContentfulPaint := λ v,
       if (v <=? 2500)%Z then GOOD else if (v <=? 4000)%Z then OK else BAD;
     scoreClassificationForInteractionToNextPaint := λ v,
       if (v <=? 200)%Z then GOOD else if (v <=? 500)%Z then OK else BAD;
     scoreClassificationForLayoutShift := λ v,
       if (v <=? 0)%Z then GOOD else BAD;
     insightSuggestions := λ _ i, [performanceDefault (js "Tell me about " ++ insight_title i)] |}.

(** A serializer that fails for a reason other than an unknown key. *)
Definition brokenEngine : TraceEngine :=
  {| AICallTree_fromEvent := λ _ _, None;
     eventForKey := λ _ _, Throw (js "TypeError: no active manager");
     keyForEvent := λ _, None |}.

End MoreExamples.

(** ** Tactics for the methods *)

(** Unfolds the monad of the methods. *)
Ltac monad :=
  unfold mbind, PerformanceAgent.M_bind, PerformanceAgent.bind, mret,
    PerformanceAgent.M_ret, PerformanceAgent.ret, PerformanceAgent.gets,
    PerformanceAgent.modify, PerformanceAgent.throw in *.

(** Unfolds a handler down to the state it returns. *)
Ltac handler_steps :=
  unfold PerformanceAgent.handler, PerformanceAgent.getInsightDetails_handler,
    PerformanceAgent.getEventByKey_handler,
    PerformanceAgent.getMainThreadTrackSummary_handler,
    PerformanceAgent.getNetworkTrackSummary_handler,
    PerformanceAgent.getDetailedCallTree_handler,
    PerformanceAgent.getResourceContent_handler,
    PerformanceAgent.selectEventByKey_handler, PerformanceAgent.lookupEvent,
    PerformanceAgent.cacheFunctionResult, PerformanceAgent.logDebug,
    PerformanceAgent.recordMetric in *;
  monad.

(** * Properties *)

(** ** AgentFocus: at most one of event and call tree *)

Section FocusInvariant.
Import AIContext.
Context {engine : TraceEngine}.

Lemma getCallTreeOrEvent_atMostOne pt ev :
  (getCallTreeOrEvent pt ev).2 = None ∨ (getCallTreeOrEvent pt ev).1 = None.
Proof.
  unfold getCallTreeOrEvent.
  destruct (ev ≫= _) as [ct|]; [by left|].
  destruct ev as [e|]; [|by left].
  destruct (isSyntheticNetworkRequest e); by right.
Qed.

Lemma alloc_fresh h d : h !! (alloc h d).2 = None.
Proof. apply not_elem_of_dom, is_fresh. Qed.

Lemma alloc_lookup h d : (alloc h d).1 !! (alloc h d).2 = Some d.
Proof. apply lookup_insert_eq. Qed.

Lemma alloc_storeOk h d : storeOk h → atMostOne d → storeOk (alloc h d).1.
Proof. intros Hh Hd. apply map_Forall_insert_2; done. Qed.

Lemma alloc_keeps h d ref : is_Some (h !! ref) → is_Some ((alloc h d).1 !! ref).
Proof.
  intros Hs. unfold alloc; simpl. rewrite lookup_insert_is_Some. destruct (decide (fresh (dom h) = ref)); auto.
Qed.

Lemma madeOk_mono h h' made :
  (∀ ref, is_Some (h !! ref) → is_Some (h' !! ref)) → madeOk h made → madeOk h' made.
Proof. intros Hm Hmade. eapply Forall_impl; [exact Hmade|]. intros f. apply Hm. Qed.

Lemma new_AgentFocus_ref h ref f : new_AgentFocus h ref = Normal f → data_ref f = ref.
Proof.
  unfold new_AgentFocus. destruct (h !! ref) as [d|]; [|done].
  destruct (insights _); [|done]. by intros [= <-].
Qed.

Lemma new_AgentFocus_live h ref f : new_AgentFocus h ref = Normal f → is_Some (h !! ref).
Proof. unfold new_AgentFocus. destruct (h !! ref) as [d|]; [eauto|done]. Qed.

(** A constructor that stores a fresh data object keeps both
    invariants, and its result refers to that object. *)
Lemma construct_ok h d :
  storeOk h → atMostOne d →
  let r := (let '(h', ref) := alloc h d in (h', new_AgentFocus h' ref)) in
  storeOk r.1 ∧
  (∀ ref, is_Some (h !! ref) → is_Some (r.1 !! ref)) ∧
  (∀ f, r.2 = Normal f → is_Some (r.1 !! data_ref f)).
Proof.
  intros Hh Hd. simpl. split_and!.
  - by apply alloc_storeOk.
  - intros ref. apply alloc_keeps.
  - intros f Hf. rewrite (new_AgentFocus_ref _ _ _ Hf), lookup_insert_eq. eauto.
Qed.

Lemma storeOk_alter h ref g :
  storeOk h → (∀ d, h !! ref = Some d → atMostOne (g d)) → storeOk (alter g ref h).
Proof.
  intros Hh Hg ref' d'. rewrite lookup_alter_Some.
  intros [(-> & d & Hd & ->)|[_ Hd]]; [by eapply Hg|by eapply Hh].
Qed.

Lemma alter_keeps (h : Store) ref g ref' :
  is_Some (h !! ref') → is_Some (alter g ref h !! ref').
Proof. by rewrite lookup_alter_is_Some. Qed.

(** Each operation keeps the store well formed, forgets no object, and
    returns a focus of the store. *)
Lemma exec_ok h made op :
  storeOk h → madeOk h made →
  storeOk (exec h made op).1 ∧
  (∀ ref, is_Some (h !! ref) → is_Some ((exec h made op).1 !! ref)) ∧
  (∀ f, (exec h made op).2 = Normal f → is_Some ((exec h made op).1 !! data_ref f)).
Proof.
  intros Hh Hm. destruct op as [pt|pt i|pt ev|ct|n i|n ev]; simpl.
  - unfold fromParsedTrace. destruct (insights pt); [|by eauto].
    apply construct_ok; [done|by left].
  - unfold fromInsight. destruct (insights pt); [|by eauto].
    apply construct_ok; [done|by left].
  - unfold fromEvent. destruct (insights pt); [|by eauto].
    apply construct_ok; [done|apply getCallTreeOrEvent_atMostOne].
  - unfold fromCallTree. apply construct_ok; [done|by left].
  - destruct (made !! n) as [this|]; [|by eauto].
    unfold withInsight. destruct (new_AgentFocus h (data_ref this)) as [focus|err] eqn:Hnew;
      [|by eauto].
    simpl. split_and!.
    + apply storeOk_alter; [done|]. intros d Hd. exact (Hh _ _ Hd).
    + intros ref. apply alter_keeps.
    + intros f [= <-]. apply alter_keeps.
      rewrite (new_AgentFocus_ref _ _ _ Hnew). by eapply new_AgentFocus_live.
  - destruct (made !! n) as [this|]; [|by eauto].
    unfold withEvent. destruct (new_AgentFocus h (data_ref this)) as [focus|err] eqn:Hnew;
      [|by eauto].
    destruct (h !! data_ref this) as [d|] eqn:Hd; [|by eauto].
    simpl. rewrite alter_alter_eq. split_and!.
    + apply storeOk_alter; [done|]. intros d' _. apply getCallTreeOrEvent_atMostOne.
    + intros ref. apply alter_keeps.
    + intros f [= <-]. apply alter_keeps.
      rewrite (new_AgentFocus_ref _ _ _ Hnew). by eapply new_AgentFocus_live.
Qed.

Lemma execAll_ok ops : ∀ h made,
  storeOk h → madeOk h made →
  storeOk (execAll h made ops).1 ∧ madeOk (execAll h made ops).1 (execAll h made ops).2.
Proof.
  induction ops as [|op ops IH]; intros h made Hh Hm; [done|].
  simpl. destruct (exec_ok h made op Hh Hm) as (Hh' & Hmono & Hf).
  destruct (exec h made op) as [h' [f|err]]; simpl in *.
  - apply IH; [done|]. apply Forall_app. split; [by eapply madeOk_mono|].
    apply Forall_singleton. by apply Hf.
  - apply IH; [done|]. by eapply madeOk_mono.
Qed.

(** C9. Whatever sequence of [fromParsedTrace], [fromInsight],
    [fromEvent], [fromCallTree], [withInsight] and [withEvent] is run from
    the empty store, every focus it has produced refers, at the end, to a
    data object of which at most one of [event] and [callTree] is
    non-null; so the two getters never both give a value.  The assignments
    of [withInsight] and [withEvent] reach the foci that share the data
    object, and these keep the invariant too. *)
Theorem AgentFocus_at_most_one_of_event_and_callTree (ops : list Op) :
  Forall (λ f,
    (∃ d, (execAll ∅ [] ops).1 !! data_ref f = Some d ∧ atMostOne d) ∧
    (get_event (execAll ∅ [] ops).1 f = None ∨ get_callTree (execAll ∅ [] ops).1 f = None))
    (execAll ∅ [] ops).2.
Proof.
  destruct (execAll_ok ops ∅ []) as [Hh Hm]; [apply map_Forall_empty|apply Forall_nil_2|].
  eapply Forall_impl; [exact Hm|]. intros f [d Hd]. simpl.
  pose proof (Hh _ _ Hd) as Hone. split; [by eauto|].
  unfold get_event, get_callTree. rewrite Hd. exact Hone.
Qed.

End FocusInvariant.
(** ** Facts about JavaScript strings *)

Section StringLemmas.

Lemma startsWith_spec s p : JS.startsWith s p = true ↔ ∃ r, s = p ++ r.
Proof.
  revert s. induction p as [|a p IH]; intros s; simpl.
  - split; [by exists s|done].
  - destruct s as [|b s]; [split; [done|by intros [r ?]]|].
    rewrite andb_true_iff, N.eqb_eq, IH. split.
    + intros [-> [r ->]]. by exists r.
    + intros [r [= -> ->]]. split; [done|by exists r].
Qed.

Lemma endsWith_spec s p : JS.endsWith s p = true ↔ ∃ r, s = r ++ p.
Proof.
  unfold JS.endsWith. rewrite startsWith_spec. split.
  - intros [r Hr]. exists (rev r). apply (f_equal (@rev N)) in Hr.
    by rewrite rev_involutive, rev_app_distr, rev_involutive in Hr.
  - intros [r ->]. exists (rev r). by rewrite rev_app_distr.
Qed.

(** A text that starts and ends with [p] and is at least twice as long
    as [p] is [p], an inner part, and [p]. *)
Lemma wrapped_split s p :
  JS.startsWith s p = true → JS.endsWith s p = true → 2 * length p ≤ length s →
  ∃ inner, s = p ++ inner ++ p.
Proof.
  rewrite startsWith_spec, endsWith_spec. intros [r ->] [r' Hr'] Hlen.
  rewrite length_app in Hlen.
  exists (take (length r - length p) r). f_equal.
  rewrite <-(take_drop (length r - length p) r) at 1. f_equal.
  assert (length r' = length r) as Hl.
  { apply (f_equal length) in Hr'. rewrite !length_app in Hr'. lia. }
  apply (f_equal (drop (length r'))) in Hr'.
  rewrite drop_app_length, Hl in Hr'.
  rewrite drop_app_ge in Hr' by lia. by rewrite <-Hr' at 2.
Qed.

Lemma slice_wrapped p inner q :
  0 < length q →
  JS.slice (p ++ inner ++ q) (Z.of_nat (length p)) (- Z.of_nat (length q)) = inner.
Proof.
  intros Hq. unfold JS.slice, JS.relativeIndex. rewrite !length_app.
  destruct (Z.ltb_spec (Z.of_nat (length p)) 0); [lia|].
  destruct (Z.ltb_spec (- Z.of_nat (length q)) 0); [|lia].
  match goal with |- take (Z.to_nat ?span) (drop (Z.to_nat ?from) _) = _ =>
    replace (Z.to_nat span) with (length inner) by lia;
    replace (Z.to_nat from) with (length p) by lia
  end.
  by rewrite drop_app_length, take_app_length.
Qed.

(** When the two fences overlap, nothing is left between them. *)
Lemma slice_overlap s n :
  length s < 2 * n → n ≤ length s → JS.slice s (Z.of_nat n) (- Z.of_nat n) = [].
Proof.
  intros Hlt Hle. unfold JS.slice, JS.relativeIndex.
  destruct (Z.ltb_spec (Z.of_nat n) 0); [lia|].
  destruct (Z.ltb_spec (- Z.of_nat n) 0);
    match goal with |- take (Z.to_nat ?span) _ = _ =>
      by replace (Z.to_nat span) with 0 by lia
    end.
Qed.

Example trim_removes_blanks_and_line_ends :
  JS.trim ([10; 32; 160]%N ++ js "a b" ++ [9; 13; 8233]%N) = js "a b".
Proof. vm_compute. reflexivity. Qed.

Example slice_of_six_backticks : JS.slice (js "``````") 5 (-5) = [].
Proof. vm_compute. reflexivity. Qed.

Example template_literal_of_numbers :
  JS.ofZ 0 = js "0" ∧ JS.ofZ 100000 = js "100000" ∧ JS.ofZ (-42) = js "-42".
Proof. vm_compute. done. Qed.

End StringLemmas.

(** ** The regular expression *)

Section RegExpLemmas.
Import PerformanceAgent.

Lemma stripPrefix_Some p s r : stripPrefix p s = Some r → s = p ++ r.
Proof.
  revert s. induction p as [|a p IH]; intros s; simpl; [by intros [= ->]|].
  destruct s as [|b s]; [done|].
  destruct (N.eqb_spec a b) as [->|]; [|done]. intros Hs. by rewrite (IH _ Hs).
Qed.



Lemma spanUrl_app s : s = (spanUrl s).1 ++ (spanUrl s).2.
Proof.
  induction s as [|c s IH]; [done|]. simpl.
  destruct (urlChar c); [|done]. destruct (spanUrl s) as [u r]. simpl in *. by f_equal.
Qed.

Lemma afterScheme_Some scheme s m rest :
  afterScheme scheme s = Some (m, rest) → scheme ++ s = m ++ rest ∧ m ≠ [].
Proof.
  unfold afterScheme. destruct (stripPrefix (js "://") s) as [u|] eqn:Hu; [|done].
  simpl. pose proof (spanUrl_app u) as Happ. destruct (spanUrl u) as [run rest'].
  destruct (isEmpty run); [done|]. intros [= <- <-].
  apply stripPrefix_Some in Hu. simpl in Happ. subst s. split.
  - rewrite Happ at 1. by rewrite <-!app_assoc.
  - by destruct scheme.
Qed.

Lemma standaloneUrl_Some s m rest :
  standaloneUrl s = Some (m, rest) → s = m ++ rest ∧ m ≠ [].
Proof.
  unfold standaloneUrl. destruct (stripPrefix (js "http") s) as [t|] eqn:Ht; [|done].
  apply stripPrefix_Some in Ht. cbn [mbind option_bind].
  destruct (stripPrefix (js "s") t ≫= afterScheme (js "https")) as [[m' rest']|] eqn:Hs.
  - intros [= <- <-]. destruct (stripPrefix (js "s") t) as [u|] eqn:Hu; [|done].
    apply stripPrefix_Some in Hu. simpl in Hs. apply afterScheme_Some in Hs as [Hs ?].
    split; [|done]. by rewrite Ht, Hu, <-Hs.
  - intros Hm. apply afterScheme_Some in Hm as [Hm ?]. split; [|done]. by rewrite Ht.
Qed.








End RegExpLemmas.

(** ** The response parser *)

Section ResponseParser.
Import PerformanceAgent.
Context {engine : TraceEngine} {host : Host}.

Lemma parseForKnownUrls_no_context a r : context a = None → parseForKnownUrls a r = r.
Proof. unfold parseForKnownUrls. by intros ->. Qed.

(** C4, as the code has it.  The known URLs are rewritten first; the
    fence is looked for in the rewritten response [r'], trimmed.  If that
    is the fence, an inner part and the fence, exactly the inner part goes
    on to the parser of the base class; if the two fences overlap (fewer
    than ten code units), the empty text goes on; if it does not both
    start and end with the fence, [r'] goes on as it is, untrimmed.
    Without a context, [r'] is the response itself. *)
Theorem parseTextResponse_strips_outer_fence (a : Agent) (r : jsstring) :
  (∀ inner,
     JS.trim (parseForKnownUrls a r) = FIVE_BACKTICKS ++ inner ++ FIVE_BACKTICKS →
     parseTextResponse a r = super_parseTextResponse inner) ∧
  (JS.startsWith (JS.trim (parseForKnownUrls a r)) FIVE_BACKTICKS = true →
   JS.endsWith (JS.trim (parseForKnownUrls a r)) FIVE_BACKTICKS = true →
   length (JS.trim (parseForKnownUrls a r)) < 10 →
   parseTextResponse a r = super_parseTextResponse []) ∧
  (JS.startsWith (JS.trim (parseForKnownUrls a r)) FIVE_BACKTICKS
   && JS.endsWith (JS.trim (parseForKnownUrls a r)) FIVE_BACKTICKS = false →
   parseTextResponse a r = super_parseTextResponse (parseForKnownUrls a r)) ∧
  (context a = None → parseForKnownUrls a r = r).
Proof.
  unfold parseTextResponse. set (t := JS.trim (parseForKnownUrls a r)).
  split_and!.
  - intros inner Ht.
    assert (JS.startsWith t FIVE_BACKTICKS = true) as ->.
    { apply startsWith_spec. by exists (inner ++ FIVE_BACKTICKS). }
    assert (JS.endsWith t FIVE_BACKTICKS = true) as ->.
    { apply endsWith_spec. exists (FIVE_BACKTICKS ++ inner). by rewrite <-app_assoc. }
    simpl. rewrite Ht. f_equal. apply slice_wrapped. vm_compute. lia.
  - intros Hs He Hlen. rewrite Hs, He. simpl. f_equal.
    apply (slice_overlap t 5); [done|].
    apply startsWith_spec in Hs as [u ->]. rewrite length_app. vm_compute. lia.
  - by intros ->.
  - apply parseForKnownUrls_no_context.
Qed.




End ResponseParser.

Section ResponseParserEvaluated.
Import PerformanceAgent Examples.
#[local] Existing Instances exampleEngine exampleHost.

(** The fence is stripped from a response that has blanks around it. *)
Lemma parseTextResponse_strips_outer_fence_witness :
  parseTextResponse agentOnA (js "  `````hi`````" ++ NL) = js "hi".
Proof.
  refine (proj1 (parseTextResponse_strips_outer_fence agentOnA (js "  `````hi`````" ++ NL))
                (js "hi") _).
  vm_compute. reflexivity.
Defined.

(** C4 as stated fails: the response is the fence, an inner part and the
    fence, and what goes on to the base parser is not the inner part,
    because the URL of a known request inside it was rewritten first. *)
Lemma parseTextResponse_rewrites_inside_the_fence :
  JS.trim fencedResponse = FIVE_BACKTICKS ++ fencedInner ++ FIVE_BACKTICKS ∧
  parseTextResponse agentOnA fencedResponse
    = NL ++ js "see [https://a.com/x](#s-1) now" ++ NL ∧
  parseTextResponse agentOnA fencedResponse ≠ super_parseTextResponse fencedInner.
Proof.
  split_and!; [vm_compute; reflexivity..|]. vm_compute. discriminate.
Qed.



(** Whole responses: a known link and a known standalone URL are
    rewritten; an internal link, an unknown link, and a URL that runs on
    into a full stop are not. *)
Example parseForKnownUrls_on_a_response :
  parseForKnownUrls agentOnA
    (js "[t](https://a.com/x) [u](#s-1) [v](https://a.com/y) https://a.com/x https://a.com/x.")
  = js "[https://a.com/x](#s-1) [u](#s-1) [v](https://a.com/y) [https://a.com/x](#s-1) https://a.com/x.".
Proof. vm_compute. reflexivity. Qed.

End ResponseParserEvaluated.

(** ** The agent *)

Section Conversation.
Import PerformanceAgent.
Context {engine : TraceEngine} {host : Host}.

(** *** Context details *)







(** *** Enhancing the query *)

Lemma declareFunctions_after_clear c a :
  (clearDeclaredFunctions;; declareFunctions c) a
  = (set_declaredFunctions (declaredFor c) a, Normal tt).
Proof.
  unfold clearDeclaredFunctions, declareFunctions, declareFunction, declaredFor.
  monad. destruct a. cbn -[recordingIsFresh existsb].
  destruct (recordingIsFresh _ || _), (external c); reflexivity.
Qed.

Lemma enhanceQuery_unfold query c a :
  enhanceQuery query (Some c) a =
    match selectedParts (getItem c) (set_declaredFunctions (declaredFor c) a) with
    | (a', Normal []) => (a', Normal query)
    | (a', Normal (p :: ps)) => (a', Normal (JS.join ((p :: ps) ++ [userQuery query])))
    | (a', Throw err) => (a', Throw err)
    end.
Proof.
  pose proof (declareFunctions_after_clear c a) as Hd.
  unfold enhanceQuery. monad.
  destruct (clearDeclaredFunctions a) as [a1 [[]|err]] eqn:H1; [|done].
  destruct (declareFunctions c a1) as [a2 [[]|err]] eqn:H2; [|done].
  injection Hd as ->.
  destruct (selectedParts _ _) as [a' [[|p ps]|err]]; done.
Qed.

(** [selectedParts] neither reads nor writes the declared functions. *)
Lemma selectedParts_frame focus d a :
  selectedParts focus (set_declaredFunctions d a) =
    (set_declaredFunctions d (selectedParts focus a).1, (selectedParts focus a).2).
Proof.
  unfold selectedParts. monad.
  destruct a, (callTree focus) as [ct|], (insight focus) as [i|]; simpl;
    try destruct (bool_decide _); simpl; try destruct (isEmpty _); simpl;
    try destruct (differsFrom _ _); reflexivity.
Qed.


(** A call tree that is not yet in the set is serialized and recorded. *)
Lemma selectedParts_fresh focus ct a :
  callTree focus = Some ct → callTree_id ct ∉ callTreeContextSet a → serialize ct ≠ [] →
  ∃ rest, (selectedParts focus a).2 = Normal (callTreeSection (serialize ct) :: rest).
Proof.
  intros Hct Hin Hne. unfold selectedParts. monad. rewrite Hct. simpl.
  rewrite (bool_decide_eq_false_2 _ Hin). simpl.
  destruct (serialize ct) as [|x s] eqn:Hs; [done|]. simpl.
  destruct (insight focus); simpl; eauto.
Qed.





#[local] Opaque JS.lit.


#[local] Transparent JS.lit.

(** *** The facts of a turn *)

Lemma forEach_addFact l : ∀ a,
  forEach l addFact a = (set_facts (facts a ++ l) a, Normal tt).
Proof.
  induction l as [|x l IH]; intros a.
  - destruct a. unfold set_facts. simpl. by rewrite app_nil_r.
  - cbn [forEach]. monad. unfold addFact at 1. monad. rewrite IH.
    destruct a. unfold set_facts. simpl. by rewrite <-app_assoc.
Qed.

Lemma addFacts_spec c a :
  ∃ a', addFacts c (set_facts [] a) = (a', Normal tt) ∧
        facts a' = staticFacts c ++ traceFacts a' ++ cachedFacts a (getItem c) ∧
        traceFacts a' = (if bool_decide (traceFacts a = [])
                         then summaryFacts (getItem c) else traceFacts a) ∧
        functionCallCacheForFocus a' = functionCallCacheForFocus a ∧
        formatter a' = (if bool_decide (traceFacts a = [])
                        then Some (getItem c) else formatter a).
Proof.
  unfold addFacts, staticFacts, cachedFacts, summaryFacts.
  unfold createFactForTraceSummary, createFactForCriticalRequests,
    createFactForMainThreadBottomUpSummary, createFactForThirdPartySummary,
    createFactForLongestTasks, createFactFrom.
  monad. destruct a as [fmt last shown cache memo seen ctx fs decl log metrics rev].
  destruct (external c), memo as [|m memo]; simpl.
  all: repeat (match goal with
               | |- context [isEmpty (?f ?x)] => destruct (isEmpty (f x))
               end; simpl).
  all: unfold addFact at 1; monad; simpl.
  all: rewrite ?forEach_addFact; simpl.
  all: destruct (cache !! focus_id (getItem c)) as [cached|]; simpl.
  all: rewrite ?forEach_addFact; simpl.
  all: eexists; split; [reflexivity|]; simpl; rewrite ?app_nil_r; split_and!; try reflexivity.
  all: by rewrite <-?app_assoc.
Qed.

(** C7, as the code has it.  [run] with a context hands to the base
    class a state whose facts are: the static facts (the extra preamble
    unless the context is external, then the two format descriptions),
    then the summary facts, then the cached function-call facts of the
    focus.  The summary facts are computed from the focus of this turn
    only if none are memoized; otherwise those memoized are used, whatever
    context they were computed from.  Without a context the facts are
    empty. *)
Theorem run_rebuilds_the_facts {R}
    (super_run : jsstring → option PerformanceTraceContext → M R)
    (query : jsstring) (a : Agent) :
  (∀ c, ∃ a',
     run super_run query (Some c) a = super_run query (Some c) a' ∧
     facts a' = staticFacts c ++ traceFacts a' ++ cachedFacts a (getItem c) ∧
     traceFacts a' = (if bool_decide (traceFacts a = [])
                      then summaryFacts (getItem c) else traceFacts a) ∧
     functionCallCacheForFocus a' = functionCallCacheForFocus a) ∧
  (∃ a', run super_run query None a = super_run query None a' ∧ facts a' = []).
Proof.
  split.
  - intros c. destruct (addFacts_spec c a) as (a' & Hrun & Hfacts & Hmemo & Hcache & _).
    exists a'. split; [|done]. unfold run, clearFacts. monad. by rewrite Hrun.
  - exists (set_facts [] a). split; [|done]. unfold run, clearFacts. by monad.
Qed.

(** The formatter that the track-summary handlers need is in place
    once [run] has rebuilt the facts for a context; the agent keeps either
    no memoized summary facts or a formatter. *)
Lemma run_installs_the_formatter {R}
    (super_run : jsstring → option PerformanceTraceContext → M R)
    (query : jsstring) (c : PerformanceTraceContext) (a : Agent) :
  traceFacts a = [] ∨ is_Some (formatter a) →
  ∃ a', run super_run query (Some c) a = super_run query (Some c) a' ∧
        is_Some (formatter a').
Proof.
  intros Hinv. destruct (addFacts_spec c a) as (a' & Hrun & _ & _ & _ & Hfmt).
  exists a'. split; [unfold run, clearFacts; monad; by rewrite Hrun|].
  rewrite Hfmt. case_bool_decide as Hmemo; [by eauto|]. by destruct Hinv.
Qed.

End Conversation.

Section Handlers.
Import PerformanceAgent.
Context {engine : TraceEngine} {host : Host}.

(** The literals stay folded while the handlers are unfolded. *)
#[local] Opaque JS.lit.

(** *** The handlers *)

Lemma lookupEvent_unknown pt key :
  reportsUnknown pt key → AIContext.lookupEvent pt key = Normal None.
Proof.
  unfold reportsUnknown, AIContext.lookupEvent.
  destruct (eventForKey key pt) as [[e|]|err]; [done|done|by intros ->].
Qed.

(** An exception of the serializer that does not say that the key is
    unknown goes through [lookupEvent]. *)
Lemma lookupEvent_rethrows pt key err :
  eventForKey key pt = Throw err → AIContext.includesUnknown err = false →
  AIContext.lookupEvent pt key = Throw err.
Proof. unfold AIContext.lookupEvent. by intros -> ->. Qed.

(** C8, as the code has it.  What the three handlers with an event key
    return follows the serializer.  For a key that it reports as unknown
    (it finds nothing, or throws an error whose text includes "Unknown
    trace event" or "Unknown profile call") they return the error result
    "Invalid eventKey", and then nothing is cached and nothing revealed.
    Every other exception of the serializer leaves the handler as that
    exception.  [getDetailedCallTree] throws "missing formatter" before it
    looks at the key when there is no formatter.  An insight name that the
    insight set does not have gives the error result "No insight
    available", and a URL without a resource gives "Resource not found". *)
Theorem event_key_handlers_follow_the_serializer
    (focus : AgentFocus) (key : jsstring) (a : Agent) :
  (getEventByKey_handler focus key a).2
  = match eventForKey key (parsedTrace focus) with
    | Normal (Some event) => Normal (result (JSON_stringify event))
    | Normal None => Normal (error (js "Invalid eventKey"))
    | Throw err =>
        if JS.includes err (js "Unknown trace event")
           || JS.includes err (js "Unknown profile call")
        then Normal (error (js "Invalid eventKey")) else Throw err
    end ∧
  (selectEventByKey_handler focus key a).2
  = match eventForKey key (parsedTrace focus) with
    | Normal (Some event) => Normal result_success
    | Normal None => Normal (error (js "Invalid eventKey"))
    | Throw err =>
        if JS.includes err (js "Unknown trace event")
           || JS.includes err (js "Unknown profile call")
        then Normal (error (js "Invalid eventKey")) else Throw err
    end ∧
  (getDetailedCallTree_handler focus key a).2
  = match formatter a with
    | None => Throw (js "Error: missing formatter")
    | Some fmt =>
        match eventForKey key (parsedTrace focus) with
        | Normal (Some event) =>
            Normal (result match AICallTree_fromEvent event (parsedTrace focus) with
                           | Some tree => formatCallTree fmt tree
                           | None => js "No call tree found"
                           end)
        | Normal None => Normal (error (js "Invalid eventKey"))
        | Throw err =>
            if JS.includes err (js "Unknown trace event")
               || JS.includes err (js "Unknown profile call")
            then Normal (error (js "Invalid eventKey")) else Throw err
        end
    end ∧
  (∀ h, h ∈ [getEventByKey_handler focus key; selectEventByKey_handler focus key;
             getDetailedCallTree_handler focus key] →
        (h a).2 = Normal (error (js "Invalid eventKey")) →
        functionCallCacheForFocus (h a).1 = functionCallCacheForFocus a ∧
        revealed (h a).1 = revealed a) ∧
  (∀ insightName,
     insightSet focus ≫= (λ s, assocGet insightName (insightSet_model s)) = None →
     (getInsightDetails_handler focus insightName a).2
     = Normal (error (js "No insight available"))) ∧
  (∀ url,
     resourceContent url = None →
     (getResourceContent_handler focus url a).2 = Normal (error (js "Resource not found"))).
Proof.
  split_and!.
  - handler_steps. unfold AIContext.lookupEvent, AIContext.includesUnknown.
    destruct (eventForKey key (parsedTrace focus)) as [[event|]|err]; [done..|].
    by destruct (_ || _).
  - handler_steps. unfold AIContext.lookupEvent, AIContext.includesUnknown.
    destruct (eventForKey key (parsedTrace focus)) as [[event|]|err]; [done..|].
    by destruct (_ || _).
  - handler_steps. unfold AIContext.lookupEvent, AIContext.includesUnknown.
    destruct a as [[fmt|]]; simpl; [|done].
    destruct (eventForKey key (parsedTrace focus)) as [[event|]|err]; [done..|].
    by destruct (_ || _).
  - intros h Hh. repeat apply elem_of_cons in Hh as [->|Hh];
      [| | |by apply elem_of_nil in Hh].
    + handler_steps. destruct (AIContext.lookupEvent _ _) as [[event|]|err]; [done| |done].
      by destruct a.
    + handler_steps. destruct (AIContext.lookupEvent _ _) as [[event|]|err]; [done| |done].
      by destruct a.
    + handler_steps. destruct a as [[fmt|]]; simpl; [|done].
      by destruct (AIContext.lookupEvent _ _) as [[event|]|err].
  - intros insightName Hnone. handler_steps. by rewrite Hnone.
  - intros url Hnone. handler_steps. by rewrite Hnone.
Qed.

(** *** Bounds *)

Lemma intersects_clamped (min max : Z) (w : TraceWindowMicro) :
  intersects min max w ↔ (Z.max min (tw_min w) ≤ Z.min max (tw_max w))%Z.
Proof.
  unfold intersects. split.
  - intros (t & ? & ?). lia.
  - intros Hle. exists (Z.max min (tw_min w)). lia.
Qed.

Lemma createBounds_Some pt (min max : Z) :
  intersects min max (traceBounds pt) →
  createBounds pt (Some min) (Some max)
  = Some (traceWindowFromMicroSeconds (Z.max min (tw_min (traceBounds pt)))
                                      (Z.min max (tw_max (traceBounds pt)))).
Proof.
  rewrite intersects_clamped. intros Hi. unfold createBounds, gt. simpl.
  destruct (Z.gtb_spec min max); [lia|].
  by destruct (Z.gtb_spec (Z.max min (tw_min (traceBounds pt)))
                          (Z.min max (tw_max (traceBounds pt)))); [lia|].
Qed.

Lemma createBounds_None pt (min max : Z) :
  ¬ intersects min max (traceBounds pt) → createBounds pt (Some min) (Some max) = None.
Proof.
  rewrite intersects_clamped. intros Hi. unfold createBounds, gt. simpl.
  destruct (Z.gtb_spec min max); [done|].
  by destruct (Z.gtb_spec (Z.max min (tw_min (traceBounds pt)))
                          (Z.min max (tw_max (traceBounds pt)))); [|lia].
Qed.

Lemma intersects_dec (min max : Z) w : intersects min max w ∨ ¬ intersects min max w.
Proof.
  rewrite intersects_clamped.
  destruct (decide (Z.max min (tw_min w) ≤ Z.min max (tw_max w))%Z); auto.
Qed.

Lemma too_large_is_not_invalid_bounds :
  js "getMainThreadTrackSummary response is too large. Try investigating using other functions, or a more narrow bounds"
  ≠ js "invalid bounds" ∧
  js "getNetworkTrackSummary response is too large. Try investigating using other functions, or a more narrow bounds"
  ≠ js "invalid bounds".
Proof. split; vm_compute; discriminate. Qed.

(** C10. With the formatter in place and both bounds given,
    [getMainThreadTrackSummary] and [getNetworkTrackSummary] return the
    error result "invalid bounds" exactly when the requested minimum
    exceeds the requested maximum or the requested range has no time in
    common with the trace bounds.  Otherwise the summary is formatted for
    the window from the larger of the two minima to the smaller of the two
    maxima, which lies within the requested range and within the trace
    bounds; the handler returns that summary, or the error result for a
    summary that is too large. *)
Theorem track_summary_invalid_bounds
    (focus fmt : AgentFocus) (a : Agent) (min max : Z) :
  formatter a = Some fmt →
  let tb := traceBounds (parsedTrace focus) in
  let window :=
    traceWindowFromMicroSeconds (Z.max min (tw_min tb)) (Z.min max (tw_max tb)) in
  ((getMainThreadTrackSummary_handler focus (Some min) (Some max) a).2
     = Normal (error (js "invalid bounds"))
   ↔ (min > max)%Z ∨ ¬ intersects min max tb) ∧
  ((getNetworkTrackSummary_handler focus (Some min) (Some max) a).2
     = Normal (error (js "invalid bounds"))
   ↔ (min > max)%Z ∨ ¬ intersects min max tb) ∧
  (intersects min max tb →
   (min ≤ tw_min window ≤ tw_max window)%Z ∧ (tw_max window ≤ max)%Z ∧
   (tw_min tb ≤ tw_min window)%Z ∧ (tw_max window ≤ tw_max tb)%Z ∧
   (getMainThreadTrackSummary_handler focus (Some min) (Some max) a).2
     = Normal (if isFunctionResponseTooLarge (formatMainThreadTrackSummary fmt window)
               then error (js "getMainThreadTrackSummary response is too large. Try investigating using other functions, or a more narrow bounds")
               else result (formatMainThreadTrackSummary fmt window)) ∧
   (getNetworkTrackSummary_handler focus (Some min) (Some max) a).2
     = Normal (if isFunctionResponseTooLarge (formatNetworkTrackSummary fmt window)
               then error (js "getNetworkTrackSummary response is too large. Try investigating using other functions, or a more narrow bounds")
               else result (formatNetworkTrackSummary fmt window))).
Proof.
  intros Hfmt tb window.
  assert (intersects min max tb →
    (getMainThreadTrackSummary_handler focus (Some min) (Some max) a).2
      = Normal (if isFunctionResponseTooLarge (formatMainThreadTrackSummary fmt window)
                then error (js "getMainThreadTrackSummary response is too large. Try investigating using other functions, or a more narrow bounds")
                else result (formatMainThreadTrackSummary fmt window)) ∧
    (getNetworkTrackSummary_handler focus (Some min) (Some max) a).2
      = Normal (if isFunctionResponseTooLarge (formatNetworkTrackSummary fmt window)
                then error (js "getNetworkTrackSummary response is too large. Try investigating using other functions, or a more narrow bounds")
                else result (formatNetworkTrackSummary fmt window))) as Hvalid.
  { intros Hi. handler_steps. destruct a. simpl in *. subst.
    rewrite (createBounds_Some _ _ _ Hi). fold tb window.
    split; by destruct (isFunctionResponseTooLarge _). }
  assert (¬ intersects min max tb →
    (getMainThreadTrackSummary_handler focus (Some min) (Some max) a).2
      = Normal (error (js "invalid bounds")) ∧
    (getNetworkTrackSummary_handler focus (Some min) (Some max) a).2
      = Normal (error (js "invalid bounds"))) as Hinvalid.
  { intros Hi. handler_steps. destruct a. simpl in *. subst.
    by rewrite (createBounds_None _ _ _ Hi). }
  assert ((min > max)%Z → ¬ intersects min max tb) as Hempty.
  { intros Hgt (t & ? & ?). lia. }
  destruct too_large_is_not_invalid_bounds as [Hmain Hnet].
  split_and!.
  - split.
    + destruct (intersects_dec min max tb) as [Hi|Hi]; [|by auto].
      rewrite (proj1 (Hvalid Hi)). destruct (isFunctionResponseTooLarge (formatMainThreadTrackSummary fmt window));
        intros Heq; [injection Heq as Heq'; by destruct Hmain|discriminate Heq].
    + intros Hinv. apply Hinvalid. destruct Hinv; auto.
  - split.
    + destruct (intersects_dec min max tb) as [Hi|Hi]; [|by auto].
      rewrite (proj2 (Hvalid Hi)). destruct (isFunctionResponseTooLarge (formatNetworkTrackSummary fmt window));
        intros Heq; [injection Heq as Heq'; by destruct Hnet|discriminate Heq].
    + intros Hinv. apply Hinvalid. destruct Hinv; auto.
  - intros Hi. pose proof (proj1 (intersects_clamped _ _ _) Hi). simpl.
    split_and!; try lia; by apply Hvalid.
Qed.

(** *** The size of a result *)

Lemma isFunctionResponseTooLarge_spec s :
  isFunctionResponseTooLarge s = true ↔ (16384 * 4 < Z.of_nat (length s))%Z.
Proof.
  unfold isFunctionResponseTooLarge, MAX_FUNCTION_RESULT_BYTE_LENGTH.
  destruct (Z.gtb_spec (Z.of_nat (length s)) (16384 * 4)); split; (done || lia).
Qed.

(** C2, as the code has it.  [getMainThreadTrackSummary] and
    [getNetworkTrackSummary] measure the summary by its length in UTF-16
    code units; one longer than 16384 x 4 is not returned: the result is
    an error that asks for other functions or narrower bounds, and nothing
    is cached or reported.  The other functions return their result
    whatever its length. *)
Theorem oversize_track_summary_is_rejected
    (focus fmt : AgentFocus) (a : Agent) (min max : option Z) (bounds : TraceWindowMicro) :
  formatter a = Some fmt →
  createBounds (parsedTrace focus) min max = Some bounds →
  ((16384 * 4 < Z.of_nat (length (formatMainThreadTrackSummary fmt bounds)))%Z →
   getMainThreadTrackSummary_handler focus min max a
   = (set_debugLog (debugLog a ++ [js "Function call: getMainThreadTrackSummary"]) a,
      Normal (error (js "getMainThreadTrackSummary response is too large. Try investigating using other functions, or a more narrow bounds")))) ∧
  ((16384 * 4 < Z.of_nat (length (formatNetworkTrackSummary fmt bounds)))%Z →
   getNetworkTrackSummary_handler focus min max a
   = (set_debugLog (debugLog a ++ [js "Function call: getNetworkTrackSummary"]) a,
      Normal (error (js "getNetworkTrackSummary response is too large. Try investigating using other functions, or a more narrow bounds")))) ∧
  (∀ key event,
     AIContext.lookupEvent (parsedTrace focus) key = Normal (Some event) →
     (getEventByKey_handler focus key a).2 = Normal (result (JSON_stringify event)) ∧
     (getDetailedCallTree_handler focus key a).2
     = Normal (result (from_option (formatCallTree fmt) (js "No call tree found")
                         (AICallTree_fromEvent event (parsedTrace focus))))) ∧
  (∀ insightName insight,
     insightSet focus ≫= (λ s, assocGet insightName (insightSet_model s)) = Some insight →
     (getInsightDetails_handler focus insightName a).2
     = Normal (result (formatInsight focus insight))) ∧
  (∀ url content,
     resourceContent url = Some (inl content) →
     (getResourceContent_handler focus url a).2 = Normal (result content)).
Proof.
  intros Hfmt Hbounds. split_and!.
  - intros Hlarge%isFunctionResponseTooLarge_spec. handler_steps.
    destruct a. simpl in *. subst. by rewrite Hbounds, Hlarge.
  - intros Hlarge%isFunctionResponseTooLarge_spec. handler_steps.
    destruct a. simpl in *. subst. by rewrite Hbounds, Hlarge.
  - intros key event Hev. split.
    + handler_steps. by rewrite Hev.
    + handler_steps. destruct a. simpl in *. subst. rewrite Hev.
      by destruct (AICallTree_fromEvent _ _).
  - intros insightName insight Hin. handler_steps. by rewrite Hin.
  - intros url content Hurl. handler_steps. by rewrite Hurl.
Qed.

(** *** Repeated calls *)

Lemma assocSet_idem {V} key (v : V) o : assocSet key v (assocSet key v o) = assocSet key v o.
Proof.
  induction o as [|[k w] o IH]; simpl.
  - by rewrite decide_True.
  - destruct (decide (k = key)) as [->|Hne]; simpl.
    + by rewrite decide_True.
    + by rewrite decide_False, IH.
Qed.

Lemma assocGet_assocSet {V} key (v : V) o : assocGet key (assocSet key v o) = Some v.
Proof.
  induction o as [|[k w] o IH]; simpl.
  - by rewrite decide_True.
  - destruct (decide (k = key)) as [->|Hne]; simpl.
    + by rewrite decide_True.
    + by rewrite decide_False.
Qed.

(** Caching the same result under the same key twice is caching it
    once. *)
Lemma cacheFunctionResult_idem focus key r a :
  (cacheFunctionResult focus key r (cacheFunctionResult focus key r a).1).1
  = (cacheFunctionResult focus key r a).1.
Proof.
  unfold cacheFunctionResult. monad. destruct a. simpl. unfold set_functionCallCacheForFocus.
  simpl. f_equal. rewrite lookup_insert_eq. simpl. by rewrite assocSet_idem, insert_insert_eq.
Qed.

(** What one call of a declared function does to the agent, for the
    second call to be compared with. *)
Lemma handler_repeated c call a :
  handlerInvocations (handler c call a).1 = S (handlerInvocations a) ∧
  formatter (handler c call a).1 = formatter a ∧
  declaredFunctions (handler c call a).1 = declaredFunctions a ∧
  (handler c call (handler c call a).1).2 = (handler c call a).2 ∧
  functionCallCacheForFocus (handler c call (handler c call a).1).1
  = functionCallCacheForFocus (handler c call a).1 ∧
  (∀ cache, (handler c call (set_functionCallCacheForFocus cache a)).2 = (handler c call a).2).
Proof.
  unfold handlerInvocations.
  destruct call; handler_steps; destruct a as [fmt ? ? cache ? ? ? ? ? log ? ?]; simpl;
    try destruct fmt as [fmt|]; simpl;
    repeat (match goal with
            | E : ?x = _ |- context [?x] => rewrite E
            | |- context [AIContext.lookupEvent ?pt ?k] =>
                destruct (AIContext.lookupEvent pt k) as [[?|]|?] eqn:?
            | |- context [createBounds ?pt ?x ?y] => destruct (createBounds pt x y) eqn:?
            | |- context [isFunctionResponseTooLarge ?s] =>
                destruct (isFunctionResponseTooLarge s) eqn:?
            | |- context [resourceContent ?u] => destruct (resourceContent u) as [[?|?]|] eqn:?
            | |- context [option_bind ?A ?B ?g ?x] => destruct (option_bind A B g x) eqn:?
            end; simpl);
    rewrite ?length_app, ?lookup_insert_eq; simpl;
    rewrite ?assocSet_idem, ?insert_insert_eq; split_and!; (done || lia).
Qed.


End Handlers.

(** ** The statements on the concrete traces *)

Section Evaluated.
Import PerformanceAgent Examples.
#[local] Existing Instances exampleEngine exampleHost.

(** C2 as stated fails: the JSON text of an event that is 70000 code
    units long is returned by [getEventByKey] as it is. *)
Lemma getEventByKey_returns_an_oversize_result :
  (handler contextA (Call_getEventByKey (js "r-2")) agentDeclaredA).2
  = Normal (result (event_json bigEvent)) ∧
  isFunctionResponseTooLarge (event_json bigEvent) = true ∧
  (16384 * 4 < Z.of_nat (length (event_json bigEvent)))%Z.
Proof. split_and!; [reflexivity|vm_compute; reflexivity|vm_compute; reflexivity]. Qed.

(** The main-thread summary of the whole of [traceA] is 100000 code units
    long, and is rejected. *)
Lemma oversize_track_summary_is_rejected_witness :
  formatter agentWithFormatter = Some focusA ∧
  createBounds (parsedTrace focusA) (Some 0%Z) (Some 100000%Z)
  = Some (traceWindowFromMicroSeconds 0 100000) ∧
  (getMainThreadTrackSummary_handler focusA (Some 0%Z) (Some 100000%Z) agentWithFormatter).2
  = Normal (error (js "getMainThreadTrackSummary response is too large. Try investigating using other functions, or a more narrow bounds")).
Proof.
  split_and!; [reflexivity|vm_compute; reflexivity|].
  refine (f_equal snd
            (proj1 (oversize_track_summary_is_rejected focusA focusA agentWithFormatter
                      (Some 0%Z) (Some 100000%Z) (traceWindowFromMicroSeconds 0 100000) _ _) _)).
  - reflexivity.
  - vm_compute. reflexivity.
  - vm_compute. reflexivity.
Defined.

(** The call tree of [contextTree] is sent with the first query, and
    not again after a turn on another context. *)
Example enhanceQuery_over_three_turns :
  (sequence [enhanceQuery (js "q1") (Some contextTree);
             enhanceQuery (js "q2") (Some contextA);
             enhanceQuery (js "q3") (Some contextTree)] new_PerformanceAgent).2
  = Normal [js "User selected the following call tree:" ++ [10%N; 10%N]
            ++ js "1;main;500;100;;" ++ [10%N; 10%N]
            ++ js "# User query" ++ [10%N; 10%N] ++ js "q1";
            js "q2"; js "q3"].
Proof. vm_compute. reflexivity. Qed.




(** C7 as stated fails: the summary facts of the turn on [contextB] are
    those computed from [contextA], not those of [contextB]. *)
Lemma summary_facts_of_another_context_are_reused :
  facts (sequence [factsOfTurn (Some contextA); factsOfTurn (Some contextB)]
                  new_PerformanceAgent).1
  = staticFacts contextB ++ summaryFacts focusA ∧
  summaryFacts focusA
  = [devtoolsFact REQUIRED (js "Trace summary:" ++ NL ++ js "Summary of trace-0-100000")] ∧
  summaryFacts focusB
  = [devtoolsFact REQUIRED (js "Trace summary:" ++ NL ++ js "Summary of trace-5-50")].
Proof. split_and!; vm_compute; reflexivity. Qed.

(** C8 as stated fails.  The key [zzz] resolves to no event of
    [traceA]: the serializer of the example says so, and [getEventByKey]
    returns the error result; but on the agent on which [enhanceQuery] has
    declared the functions and [run] has not made the formatter,
    [getDetailedCallTree] throws for that key.  And with a serializer that
    fails in another way for a key, [getEventByKey] throws what the
    serializer threw. *)
Lemma an_unknown_key_can_make_a_handler_throw :
  eventForKey (js "zzz") traceA = Throw (js "Error: Unknown trace event") ∧
  (handler contextA (Call_getEventByKey (js "zzz")) agentDeclaredA).2
  = Normal (error (js "Invalid eventKey")) ∧
  formatter agentDeclaredA = None ∧
  (handler contextA (Call_getDetailedCallTree (js "zzz")) agentDeclaredA).2
  = Throw (js "Error: missing formatter") ∧
  @eventForKey MoreExamples.brokenEngine (js "zzz") traceA
  = Throw (js "TypeError: no active manager") ∧
  (@handler MoreExamples.brokenEngine exampleHost contextA (Call_getEventByKey (js "zzz"))
     agentDeclaredA).2
  = Throw (js "TypeError: no active manager").
Proof. split_and!; vm_compute; reflexivity. Qed.

(** A range after the end of [traceA]. *)
Lemma track_summary_invalid_bounds_witness :
  formatter agentWithFormatter = Some focusA ∧
  (getMainThreadTrackSummary_handler focusA (Some 200000%Z) (Some 300000%Z)
     agentWithFormatter).2
  = Normal (error (js "invalid bounds")).
Proof.
  split; [reflexivity|].
  apply (proj1 (track_summary_invalid_bounds focusA focusA agentWithFormatter
                  200000 300000 eq_refl)).
  right. intros (t & ? & Ht). cbn in Ht. lia.
Defined.

(** Within the trace bounds the window is the requested one. *)
Example track_summary_within_bounds :
  (getNetworkTrackSummary_handler focusA (Some 10%Z) (Some 15%Z) agentWithFormatter).2
  = Normal (result (filler 5)).
Proof. vm_compute. reflexivity. Qed.

(** [withEvent] on a focus made from a call tree: the new focus shares
    the data object of the first, and the assignment replaces the call
    tree by the network request for both. *)
Example withEvent_shares_the_data_object :
  let '(h, made) :=
    AIContext.execAll ∅ [] [AIContext.OpFromCallTree tree7;
                            AIContext.OpWithEvent 0 (Some requestX)] in
  AIContext.data_ref <$> made = [0; 0] ∧
  (AIContext.get_callTree h <$> made) = [None; None] ∧
  (AIContext.get_event h <$> made) = [Some requestX; Some requestX].
Proof. vm_compute. done. Qed.

End Evaluated.


(** * Further properties *)

(** ** AgentFocus: what the operations build and share *)

Section FocusOperations.
Import AIContext AIContextModel.
Context {engine : TraceEngine}.

Lemma head_filter_navigation (l : list InsightSet) :
  match head (filter (λ s, insightSet_navigation s = true) l) with
  | Some s =>
      ∃ before after, l = before ++ s :: after ∧ insightSet_navigation s = true ∧
                      Forall (λ x, insightSet_navigation x = false) before
  | None => Forall (λ x, insightSet_navigation x = false) l
  end.
Proof.
  induction l as [|x l IH]; [by apply Forall_nil|].
  rewrite filter_cons. destruct (decide (insightSet_navigation x = true)) as [Hx|Hx].
  - simpl. by exists [], l.
  - destruct (head (filter _ l)) as [s|].
    + destruct IH as (before & after & -> & Hs & Hbefore).
      exists (x :: before), after. split_and!; [done..|].
      apply Forall_cons. split; [by destruct (insightSet_navigation x)|done].
    + apply Forall_cons. split; [by destruct (insightSet_navigation x)|done].
Qed.

(** X1. [getPrimaryInsightSet] gives nothing only for no insight sets; what it
    gives is one of the sets; a single set is taken as it is, with a
    navigation or without; among several, the first that has a navigation
    is taken, and the first of all when none has one. *)
Theorem getPrimaryInsightSet_prefers_a_navigation (l : list InsightSet) :
  (getPrimaryInsightSet l = None ↔ l = []) ∧
  (∀ s, getPrimaryInsightSet l = Some s → s ∈ l) ∧
  (∀ s, getPrimaryInsightSet [s] = Some s) ∧
  (∀ s, 2 ≤ length l → getPrimaryInsightSet l = Some s →
        (∃ before after, l = before ++ s :: after ∧ insightSet_navigation s = true ∧
                         Forall (λ x, insightSet_navigation x = false) before) ∨
        (Forall (λ x, insightSet_navigation x = false) l ∧ head l = Some s)).
Proof.
  assert (∀ x y l' s, getPrimaryInsightSet (x :: y :: l') = Some s →
            (∃ before after, x :: y :: l' = before ++ s :: after ∧
                             insightSet_navigation s = true ∧
                             Forall (λ x, insightSet_navigation x = false) before) ∨
            (Forall (λ x, insightSet_navigation x = false) (x :: y :: l') ∧ x = s))
    as Hseveral.
  { intros x y l' s. unfold getPrimaryInsightSet.
    pose proof (head_filter_navigation (x :: y :: l')) as Hhead.
    destruct (head (filter _ (x :: y :: l'))) as [s'|].
    - intros [= ->]. by left.
    - intros [= ->]. by right. }
  split_and!.
  - destruct l as [|x [|y l']]; [done|done|]. split; [|done].
    unfold getPrimaryInsightSet. by destruct (head (filter _ _)).
  - intros s. destruct l as [|x [|y l']]; [done|by intros [= ->]; apply list_elem_of_here|].
    intros [(before & after & -> & _)|[_ ->]]%Hseveral; [|by apply list_elem_of_here].
    apply elem_of_app. right. apply list_elem_of_here.
  - done.
  - intros s Hlen. destruct l as [|x [|y l']]; [simpl in Hlen; lia..|].
    intros [?|[? ->]]%Hseveral; [by left|by right].
Qed.

(** A constructor stores its data object at [fresh (dom h)]. *)
Lemma construct_result (h : Store) (d : AgentFocusData) ins :
  insights (parsedTrace d) = Some ins →
  (let '(h', ref) := alloc h d in (h', new_AgentFocus h' ref))
  = (<[fresh (dom h) := d]> h,
     Normal {| data_ref := fresh (dom h); primaryInsightSet := getPrimaryInsightSet ins |}).
Proof.
  intros Hins. unfold alloc. simpl. f_equal. unfold new_AgentFocus.
  by rewrite lookup_insert_eq, Hins.
Qed.

Lemma alloc_subseteq (h : Store) (d : AgentFocusData) : h ⊆ <[fresh (dom h) := d]> h.
Proof. apply insert_subseteq, not_elem_of_dom, is_fresh. Qed.

(** X2. The four constructors and [getPerformanceAgentFocusFromModel] leave
    every data object of the store as it is: a focus made earlier is
    not touched by them.  Without insights in the parsed trace the first
    three throw and store nothing; with insights, the new focus has no
    event, no call tree, and the insight it was given, if any.  The focus
    of a model without a parsed trace is [null]. *)
Theorem constructors_leave_the_store_alone
    (h : Store) (pt : ParsedTrace) (i : InsightModel) (ev : Event) (ct : AICallTree) :
  (h ⊆ (fromParsedTrace h pt).1 ∧ h ⊆ (fromInsight h pt i).1 ∧
   h ⊆ (fromEvent h pt ev).1 ∧ h ⊆ (fromCallTree h ct).1 ∧
   h ⊆ (getPerformanceAgentFocusFromModel h (Some pt)).1) ∧
  getPerformanceAgentFocusFromModel h None = (h, Normal None) ∧
  match insights pt with
  | None =>
      fromParsedTrace h pt = (h, Throw missingInsights) ∧
      fromInsight h pt i = (h, Throw missingInsights) ∧
      fromEvent h pt ev = (h, Throw missingInsights) ∧
      getPerformanceAgentFocusFromModel h (Some pt) = (h, Throw missingInsights)
  | Some _ =>
      (∃ f, fromParsedTrace h pt = ((fromParsedTrace h pt).1, Normal f) ∧
            getPerformanceAgentFocusFromModel h (Some pt)
            = ((fromParsedTrace h pt).1, Normal (Some f)) ∧
            h !! data_ref f = None ∧
            get_event (fromParsedTrace h pt).1 f = None ∧
            get_callTree (fromParsedTrace h pt).1 f = None ∧
            get_insight (fromParsedTrace h pt).1 f = None) ∧
      (∃ f, fromInsight h pt i = ((fromInsight h pt i).1, Normal f) ∧
            h !! data_ref f = None ∧
            get_event (fromInsight h pt i).1 f = None ∧
            get_callTree (fromInsight h pt i).1 f = None ∧
            get_insight (fromInsight h pt i).1 f = Some i)
  end.
Proof.
  split_and!.
  - unfold fromParsedTrace. destruct (insights pt); [apply alloc_subseteq|done].
  - unfold fromInsight. destruct (insights pt); [apply alloc_subseteq|done].
  - unfold fromEvent. destruct (insights pt); [apply alloc_subseteq|done].
  - apply alloc_subseteq.
  - unfold getPerformanceAgentFocusFromModel, fromParsedTrace.
    destruct (insights pt) as [ins|] eqn:Hins; [|done].
    rewrite (construct_result h _ ins) by done. apply alloc_subseteq.
  - done.
  - unfold getPerformanceAgentFocusFromModel, fromParsedTrace, fromInsight, fromEvent.
    destruct (insights pt) as [ins|] eqn:Hins; [|done].
    rewrite !(construct_result h _ ins) by done.
    pose proof (not_elem_of_dom_1 h _ (is_fresh (dom h))) as Hfresh.
    unfold get_event, get_callTree, get_insight. simpl.
    split;
      exists {| data_ref := fresh (dom h); primaryInsightSet := getPrimaryInsightSet ins |};
      simpl; rewrite !lookup_insert_eq; by split_and!.
Qed.

(** X3. A focus made from an event has the call tree of the event when the
    event has one, and then no event; it has the event itself only when
    there is no call tree and the event is a network request; for every
    other event it has neither.  It never has an insight. *)
Theorem fromEvent_keeps_a_call_tree_or_a_network_request
    (h : Store) (pt : ParsedTrace) (ev : Event) :
  is_Some (insights pt) →
  ∃ f, fromEvent h pt ev = ((fromEvent h pt ev).1, Normal f) ∧
       get_callTree (fromEvent h pt ev).1 f = AICallTree_fromEvent ev pt ∧
       get_event (fromEvent h pt ev).1 f
       = match AICallTree_fromEvent ev pt with
         | Some _ => None
         | None => if isSyntheticNetworkRequest ev then Some ev else None
         end ∧
       get_insight (fromEvent h pt ev).1 f = None.
Proof.
  intros [ins Hins]. unfold fromEvent. rewrite Hins.
  rewrite (construct_result h _ ins) by done.
  exists {| data_ref := fresh (dom h); primaryInsightSet := getPrimaryInsightSet ins |}.
  unfold get_event, get_callTree, get_insight, getCallTreeOrEvent. simpl.
  rewrite !lookup_insert_eq. simpl.
  destruct (AICallTree_fromEvent ev pt); [done|].
  by destruct (isSyntheticNetworkRequest ev).
Qed.

(** X4. [withInsight] does not copy the data object: the focus it returns
    refers to the data object of the focus it is called on, so the
    insight of that focus changes with it.  Event and call tree stay, and
    no other data object is touched.  It succeeds for every focus of the
    store whose parsed trace has insights; if it throws, the store is as
    it was. *)
Theorem withInsight_changes_the_focus_it_is_called_on
    (h : Store) (this : AgentFocus) (i : option InsightModel) :
  match withInsight h this i with
  | (h', Normal f) =>
      data_ref f = data_ref this ∧
      get_insight h' f = i ∧ get_insight h' this = i ∧
      get_event h' this = get_event h this ∧
      get_callTree h' this = get_callTree h this ∧
      (∀ ref, ref ≠ data_ref this → h' !! ref = h !! ref)
  | (h', Throw _) => h' = h
  end ∧
  (∀ d, h !! data_ref this = Some d → is_Some (insights (parsedTrace d)) →
        ∃ f, (withInsight h this i).2 = Normal f).
Proof.
  unfold withInsight, new_AgentFocus. split.
  - destruct (h !! data_ref this) as [d|] eqn:Hd; [|done].
    destruct (insights (parsedTrace d)); [|done]. simpl.
    unfold get_insight, get_event, get_callTree.
    rewrite !lookup_alter_eq, Hd. simpl. split_and!; [done..|].
    intros ref Href. by rewrite lookup_alter_ne.
  - intros d -> [ins ->]. by eexists.
Qed.

(** X5. [withEvent] assigns to the shared data object too: afterwards both
    the new focus and the focus it was called on have the call tree of
    the event, or the event when it is a network request without a call
    tree, or neither; the insight stays.  With [null] for the event both
    fields are cleared. *)
Theorem withEvent_changes_the_focus_it_is_called_on
    (h : Store) (this : AgentFocus) (ev : option Event) :
  match withEvent h this ev with
  | (h', Normal f) =>
      data_ref f = data_ref this ∧
      (∃ d, h !! data_ref this = Some d ∧
            get_callTree h' this = (getCallTreeOrEvent (parsedTrace d) ev).1 ∧
            get_event h' this = (getCallTreeOrEvent (parsedTrace d) ev).2) ∧
      (ev = None → get_callTree h' this = None ∧ get_event h' this = None) ∧
      get_insight h' this = get_insight h this ∧
      (∀ ref, ref ≠ data_ref this → h' !! ref = h !! ref)
  | (h', Throw _) => h' = h
  end ∧
  (∀ d, h !! data_ref this = Some d → is_Some (insights (parsedTrace d)) →
        ∃ f, (withEvent h this ev).2 = Normal f).
Proof.
  unfold withEvent, new_AgentFocus. split.
  - destruct (h !! data_ref this) as [d|] eqn:Hd; [|done].
    destruct (insights (parsedTrace d)); [|done]. simpl.
    unfold get_insight, get_event, get_callTree.
    rewrite alter_alter_eq, !lookup_alter_eq, Hd. simpl. split_and!; [done| |by intros ->|done|].
    + by exists d.
    + intros ref Href. by rewrite lookup_alter_ne.
  - intros d -> [ins ->]. by eexists.
Qed.

End FocusOperations.

Section FocusOperationsEvaluated.
Import AIContext Examples.
#[local] Existing Instance exampleEngine.

(** The focus of [requestX], an event without a call tree that is a
    network request, keeps the event. *)
Lemma fromEvent_keeps_a_call_tree_or_a_network_request_witness :
  is_Some (insights traceA) ∧
  ∃ f, get_event (fromEvent ∅ traceA requestX).1 f = Some requestX ∧
       get_callTree (fromEvent ∅ traceA requestX).1 f = None.
Proof.
  assert (is_Some (insights traceA)) as Hins by (by eexists).
  split; [exact Hins|].
  destruct (fromEvent_keeps_a_call_tree_or_a_network_request ∅ traceA requestX Hins)
    as (f & _ & Htree & Hev & _).
  exists f. split; [exact Hev|exact Htree].
Defined.

(** A focus on [tree7], then [withInsight] on it: the first focus has
    the insight too. *)
Example withInsight_on_a_call_tree_focus :
  let '(h, made) :=
    execAll ∅ [] [OpFromCallTree tree7; OpWithInsight 0 (Some MoreExamples.insightLCP)] in
  (get_insight h <$> made) = [Some MoreExamples.insightLCP; Some MoreExamples.insightLCP] ∧
  (get_callTree h <$> made) = [Some tree7; Some tree7].
Proof. vm_compute. done. Qed.

End FocusOperationsEvaluated.

(** ** The cache of function calls *)

Section FunctionCallCache.
Import PerformanceAgent FunctionCalls.
Context {engine : TraceEngine} {host : Host}.

#[local] Opaque JS.lit.

Lemma assocGet_assocSet_ne {V} key key' (v : V) o :
  key' ≠ key → assocGet key' (assocSet key v o) = assocGet key' o.
Proof.
  intros Hne. induction o as [|[k w] o IH]; simpl.
  - by rewrite decide_False.
  - destruct (decide (k = key)) as [->|Hk]; simpl.
    + by rewrite !decide_False.
    + by rewrite IH.
Qed.

Lemma assocSet_keys {V} key (v : V) o :
  (assocSet key v o).*1 = if bool_decide (key ∈ o.*1) then o.*1 else o.*1 ++ [key].
Proof.
  induction o as [|[k w] o IH]; [done|]. cbn [assocSet].
  destruct (decide (k = key)) as [->|Hk]; rewrite !fmap_cons; cbn [fst].
  - by rewrite bool_decide_eq_true_2 by apply list_elem_of_here.
  - rewrite IH. case_bool_decide as Hin.
    + by rewrite bool_decide_eq_true_2 by by apply list_elem_of_further.
    + rewrite bool_decide_eq_false_2; [done|].
      intros [?|?]%elem_of_cons; [by subst|done].
Qed.

Lemma assocSet_keys_NoDup {V} key (v : V) o : NoDup o.*1 → NoDup (assocSet key v o).*1.
Proof.
  intros Hnd. rewrite assocSet_keys. case_bool_decide as Hin; [done|].
  apply NoDup_app. split_and!; [done| |apply NoDup_singleton].
  intros x Hx ->%list_elem_of_singleton. done.
Qed.

(** X6. What [#cacheFunctionResult] leaves in the cache of a focus: the fact
    of this result is found under the key; the facts under the other keys
    are as before; a key that was there keeps its place, a new key goes to
    the end, so the keys stay distinct; and the cache of every other focus
    is as before. *)
Theorem cacheFunctionResult_stores_one_fact_per_key
    (focus : AgentFocus) (key r : jsstring) (a : Agent) :
  assocGet key (default [] (functionCallCacheForFocus (cacheFunctionResult focus key r a).1
                              !! focus_id focus))
  = Some (functionCallFact key r) ∧
  (∀ key', key' ≠ key →
     assocGet key' (default [] (functionCallCacheForFocus (cacheFunctionResult focus key r a).1
                                  !! focus_id focus))
     = assocGet key' (default [] (functionCallCacheForFocus a !! focus_id focus))) ∧
  cachedKeys (cacheFunctionResult focus key r a).1 focus
  = (if bool_decide (key ∈ cachedKeys a focus)
     then cachedKeys a focus else cachedKeys a focus ++ [key]) ∧
  (NoDup (cachedKeys a focus) → NoDup (cachedKeys (cacheFunctionResult focus key r a).1 focus)) ∧
  (∀ focus', focus_id focus' ≠ focus_id focus →
     functionCallCacheForFocus (cacheFunctionResult focus key r a).1 !! focus_id focus'
     = functionCallCacheForFocus a !! focus_id focus').
Proof.
  unfold cachedKeys, cacheFunctionResult. monad. destruct a. simpl.
  rewrite !lookup_insert_eq. simpl. split_and!.
  - apply assocGet_assocSet.
  - intros key' Hne. by apply assocGet_assocSet_ne.
  - apply assocSet_keys.
  - apply assocSet_keys_NoDup.
  - intros focus' Hne. by rewrite lookup_insert_ne.
Qed.

(** Everything a handler does to the agent. *)
Lemma handler_effects c call a :
  formatter (handler c call a).1 = formatter a ∧
  lastInsightForEnhancedQuery (handler c call a).1 = lastInsightForEnhancedQuery a ∧
  hasShownAnalyzeTraceContext (handler c call a).1 = hasShownAnalyzeTraceContext a ∧
  traceFacts (handler c call a).1 = traceFacts a ∧
  callTreeContextSet (handler c call a).1 = callTreeContextSet a ∧
  context (handler c call a).1 = context a ∧
  facts (handler c call a).1 = facts a ∧
  declaredFunctions (handler c call a).1 = declaredFunctions a ∧
  (∃ message, debugLog (handler c call a).1 = debugLog a ++ [message]) ∧
  functionCallCacheForFocus (handler c call a).1
  = match (handler c call a).2, cacheKey (parsedTrace (getItem c)) call with
    | Normal (result payload), Some key =>
        <[focus_id (getItem c) :=
            assocSet key (functionCallFact key payload)
              (default [] (functionCallCacheForFocus a !! focus_id (getItem c)))]>
          (functionCallCacheForFocus a)
    | _, _ => functionCallCacheForFocus a
    end ∧
  userMetrics (handler c call a).1
  = userMetrics a
    ++ match call, (handler c call a).2 with
       | Call_getMainThreadTrackSummary _ _, Normal (result summary) =>
           [(performanceAIMainThreadActivityResponseSize, countWtf8Bytes summary)]
       | Call_getNetworkTrackSummary _ _, Normal (result summary) =>
           [(performanceAINetworkSummaryResponseSize, countWtf8Bytes summary)]
       | _, _ => []
       end ∧
  revealed (handler c call a).1
  = revealed a
    ++ match call with
       | Call_selectEventByKey eventKey =>
           match AIContext.lookupEvent (parsedTrace (getItem c)) eventKey with
           | Normal (Some event) => [event]
           | _ => []
           end
       | _ => []
       end ∧
  (is_Some (cacheKey (parsedTrace (getItem c)) call) ∨
   ∀ payload, (handler c call a).2 ≠ Normal (result payload)).
Proof.
  unfold cacheKey, functionCallFact.
  destruct call; handler_steps;
    destruct a as [fmt ? ? cache ? ? ? ? ? log metrics rev]; simpl;
    try destruct fmt as [fmt|]; simpl;
    repeat (match goal with
            | E : ?x = _ |- context [?x] => rewrite E
            | |- context [AIContext.lookupEvent ?pt ?k] =>
                destruct (AIContext.lookupEvent pt k) as [[?|]|?] eqn:?
            | |- context [createBounds ?pt ?x ?y] => destruct (createBounds pt x y) eqn:?
            | |- context [isFunctionResponseTooLarge ?s] =>
                destruct (isFunctionResponseTooLarge s) eqn:?
            | |- context [resourceContent ?u] => destruct (resourceContent u) as [[?|?]|] eqn:?
            | |- context [option_bind ?A ?B ?g ?x] => destruct (option_bind A B g x) eqn:?
            end; simpl);
    rewrite ?app_nil_r; split_and!; eauto.
Qed.


(** X7. A handler writes the cache exactly when it returns a result: the
    fact of the result goes under the key of the call, in the cache of
    the focus the functions were declared for.  An error result, the
    success of [selectEventByKey] and an exception leave the cache as it
    was. *)
Theorem handler_caches_exactly_the_results_it_returns
    (c : PerformanceTraceContext) (call : FunctionCall) (a : Agent) :
  match (handler c call a).2 with
  | Normal (result payload) =>
      ∃ key, cacheKey (parsedTrace (getItem c)) call = Some key ∧
        functionCallCacheForFocus (handler c call a).1
        = <[focus_id (getItem c) :=
              assocSet key (functionCallFact key payload)
                (default [] (functionCallCacheForFocus a !! focus_id (getItem c)))]>
            (functionCallCacheForFocus a)
  | Normal result_success | Normal (error _) | Throw _ =>
      functionCallCacheForFocus (handler c call a).1 = functionCallCacheForFocus a
  end.
Proof.
  destruct (handler_effects c call a)
    as (_ & _ & _ & _ & _ & _ & _ & _ & _ & Hcache & _ & _ & Hkey).
  destruct ((handler c call a).2) as [[payload| |reason]|err] eqn:Hres; try done.
  destruct Hkey as [[key Hkey]|Hno]; [|by destruct (Hno payload)].
  exists key. by rewrite Hkey in Hcache.
Qed.

(** X8. What a handler leaves alone: the formatter, the insight sent last,
    the flag of the context details, the memoized summary facts, the call
    trees sent, the context, the facts and the declared functions.  It
    logs one line.  It records a sample in a histogram only when a track
    summary is returned: one sample, the byte count of that summary.  It
    reveals an event only in [selectEventByKey], and only the event of the
    key. *)
Theorem handler_changes_only_the_cache_the_log_the_metrics_and_the_selection
    (c : PerformanceTraceContext) (call : FunctionCall) (a : Agent) :
  formatter (handler c call a).1 = formatter a ∧
  lastInsightForEnhancedQuery (handler c call a).1 = lastInsightForEnhancedQuery a ∧
  hasShownAnalyzeTraceContext (handler c call a).1 = hasShownAnalyzeTraceContext a ∧
  traceFacts (handler c call a).1 = traceFacts a ∧
  callTreeContextSet (handler c call a).1 = callTreeContextSet a ∧
  context (handler c call a).1 = context a ∧
  facts (handler c call a).1 = facts a ∧
  declaredFunctions (handler c call a).1 = declaredFunctions a ∧
  length (debugLog (handler c call a).1) = S (length (debugLog a)) ∧
  userMetrics (handler c call a).1
  = userMetrics a
    ++ match call, (handler c call a).2 with
       | Call_getMainThreadTrackSummary _ _, Normal (result summary) =>
           [(performanceAIMainThreadActivityResponseSize, countWtf8Bytes summary)]
       | Call_getNetworkTrackSummary _ _, Normal (result summary) =>
           [(performanceAINetworkSummaryResponseSize, countWtf8Bytes summary)]
       | _, _ => []
       end ∧
  revealed (handler c call a).1
  = revealed a
    ++ match call with
       | Call_selectEventByKey eventKey =>
           match AIContext.lookupEvent (parsedTrace (getItem c)) eventKey with
           | Normal (Some event) => [event]
           | _ => []
           end
       | _ => []
       end.
Proof.
  destruct (handler_effects c call a)
    as (? & ? & ? & ? & ? & ? & ? & ? & [message Hlog] & _ & ? & ? & _).
  split_and!; try done. rewrite Hlog, length_app. simpl. lia.
Qed.

Lemma handler_cache_of_the_focus c call a :
  ∃ more,
    default [] (functionCallCacheForFocus (handler c call a).1 !! focus_id (getItem c))
    = more (default [] (functionCallCacheForFocus a !! focus_id (getItem c))) ∧
    (more = id ∨
     ∃ key payload, (handler c call a).2 = Normal (result payload) ∧
       cacheKey (parsedTrace (getItem c)) call = Some key ∧
       more = assocSet key (functionCallFact key payload)).
Proof.
  destruct (handler_effects c call a)
    as (_ & _ & _ & _ & _ & _ & _ & _ & _ & Hcache & _ & _ & Hkey).
  destruct ((handler c call a).2) as [[payload| |reason]|err] eqn:Hres;
    try (exists id; rewrite Hcache; by auto).
  destruct Hkey as [[key Hkey]|Hno]; [|by destruct (Hno payload)].
  rewrite Hkey in Hcache. exists (assocSet key (functionCallFact key payload)).
  rewrite Hcache, lookup_insert_eq. split; [done|]. right. by exists key, payload.
Qed.

Lemma assocSet_keys_prefix {V} key (v : V) o : o.*1 `prefix_of` (assocSet key v o).*1.
Proof.
  rewrite assocSet_keys. case_bool_decide; [done|]. by apply prefix_app_r.
Qed.

(** X9. A call for one focus never changes what is cached for a focus of
    another identity, and it never drops or moves a key of its own focus:
    the keys cached before are a prefix of the keys cached after, which
    are at most one more and distinct if they were. *)
Theorem handler_keeps_the_cached_calls
    (c : PerformanceTraceContext) (call : FunctionCall) (a : Agent) :
  (∀ focus', focus_id focus' ≠ focus_id (getItem c) →
     functionCallCacheForFocus (handler c call a).1 !! focus_id focus'
     = functionCallCacheForFocus a !! focus_id focus') ∧
  cachedKeys a (getItem c) `prefix_of` cachedKeys (handler c call a).1 (getItem c) ∧
  length (cachedKeys (handler c call a).1 (getItem c)) ≤ S (length (cachedKeys a (getItem c))) ∧
  (NoDup (cachedKeys a (getItem c)) → NoDup (cachedKeys (handler c call a).1 (getItem c))).
Proof.
  split.
  - intros focus' Hne.
    destruct (handler_effects c call a)
      as (_ & _ & _ & _ & _ & _ & _ & _ & _ & Hcache & _).
    rewrite Hcache.
    destruct ((handler c call a).2) as [[payload| |reason]|err]; try done.
    destruct (cacheKey _ _); [|done]. by rewrite lookup_insert_ne.
  - unfold cachedKeys.
    destruct (handler_cache_of_the_focus c call a)
      as (more & -> & [->|(key & payload & _ & _ & ->)]).
    + split_and!; [done|simpl; lia|done].
    + split_and!.
      * apply assocSet_keys_prefix.
      * rewrite assocSet_keys. case_bool_decide; [lia|]. rewrite length_app. simpl. lia.
      * apply assocSet_keys_NoDup.
Qed.

Lemma assocGet_values {V} key (v : V) o : assocGet key o = Some v → v ∈ values o.
Proof.
  unfold values. induction o as [|[k w] o IH]; [done|]. simpl.
  destruct (decide (k = key)).
  - intros [= ->]. apply list_elem_of_here.
  - intros Hget. apply list_elem_of_further. by apply IH.
Qed.


End FunctionCallCache.

(** ** The window of a track summary *)

Section TrackSummaries.
Import PerformanceAgent FunctionCalls.
Context {engine : TraceEngine} {host : Host}.

#[local] Opaque JS.lit.

(** X11. [createBounds] with bounds that may be missing.  A window it
    returns lies within the trace bounds and within the requested range,
    where a missing minimum counts as 0 and a missing maximum as no limit;
    its range is its length; and asked for that window again it returns
    the same window.  It returns nothing only when no time is both in the
    requested range and in the trace bounds.  A missing minimum and the
    minimum 0 give the same answer, and so do a missing maximum and the
    end of the trace. *)
Theorem createBounds_clamps_to_the_trace (pt : ParsedTrace) (min max : option Z) :
  match createBounds pt min max with
  | Some w =>
      (tw_min (traceBounds pt) ≤ tw_min w ≤ tw_max w)%Z ∧
      (tw_max w ≤ tw_max (traceBounds pt))%Z ∧
      (default 0 min ≤ tw_min w)%Z ∧
      (∀ m, max = Some m → tw_max w ≤ m)%Z ∧
      tw_range w = (tw_max w - tw_min w)%Z ∧
      createBounds pt (Some (tw_min w)) (Some (tw_max w)) = Some w
  | None =>
      ∀ t : Z, (default 0 min ≤ t)%Z → (∀ m, max = Some m → t ≤ m)%Z →
               ¬ (tw_min (traceBounds pt) ≤ t ≤ tw_max (traceBounds pt))%Z
  end ∧
  createBounds pt None max = createBounds pt (Some 0%Z) max ∧
  createBounds pt min None = createBounds pt min (Some (tw_max (traceBounds pt))).
Proof.
  unfold createBounds, gt, traceWindowFromMicroSeconds.
  destruct (traceBounds pt) as [lo hi range]. simpl.
  destruct min as [mn|], max as [mx|]; simpl;
    repeat (match goal with
            | |- context [(?x >? ?y)%Z] => destruct (Z.gtb_spec x y)
            end; simpl);
    split_and!; try done; try lia;
    try (intros m [= <-]; lia);
    try (intros t ? Hm; try specialize (Hm _ eq_refl); lia);
    try (do 2 f_equal; lia).
Qed.

(** X12. The two track summaries read the requested bounds only through the
    window of [createBounds]: two requests with the same window behave
    alike, in the result and in everything they do to the agent. *)
Theorem track_summaries_depend_on_the_clamped_window
    (c : PerformanceTraceContext) (min max min' max' : option Z) (a : Agent) :
  createBounds (parsedTrace (getItem c)) min max
  = createBounds (parsedTrace (getItem c)) min' max' →
  handler c (Call_getMainThreadTrackSummary min max) a
  = handler c (Call_getMainThreadTrackSummary min' max') a ∧
  handler c (Call_getNetworkTrackSummary min max) a
  = handler c (Call_getNetworkTrackSummary min' max') a.
Proof.
  intros Hw. split; handler_steps; by rewrite Hw.
Qed.

(** X13. An exception of the serializer that does not say that the key is
    unknown is not turned into an error result: [getEventByKey] and
    [selectEventByKey] throw it, and so does [getDetailedCallTree] once
    the formatter exists.  Nothing is cached and nothing is revealed. *)
Theorem serializer_failure_goes_through_the_handlers
    (c : PerformanceTraceContext) (key err : jsstring) (a : Agent) :
  eventForKey key (parsedTrace (getItem c)) = Throw err →
  AIContext.includesUnknown err = false →
  (handler c (Call_getEventByKey key) a).2 = Throw err ∧
  (handler c (Call_selectEventByKey key) a).2 = Throw err ∧
  (handler c (Call_getDetailedCallTree key) a).2
  = Throw (match formatter a with Some _ => err | None => missingFormatter end) ∧
  (∀ call, call ∈ [Call_getEventByKey key; Call_selectEventByKey key;
                   Call_getDetailedCallTree key] →
     functionCallCacheForFocus (handler c call a).1 = functionCallCacheForFocus a ∧
     revealed (handler c call a).1 = revealed a).
Proof.
  intros Hthrow Hknown.
  pose proof (lookupEvent_rethrows _ _ _ Hthrow Hknown) as Hlookup.
  split_and!.
  - handler_steps. by rewrite Hlookup.
  - handler_steps. by rewrite Hlookup.
  - handler_steps. destruct a as [[fmt|]]; simpl; [|done]. by rewrite Hlookup.
  - intros call Hcall. repeat apply elem_of_cons in Hcall as [->|Hcall];
      [| | |by apply elem_of_nil in Hcall].
    + handler_steps. rewrite Hlookup. by destruct a.
    + handler_steps. rewrite Hlookup. by destruct a.
    + handler_steps. destruct a as [[fmt|]]; simpl; [|done]. by rewrite Hlookup.
Qed.

Lemma track_summary_returns c min max a :
  is_Some (formatter a) →
  (∃ r, (handler c (Call_getMainThreadTrackSummary min max) a).2 = Normal r) ∧
  (∃ r, (handler c (Call_getNetworkTrackSummary min max) a).2 = Normal r).
Proof.
  intros [fmt Hfmt]. split; handler_steps; destruct a; simpl in *; subst; simpl;
    destruct (createBounds _ _ _); simpl; eauto;
    destruct (isFunctionResponseTooLarge _); simpl; eauto.
Qed.

(** X14. [formatterReady] is kept by every method of the agent: the
    handlers, [enhanceQuery], [handleContextDetails] and [run].  With it,
    [run] for a context leaves a formatter, so that in the turn that
    follows the two track summaries do not throw "missing formatter", for
    any context and any bounds. *)
Theorem track_summaries_find_the_formatter_after_run (a : Agent) :
  formatterReady a →
  (∀ c call, formatterReady (handler c call a).1) ∧
  (∀ query selected, formatterReady (enhanceQuery query selected a).1) ∧
  (∀ selected, formatterReady (handleContextDetails selected a).1) ∧
  (∀ R (super_run : jsstring → option PerformanceTraceContext → M R) query,
     ∃ a', run super_run query None a = super_run query None a' ∧ formatterReady a') ∧
  (∀ R (super_run : jsstring → option PerformanceTraceContext → M R) query c,
     ∃ a', run super_run query (Some c) a = super_run query (Some c) a' ∧
           formatterReady a' ∧ is_Some (formatter a') ∧
           ∀ c' min max,
             (∃ r, (handler c' (Call_getMainThreadTrackSummary min max) a').2 = Normal r) ∧
             (∃ r, (handler c' (Call_getNetworkTrackSummary min max) a').2 = Normal r)).
Proof.
  unfold formatterReady. intros Hready. split_and!.
  - intros c call.
    destruct (handler_effects c call a) as (-> & _ & _ & -> & _). done.
  - intros query [c|]; [|by destruct a].
    rewrite enhanceQuery_unfold, selectedParts_frame.
    assert (formatter (selectedParts (getItem c) a).1 = formatter a ∧
            traceFacts (selectedParts (getItem c) a).1 = traceFacts a) as [Hf Ht].
    { unfold selectedParts. monad.
      destruct a, (callTree (getItem c)) as [ct|], (insight (getItem c)) as [i|]; simpl;
        try destruct (bool_decide _); simpl; try destruct (isEmpty _); done. }
    destruct (selectedParts (getItem c) a) as [a' [[|p ps]|err]]; simpl in *;
      destruct a'; simpl in *; by rewrite Hf, Ht.
  - intros [c|]; [|done]. unfold handleContextDetails. monad.
    destruct a as [fmt ? [|]]; simpl; try done.
  - intros R super_run query. exists (set_facts [] a). split; [done|]. by destruct a.
  - intros R super_run query c.
    destruct (addFacts_spec c a) as (a' & Hrun & _ & Hmemo & _ & Hfmt).
    assert (is_Some (formatter a')) as [fmt Hfmt'].
    { rewrite Hfmt. case_bool_decide as Hm; [by eauto|]. by destruct Hready. }
    exists a'. split_and!; [unfold run, clearFacts; monad; by rewrite Hrun|by eauto|by eauto|].
    intros c' min max. apply track_summary_returns. by eauto.
Qed.

End TrackSummaries.

(** ** The enhanced query and the declared functions *)

Section EnhancedQuery.
Import PerformanceAgent FunctionCalls.
Context {engine : TraceEngine} {host : Host}.

#[local] Opaque JS.lit.

(** What [selectedParts] leaves alone, and the shape of what it
    returns. *)
Lemma selectedParts_effects focus a :
  formatter (selectedParts focus a).1 = formatter a ∧
  hasShownAnalyzeTraceContext (selectedParts focus a).1 = hasShownAnalyzeTraceContext a ∧
  functionCallCacheForFocus (selectedParts focus a).1 = functionCallCacheForFocus a ∧
  traceFacts (selectedParts focus a).1 = traceFacts a ∧
  context (selectedParts focus a).1 = context a ∧
  facts (selectedParts focus a).1 = facts a ∧
  debugLog (selectedParts focus a).1 = debugLog a ∧
  userMetrics (selectedParts focus a).1 = userMetrics a ∧
  revealed (selectedParts focus a).1 = revealed a ∧
  lastInsightForEnhancedQuery (selectedParts focus a).1
  = match insight focus with
    | Some i => Some i
    | None => lastInsightForEnhancedQuery a
    end ∧
  ∃ fromCallTree,
    (selectedParts focus a).2
    = Normal (fromCallTree
              ++ match insight focus with
                 | Some i =>
                     if differsFrom i (lastInsightForEnhancedQuery a)
                     then [insightSection i] else []
                 | None => []
                 end) ∧
    (callTree focus = None → fromCallTree = []).
Proof.
  unfold selectedParts. monad.
  destruct a, (callTree focus) as [ct|], (insight focus) as [i|]; simpl;
    try destruct (bool_decide _); simpl; try destruct (isEmpty _); simpl;
    split_and!; try done;
    first [exists []; split; [reflexivity|done] | eexists [_]; split; [reflexivity|done]].
Qed.

(** X15. After [enhanceQuery] for a context, the declared functions are
    those of that context, whatever was declared before: the five
    functions that are always there, [getResourceContent] if the recording
    is fresh or the enhanced trace has the content of a script, and
    [selectEventByKey] unless the context is external; each name once,
    each bound to this context.  After [enhanceQuery] without a context
    no function is declared. *)
Theorem enhanceQuery_declares_the_functions_of_the_context
    (query : jsstring) (a : Agent) :
  (∀ c,
     declaredFunctions (enhanceQuery query (Some c) a).1 = declaredFor c ∧
     NoDup (declaredFor c).*1 ∧
     Forall (λ d, d.2 = c) (declaredFor c) ∧
     [getInsightDetails; getEventByKey; getMainThreadTrackSummary;
      getNetworkTrackSummary; getDetailedCallTree] `prefix_of` (declaredFor c).*1 ∧
     (selectEventByKey ∈ (declaredFor c).*1 ↔ external c = false) ∧
     (getResourceContent ∈ (declaredFor c).*1
      ↔ recordingIsFresh (parsedTrace (getItem c)) = true
        ∨ enhancedTraceVersion (parsedTrace (getItem c)) = true
          ∧ ∃ content, Some content ∈ scripts_content (parsedTrace (getItem c))
                       ∧ content ≠ [])) ∧
  declaredFunctions (enhanceQuery query None a).1 = [].
Proof.
  split; [|by destruct a]. intros c.
  assert (recordingIsFresh (parsedTrace (getItem c))
          || enhancedTraceVersion (parsedTrace (getItem c))
             && existsb (λ content, negb (isEmpty (default [] content)))
                        (scripts_content (parsedTrace (getItem c))) = true
          ↔ recordingIsFresh (parsedTrace (getItem c)) = true
            ∨ enhancedTraceVersion (parsedTrace (getItem c)) = true
              ∧ ∃ content, Some content ∈ scripts_content (parsedTrace (getItem c))
                           ∧ content ≠ []) as Hresource.
  { rewrite orb_true_iff, andb_true_iff, existsb_exists.
    split; (intros [?|[? Hex]]; [by left|right; split; [done|]]).
    - destruct Hex as ([content|] & Hin%list_elem_of_In & Hne); [|done].
      exists content. split; [done|]. by destruct content.
    - destruct Hex as (content & Hin%list_elem_of_In & Hne).
      exists (Some content). split; [done|]. by destruct content. }
  split.
  { rewrite enhanceQuery_unfold, selectedParts_frame.
    destruct (selectedParts (getItem c) a) as [a' [[|p ps]|err]]; by destruct a'. }
  unfold declaredFor in *.
  rewrite <-Hresource. clear Hresource.
  destruct (recordingIsFresh _ || _), (external c); simpl;
    (split_and!;
     [ compute_done
     | repeat (apply Forall_cons; split; [done|]); apply Forall_nil_2
     | by eexists
     | compute_done
     | compute_done ]).
Qed.

Lemma differsFrom_false i last :
  differsFrom i last = false ↔ ∃ l, last = Some l ∧ insight_id l = insight_id i.
Proof.
  unfold differsFrom. destruct last as [l|]; [|split; [done|by intros (? & ? & ?)]].
  rewrite negb_false_iff, Nat.eqb_eq. split; [by eauto|]. by intros (? & [= <-] & ?).
Qed.

(** X16. The section of an insight is sent when the insight of the focus is
    not the one [enhanceQuery] saw last, by identity: the query of a focus
    with an insight and no call tree is the section and the user query if
    so, and the query as it is if not.  The insight of the focus is then
    the one seen last; a focus without an insight does not change which
    one that is. *)
Theorem enhanceQuery_sends_an_insight_when_it_changes
    (query : jsstring) (c : PerformanceTraceContext) (a : Agent) :
  callTree (getItem c) = None →
  (enhanceQuery query (Some c) a).2
  = Normal (match insight (getItem c) with
            | Some i =>
                if differsFrom i (lastInsightForEnhancedQuery a)
                then insightSection i ++ userQuery query else query
            | None => query
            end) ∧
  lastInsightForEnhancedQuery (enhanceQuery query (Some c) a).1
  = match insight (getItem c) with
    | Some i => Some i
    | None => lastInsightForEnhancedQuery a
    end ∧
  (∀ i, differsFrom i (lastInsightForEnhancedQuery a) = false
        ↔ ∃ l, lastInsightForEnhancedQuery a = Some l ∧ insight_id l = insight_id i).
Proof.
  intros Hct. split_and!; [| |intros i; apply differsFrom_false].
  - rewrite enhanceQuery_unfold, selectedParts_frame.
    destruct (selectedParts_effects (getItem c) a)
      as (_ & _ & _ & _ & _ & _ & _ & _ & _ & _ & parts & Hparts & Hnone).
    rewrite (Hnone Hct) in Hparts.
    destruct (selectedParts (getItem c) a) as [a' r]. simpl in *. subst r.
    destruct (insight (getItem c)) as [i|]; [|done].
    destruct (differsFrom i _); [|done]. cbn -[insightSection userQuery].
    by rewrite app_nil_r.
  - rewrite enhanceQuery_unfold, selectedParts_frame.
    destruct (selectedParts_effects (getItem c) a)
      as (_ & _ & _ & _ & _ & _ & _ & _ & _ & Hlast & _).
    destruct (selectedParts (getItem c) a) as [a' [[|p ps]|err]]; by destruct a'.
Qed.

(** X17. [enhanceQuery] does not fail: the functions of the batch before are
    cleared first, so no name is declared twice.  What it returns ends
    with the query, which it returns as it is when there is no context.
    It changes the declared functions, the set of call trees sent and the
    insight seen last, and nothing else of the agent. *)
Theorem enhanceQuery_returns_a_query_that_ends_with_the_query
    (query : jsstring) (selected : option PerformanceTraceContext) (a : Agent) :
  (∃ before, (enhanceQuery query selected a).2 = Normal (before ++ query) ∧
             (selected = None → before = [])) ∧
  formatter (enhanceQuery query selected a).1 = formatter a ∧
  hasShownAnalyzeTraceContext (enhanceQuery query selected a).1
  = hasShownAnalyzeTraceContext a ∧
  functionCallCacheForFocus (enhanceQuery query selected a).1 = functionCallCacheForFocus a ∧
  traceFacts (enhanceQuery query selected a).1 = traceFacts a ∧
  context (enhanceQuery query selected a).1 = context a ∧
  facts (enhanceQuery query selected a).1 = facts a ∧
  debugLog (enhanceQuery query selected a).1 = debugLog a ∧
  userMetrics (enhanceQuery query selected a).1 = userMetrics a ∧
  revealed (enhanceQuery query selected a).1 = revealed a.
Proof.
  destruct selected as [c|].
  - rewrite enhanceQuery_unfold, selectedParts_frame.
    destruct (selectedParts_effects (getItem c) a)
      as (? & ? & ? & ? & ? & ? & ? & ? & ? & _ & parts & Hparts & _).
    destruct (selectedParts (getItem c) a) as [a' r]. simpl in *. subst r.
    destruct (parts ++ _) as [|p ps]; simpl.
    + split_and!; try by destruct a'. by exists [].
    + split_and!; try by destruct a'.
      exists (JS.join (p :: ps) ++ js "# User query" ++ NL ++ NL). split; [|done].
      unfold JS.join, userQuery. rewrite concat_app. simpl.
      by rewrite app_nil_r, <-!app_assoc.
  - split_and!; try by destruct a. by exists [].
Qed.

End EnhancedQuery.

(** ** The matches of the expression *)

Section RegExpMatches.
Import PerformanceAgent.

Lemma lazyDest_chars s d r :
  lazyDest s = Some (d, r) → Forall (λ c, c ≠ 41%N ∧ JS.isLineTerminator c = false) d.
Proof.
  revert d. induction s as [|c s IH]; intros d; simpl; [done|].
  destruct (N.eqb_spec c 41) as [->|Hc]; [by intros [= <- <-]|].
  destruct (JS.isLineTerminator c) eqn:Hlt; [done|].
  destruct (lazyDest s) as [[d' r']|]; [|done]. simpl.
  intros [= <- <-]. apply Forall_cons. split; [done|by apply IH].
Qed.

Lemma lazyText_chars s x d r :
  lazyText s = Some (x, d, r) →
  Forall (λ c, JS.isLineTerminator c = false) x ∧ Forall (λ c, c ≠ 41%N ∧ JS.isLineTerminator c = false) d.
Proof.
  revert x. induction s as [|c s IH]; intros x; [done|].
  cbn [lazyText].
  destruct (stripPrefix (js "](") (c :: s) ≫= lazyDest) as [[d' r']|] eqn:Hhere.
  - intros [= <- <- <-].
    destruct (stripPrefix (js "](") (c :: s)) as [u|] eqn:Hu; [|done].
    simpl in Hhere. apply lazyDest_chars in Hhere. by split.
  - destruct (JS.isLineTerminator c) eqn:Hlt; [done|].
    destruct (lazyText s) as [[[x' d'] r']|]; [|done]. simpl.
    intros [= <- <- <-]. destruct (IH x' eq_refl). split; [|done]. by apply Forall_cons.
Qed.

Lemma spanUrl_chars s :
  Forall (λ c, urlChar c = true) (spanUrl s).1 ∧
  match (spanUrl s).2 with
  | c :: _ => urlChar c = false
  | [] => True
  end.
Proof.
  induction s as [|c s [IH1 IH2]]; [done|]. cbn [spanUrl].
  destruct (urlChar c) eqn:Hc; [|done].
  destruct (spanUrl s) as [u r]. simpl in *. split; [|done]. by apply Forall_cons.
Qed.

Lemma afterScheme_shape scheme s u rest :
  afterScheme scheme s = Some (u, rest) →
  ∃ run, u = scheme ++ js "://" ++ run ∧ run ≠ [] ∧ Forall (λ c, urlChar c = true) run ∧
         match rest with
         | c :: _ => urlChar c = false
         | [] => True
         end.
Proof.
  unfold afterScheme. destruct (stripPrefix (js "://") s) as [t|]; [|done]. simpl.
  pose proof (spanUrl_chars t) as [Hrun Hrest]. destruct (spanUrl t) as [run rest'].
  destruct run as [|c run]; [done|]. simpl. intros [= <- <-]. by exists (c :: run).
Qed.

Lemma standaloneUrl_shape s u rest :
  standaloneUrl s = Some (u, rest) →
  ∃ scheme run,
    (scheme = js "http" ∨ scheme = js "https") ∧ u = scheme ++ js "://" ++ run ∧
    run ≠ [] ∧ Forall (λ c, urlChar c = true) run ∧
    match rest with
    | c :: _ => urlChar c = false
    | [] => True
    end.
Proof.
  unfold standaloneUrl. destruct (stripPrefix (js "http") s) as [t|]; [|done].
  cbn [mbind option_bind].
  destruct (stripPrefix (js "s") t ≫= afterScheme (js "https")) as [[m' rest']|] eqn:Hs.
  - intros [= <- <-]. destruct (stripPrefix (js "s") t) as [v|]; [|done].
    simpl in Hs. apply afterScheme_shape in Hs as (run & ? & ? & ? & ?).
    exists (js "https"), run. by auto.
  - intros (run & ? & ? & ? & ?)%afterScheme_shape. exists (js "http"), run. by auto.
Qed.

Lemma standalone_match_chars (s : jsstring) (m : RegExpMatch) (url : jsstring) :
  execAt s = Some m → standaloneUrlText m = Some url →
  Forall (λ c, urlChar c = true) url.
Proof.
  unfold execAt. cbv zeta.
  lazymatch goal with
  | |- match ?o with _ => _ end = _ → _ => destruct o as [[[x d] r]|]
  end; [by intros [= <-]|].
  destruct (standaloneUrl s) as [[u rest]|] eqn:Hu; [|done].
  intros [= <-] [= <-].
  apply standaloneUrl_shape in Hu as (scheme & run & Hscheme & -> & _ & Hrun & _).
  apply Forall_app. split; [by destruct Hscheme as [->| ->]; vm_compute; repeat constructor|].
  apply Forall_app. split; [vm_compute; repeat constructor|done].
Qed.

(** X18. What a match of the expression looks like.  It is a markdown link
    or a standalone URL, never both.  In a link the text has no line
    terminator, and the destination neither a line terminator nor a
    closing parenthesis.  A standalone URL is [http://] or [https://] and
    then at least one code unit, none of them white space, an angle
    bracket or a parenthesis; and it is not followed by a code unit that
    could extend it. *)
Theorem a_match_is_a_link_or_a_standalone_url (s : jsstring) (m : RegExpMatch) :
  execAt s = Some m →
  (∃ x d,
     match_ m = js "[" ++ x ++ js "](" ++ d ++ js ")" ∧
     linkText m = Some x ∧ linkDest m = Some d ∧ standaloneUrlText m = None ∧
     Forall (λ c, JS.isLineTerminator c = false) x ∧
     Forall (λ c, c ≠ 41%N ∧ JS.isLineTerminator c = false) d) ∨
  (∃ scheme run rest,
     (scheme = js "http" ∨ scheme = js "https") ∧
     match_ m = scheme ++ js "://" ++ run ∧ s = match_ m ++ rest ∧
     linkText m = None ∧ linkDest m = None ∧ standaloneUrlText m = Some (match_ m) ∧
     run ≠ [] ∧ Forall (λ c, urlChar c = true) run ∧
     match rest with
     | c :: _ => urlChar c = false
     | [] => True
     end).
Proof.
  unfold execAt. cbv zeta.
  lazymatch goal with
  | |- match ?o with _ => _ end = _ → _ => destruct o as [[[x d] r]|] eqn:Hlink
  end.
  - intros [= <-]. cbn [match_ markdownLink linkText linkDest standaloneUrlText].
    destruct (stripPrefix (js "[") s) as [u|]; [|done].
    cbn [mbind option_bind] in Hlink. apply lazyText_chars in Hlink as [? ?].
    left. by exists x, d.
  - destruct (standaloneUrl s) as [[u rest]|] eqn:Hu; [|done].
    intros [= <-]. cbn [match_ markdownLink linkText linkDest standaloneUrlText].
    destruct (standaloneUrl_Some _ _ _ Hu) as [-> _].
    apply standaloneUrl_shape in Hu as (scheme & run & ? & ? & ? & ? & ?).
    right. by exists scheme, run, rest.
Qed.

Lemma lazyDest_of key r :
  Forall (λ c, c ≠ 41%N ∧ JS.isLineTerminator c = false) key →
  lazyDest (key ++ js ")" ++ r) = Some (key, r).
Proof.
  induction 1 as [|c key [Hc Hlt] _ IH]; [done|].
  change (lazyDest (c :: (key ++ js ")" ++ r)) = Some (c :: key, r)). cbn [lazyDest].
  destruct (N.eqb_spec c 41); [done|]. by rewrite Hlt, IH.
Qed.

Lemma urlChar_plain c :
  urlChar c = true → c ≠ 40%N ∧ c ≠ 41%N ∧ JS.isLineTerminator c = false.
Proof.
  unfold urlChar, JS.isWhiteSpace, JS.isLineTerminator.
  destruct (N.eqb_spec c 40), (N.eqb_spec c 41), (N.eqb_spec c 10), (N.eqb_spec c 13),
    (N.eqb_spec c 8232), (N.eqb_spec c 8233); subst; try done;
    rewrite ?orb_true_r; simpl; done.
Qed.

Lemma lazyText_of x t d r :
  Forall (λ c, urlChar c = true) x → lazyDest t = Some (d, r) →
  lazyText (x ++ js "](" ++ t) = Some (x, d, r).
Proof.
  intros Hx Ht. induction Hx as [|c x Hc Hx IH].
  - change (lazyText (93%N :: 40%N :: t) = Some ([], d, r)). cbn [lazyText].
    change (stripPrefix (js "](") (93%N :: 40%N :: t)) with (Some t).
    cbn [mbind option_bind]. by rewrite Ht.
  - change (lazyText (c :: (x ++ js "](" ++ t)) = Some (c :: x, d, r)). cbn [lazyText].
    destruct (urlChar_plain c Hc) as (_ & _ & Hlt).
    assert (stripPrefix (js "](") (c :: (x ++ js "](" ++ t)) = None) as ->.
    { change (js "](") with [93%N; 40%N]. cbn [stripPrefix].
      destruct (93 =? c)%N; [|done].
      destruct Hx as [|c' x Hc' _]; [done|].
      destruct (urlChar_plain c' Hc') as (Hopen & _).
      cbn [app]. by destruct (N.eqb_spec 40 c'). }
    cbn [mbind option_bind]. by rewrite Hlt, IH.
Qed.

Lemma replaceFrom_skip f s : ∀ skip, length s ≤ skip → replaceFrom f skip s = [].
Proof.
  induction s as [|c s IH]; intros skip Hskip; [done|]. simpl in *.
  destruct skip as [|k]; [lia|]. apply IH. lia.
Qed.

(** X19. What the parser writes for a standalone URL it knows, it leaves as
    it is when it parses it: the link [[url](#key)] is a markdown link
    with an internal destination, for every key without a closing
    parenthesis and a line terminator, and for the requests of any focus. *)
Theorem the_link_of_a_known_url_is_left_alone
    {engine : TraceEngine} (focus : AgentFocus) (s : jsstring) (m : RegExpMatch)
    (url key : jsstring) :
  execAt s = Some m → standaloneUrlText m = Some url →
  Forall (λ c, c ≠ 41%N ∧ JS.isLineTerminator c = false) key →
  PerformanceAgent.replace (js "[" ++ url ++ js "](#" ++ key ++ js ")") (replacer focus)
  = js "[" ++ url ++ js "](#" ++ key ++ js ")".
Proof.
  intros Hm Hurl Hkey.
  pose proof (standalone_match_chars _ _ _ Hm Hurl) as Hchars.
  assert (lazyDest (js "#" ++ key ++ js ")" ++ []) = Some (js "#" ++ key, [])) as Hdest.
  { apply (lazyDest_of (js "#" ++ key) []). apply Forall_cons. split; [done|exact Hkey]. }
  pose proof (lazyText_of url _ _ _ Hchars Hdest) as Htext.
  set (whole := js "[" ++ url ++ js "](#" ++ key ++ js ")").
  assert (execAt whole
          = Some {| match_ := whole; markdownLink := Some whole; linkText := Some url;
                    linkDest := Some (js "#" ++ key); standaloneUrlText := None |}) as Hexec.
  { unfold execAt.
    change (stripPrefix (js "[") whole) with (Some (url ++ js "](#" ++ key ++ js ")")).
    cbn [mbind option_bind].
    replace (url ++ js "](#" ++ key ++ js ")")
      with (url ++ js "](" ++ js "#" ++ key ++ js ")" ++ []) by by rewrite app_nil_r.
    by rewrite Htext. }
  unfold PerformanceAgent.replace, whole. change (js "[") with [91%N]. cbn [app replaceFrom].
  change (execAt (91%N :: url ++ js "](#" ++ key ++ js ")")) with (execAt whole).
  rewrite Hexec. cbn [match_].
  rewrite replaceFrom_skip by (unfold whole; simpl; lia).
  rewrite app_nil_r. unfold replacer. cbn [markdownLink linkDest match_]. done.
Qed.

End RegExpMatches.

(** ** The suggestions of a context *)

Section SuggestionsOfAContext.
Import PerformanceAgent Suggestions.
Context {insights : Insights}.

Lemma notGood_spec {V} (metric : option V) classify :
  notGood metric classify = true ↔ ∃ value, metric = Some value ∧ classify value ≠ GOOD.
Proof.
  unfold notGood. destruct metric as [value|].
  - rewrite negb_true_iff, bool_decide_eq_false. split; [by eauto|]. by intros (? & [= <-] & ?).
  - split; [done|]. by intros (? & ? & ?).
Qed.

Lemma suggestions_differ :
  performanceDefault (js "How can I improve LCP?") ≠ performanceDefault (js "How can I improve INP?") ∧
  performanceDefault (js "How can I improve LCP?") ≠ performanceDefault (js "How can I improve CLS?") ∧
  performanceDefault (js "How can I improve INP?") ≠ performanceDefault (js "How can I improve CLS?").
Proof. split_and!; vm_compute; discriminate. Qed.

(** X20. Which suggestions a context gives.  A focus with a call tree gives
    the three questions about the call tree, whatever else it has; without
    a call tree, a focus with an insight gives the suggestions of that
    insight.  Otherwise the first suggestion asks for the issues of the
    page, and the others, in the order LCP, INP, CLS, ask about a metric
    exactly when the insight set has it and its value is not classified
    as good; without an insight set there is only the first one. *)
Theorem getSuggestions_follows_the_focus (c : PerformanceTraceContext) :
  match callTree (getItem c), insight (getItem c) with
  | Some _, _ => getSuggestions c = callTreeSuggestions
  | None, Some i => getSuggestions c = insightSuggestions (getItem c) i
  | None, None =>
      ∃ more,
        getSuggestions c = firstSuggestion :: more ∧
        more `sublist_of` [performanceDefault (js "How can I improve LCP?");
                           performanceDefault (js "How can I improve INP?");
                           performanceDefault (js "How can I improve CLS?")] ∧
        match insightSet (getItem c) with
        | None => more = []
        | Some set =>
            (performanceDefault (js "How can I improve LCP?") ∈ more
             ↔ ∃ value, getLCP set = Some value
                        ∧ scoreClassificationForLargestContentfulPaint value ≠ GOOD) ∧
            (performanceDefault (js "How can I improve INP?") ∈ more
             ↔ ∃ value, getINP set = Some value
                        ∧ scoreClassificationForInteractionToNextPaint value ≠ GOOD) ∧
            (performanceDefault (js "How can I improve CLS?") ∈ more
             ↔ ∃ value, getCLS set = Some value
                        ∧ scoreClassificationForLayoutShift value ≠ GOOD)
        end
  end.
Proof.
  unfold getSuggestions.
  destruct (callTree (getItem c)) as [ct|]; [done|].
  destruct (insight (getItem c)) as [i|]; [done|].
  destruct (insightSet (getItem c)) as [set|]; [|exists []; split_and!; [done|apply sublist_nil_l|done]].
  destruct suggestions_differ as (Hli & Hlc & Hic).
  destruct (notGood (getLCP set) scoreClassificationForLargestContentfulPaint) eqn:Hl,
    (notGood (getINP set) scoreClassificationForInteractionToNextPaint) eqn:Hi,
    (notGood (getCLS set) scoreClassificationForLayoutShift) eqn:Hc;
    simpl; eexists; (split; [reflexivity|]);
    (split; [repeat first [apply sublist_nil_l | apply sublist_skip | apply sublist_cons]|]);
    rewrite <-(notGood_spec (getLCP set) scoreClassificationForLargestContentfulPaint),
      <-(notGood_spec (getINP set) scoreClassificationForInteractionToNextPaint),
      <-(notGood_spec (getCLS set) scoreClassificationForLayoutShift), Hl, Hi, Hc;
    rewrite ?elem_of_cons, ?elem_of_nil; split_and!; split; try done; try by auto.
  all: intros Hin; repeat destruct Hin as [Hin|Hin]; try done; by (congruence || auto).
Qed.

End SuggestionsOfAContext.

(** ** The origin of a context *)

Section Origin.
Import PerformanceAgent.

(** The number that a string of decimal digits writes, from [acc]. *)
Lemma digits_value_from (l : jsstring) : ∀ a : N,
  fold_left (λ a c, a * 10 + (c - 48))%N l a
  = (a * 10 ^ N.of_nat (length l) + fold_left (λ a c, a * 10 + (c - 48))%N l 0)%N.
Proof.
  induction l as [|c l IH]; intros a.
  - simpl. lia.
  - cbn [fold_left length]. rewrite (IH (a * 10 + (c - 48))%N), (IH (0 * 10 + (c - 48))%N).
    rewrite Nat2N.inj_succ, N.pow_succ_r by lia. lia.
Qed.

Lemma digits_value_cons (r : N) (acc : jsstring) :
  fold_left (λ a c, a * 10 + (c - 48))%N ((48 + r)%N :: acc) 0%N
  = (r * 10 ^ N.of_nat (length acc) + fold_left (λ a c, a * 10 + (c - 48))%N acc 0)%N.
Proof.
  cbn [fold_left]. rewrite digits_value_from. f_equal. f_equal. lia.
Qed.

Lemma digits_spec fuel : ∀ n acc,
  (n < 10 ^ N.of_nat fuel)%N → Forall (λ c, 48 ≤ c ≤ 57)%N acc →
  Forall (λ c, 48 ≤ c ≤ 57)%N (JS.digits fuel n acc) ∧
  fold_left (λ a c, a * 10 + (c - 48))%N (JS.digits fuel n acc) 0%N
  = (n * 10 ^ N.of_nat (length acc)
     + fold_left (λ a c, a * 10 + (c - 48))%N acc 0)%N ∧
  (fuel ≠ 0 → JS.digits fuel n acc ≠ []).
Proof.
  induction fuel as [|fuel IH]; intros n acc Hn Hacc.
  - simpl in *. split_and!; [done|lia|done].
  - cbn [JS.digits]. rewrite Nat2N.inj_succ, N.pow_succ_r in Hn by lia.
    pose proof (N.mod_upper_bound n 10 ltac:(lia)) as Hmod.
    pose proof (N.div_mod n 10 ltac:(lia)) as Hdiv.
    assert (0 < 10 ^ N.of_nat (length acc))%N as Hpos
      by (apply N.neq_0_lt_0, N.pow_nonzero; lia).
    specialize (IH (n / 10)%N ((48 + n mod 10)%N :: acc)).
    rewrite digits_value_cons in IH. cbn [length] in IH. cbv zeta.
    rewrite Nat2N.inj_succ, N.pow_succ_r in IH by lia.
    remember (n / 10)%N as q eqn:Hq. remember (n mod 10)%N as r eqn:Hr.
    remember (10 ^ N.of_nat fuel)%N as P eqn:HP.
    remember (10 ^ N.of_nat (length acc))%N as L eqn:HL.
    remember (fold_left (λ a c, a * 10 + (c - 48))%N acc 0%N) as V eqn:HV.
    clear Hq Hr HP.
    assert (Forall (λ c, 48 ≤ c ≤ 57)%N ((48 + r)%N :: acc)) as Hacc'.
    { apply Forall_cons. split; [cbv beta; clear -Hmod; lia|done]. }
    destruct (N.ltb_spec n 10) as [Hsmall|Hbig].
    + split_and!; [done| |done].
      assert (n = r) as -> by (clear -Hdiv Hsmall; lia). subst L V. apply digits_value_cons.
    + destruct IH as (Hall & Hval & Hne); [clear -Hdiv Hn Hmod; lia|done|].
      split_and!; [done| |].
      * rewrite Hval. clear -Hdiv. nia.
      * intros _ Hnil. rewrite Hnil in Hval. simpl in Hval.
        clear -Hval Hdiv Hbig Hmod Hpos. nia.
Qed.

(** [JS.ofZ] writes a sign for a negative number, and then the digits
    of its magnitude. *)
Lemma ofZ_spec z :
  ∃ d, JS.ofZ z = (if (z <? 0)%Z then [45%N] else []) ++ d ∧ d ≠ [] ∧
       Forall (λ c, 48 ≤ c ≤ 57)%N d ∧
       fold_left (λ a c, a * 10 + (c - 48))%N d 0%N = Z.to_N (Z.abs z).
Proof.
  unfold JS.ofZ. set (n := Z.to_N (Z.abs z)).
  destruct (digits_spec (S (N.to_nat (N.log2 n))) n []) as (Hall & Hval & Hne); [|done|].
  - rewrite Nat2N.inj_succ, N2Nat.id.
    destruct (decide (n = 0%N)) as [->|Hpos]; [done|].
    apply N.lt_le_trans with (2 ^ N.succ (N.log2 n))%N;
      [apply N.log2_spec; lia|apply N.pow_le_mono_l; lia].
  - exists (JS.digits (S (N.to_nat (N.log2 n))) n []).
    split_and!; [by destruct (z <? 0)%Z|by apply Hne|done|]. rewrite Hval. simpl. lia.
Qed.

Lemma digits_until_the_dash (d d' r r' : jsstring) :
  Forall (λ c, 48 ≤ c ≤ 57)%N d → Forall (λ c, 48 ≤ c ≤ 57)%N d' →
  d ++ 45%N :: r = d' ++ 45%N :: r' → d = d' ∧ r = r'.
Proof.
  intros Hd. revert d'. induction Hd as [|c d Hc Hd IH]; intros d' Hd' Heq.
  - destruct Hd' as [|c' d' Hc' _]; simpl in Heq; [by injection Heq|].
    injection Heq as <- _. lia.
  - destruct Hd' as [|c' d' Hc' Hd']; simpl in Heq.
    + injection Heq as -> _. lia.
    + injection Heq as <- Heq. destruct (IH d' Hd' Heq) as [-> ->]. done.
Qed.

Lemma ofZ_then_a_dash (a a' : Z) (r r' : jsstring) :
  JS.ofZ a ++ 45%N :: r = JS.ofZ a' ++ 45%N :: r' → a = a' ∧ r = r'.
Proof.
  destruct (ofZ_spec a) as (d & -> & Hne & Hd & Hval).
  destruct (ofZ_spec a') as (d' & -> & Hne' & Hd' & Hval').
  destruct (Z.ltb_spec a 0), (Z.ltb_spec a' 0); simpl; intros Heq.
  - injection Heq as Heq. destruct (digits_until_the_dash _ _ _ _ Hd Hd' Heq) as [<- <-].
    split; [lia|done].
  - destruct Hd' as [|c' d' Hc' _]; [done|]. injection Heq as <- _. lia.
  - destruct Hd as [|c d Hc _]; [done|]. injection Heq as -> _. lia.
  - destruct (digits_until_the_dash _ _ _ _ Hd Hd' Heq) as [<- <-]. split; [lia|done].
Qed.

Lemma ofZ_inj (b b' : Z) : JS.ofZ b = JS.ofZ b' → b = b'.
Proof.
  intros Heq.
  assert (JS.ofZ b ++ 45%N :: [] = JS.ofZ b' ++ 45%N :: []) as Hdash by by rewrite Heq.
  by apply ofZ_then_a_dash in Hdash as [? _].
Qed.

(** X21. The origin tells contexts apart by the bounds of their traces: two
    contexts have the same origin exactly when their traces have the same
    bounds, as long as the bounds are below the magnitude from which
    JavaScript writes a number with an exponent.  Nothing else of the
    focus is read: not the insight, not the call tree. *)
Theorem getOrigin_tells_the_trace_bounds_apart (c c' : PerformanceTraceContext) :
  (Z.abs (tw_min (traceBounds (parsedTrace (getItem c)))) < 10 ^ 21)%Z →
  (Z.abs (tw_max (traceBounds (parsedTrace (getItem c)))) < 10 ^ 21)%Z →
  (Z.abs (tw_min (traceBounds (parsedTrace (getItem c')))) < 10 ^ 21)%Z →
  (Z.abs (tw_max (traceBounds (parsedTrace (getItem c')))) < 10 ^ 21)%Z →
  getOrigin c = getOrigin c'
  ↔ tw_min (traceBounds (parsedTrace (getItem c)))
    = tw_min (traceBounds (parsedTrace (getItem c'))) ∧
    tw_max (traceBounds (parsedTrace (getItem c)))
    = tw_max (traceBounds (parsedTrace (getItem c'))).
Proof.
  intros _ _ _ _. unfold getOrigin. cbv zeta. split.
  - intros Heq. apply app_inv_head in Heq.
    change (js "-") with [45%N] in Heq. cbn [app] in Heq.
    apply ofZ_then_a_dash in Heq as [? Heq]. split; [done|]. by apply ofZ_inj.
  - by intros [-> ->].
Qed.

End Origin.

(** ** The facts over several turns *)

Section TurnFacts.
Import PerformanceAgent FunctionCalls.
Context {engine : TraceEngine} {host : Host}.

(** X22. The facts do not pile up from turn to turn: [run] for a context,
    and then [run] for the same context on the agent this leaves, hand
    the same facts to the base class, with the same memoized summary
    facts and the same formatter, whatever the facts were before the
    first of the two. *)
Theorem run_again_gives_the_same_facts {R R'}
    (super_run : jsstring → option PerformanceTraceContext → M R)
    (super_run' : jsstring → option PerformanceTraceContext → M R')
    (query query' : jsstring) (c : PerformanceTraceContext) (a : Agent) :
  ∃ a1 a2,
    run super_run query (Some c) a = super_run query (Some c) a1 ∧
    run super_run' query' (Some c) a1 = super_run' query' (Some c) a2 ∧
    facts a2 = facts a1 ∧ traceFacts a2 = traceFacts a1 ∧ formatter a2 = formatter a1 ∧
    functionCallCacheForFocus a2 = functionCallCacheForFocus a.
Proof.
  destruct (addFacts_spec c a) as (a1 & Hrun1 & Hfacts1 & Hmemo1 & Hcache1 & Hfmt1).
  destruct (addFacts_spec c a1) as (a2 & Hrun2 & Hfacts2 & Hmemo2 & Hcache2 & Hfmt2).
  exists a1, a2.
  assert (traceFacts a2 = traceFacts a1) as Hmemo.
  { rewrite Hmemo2. case_bool_decide as Hnone; [|done].
    rewrite Hnone. rewrite Hmemo1 in Hnone. by case_bool_decide. }
  split_and!.
  - unfold run, clearFacts. monad. by rewrite Hrun1.
  - unfold run, clearFacts. monad. by rewrite Hrun2.
  - rewrite Hfacts2, Hfacts1, Hmemo. unfold cachedFacts. by rewrite Hcache1.
  - done.
  - rewrite Hfmt2. case_bool_decide as Hnone; [|done].
    rewrite Hfmt1. rewrite Hmemo1 in Hnone. by case_bool_decide.
  - by rewrite Hcache2.
Qed.

End TurnFacts.

(** ** The function-result cache over a conversation *)

Section CacheOverAConversation.
Import PerformanceAgent FunctionCalls Turns.
Context {engine : TraceEngine} {host : Host}.

Lemma enhanceQuery_cache query selected a :
  functionCallCacheForFocus (enhanceQuery query selected a).1 = functionCallCacheForFocus a.
Proof.
  destruct selected as [c|]; [|by destruct a].
  rewrite enhanceQuery_unfold, selectedParts_frame.
  destruct (selectedParts_effects (getItem c) a) as (_ & _ & Hcache & _).
  destruct (selectedParts (getItem c) a) as [a' [[|p ps]|err]]; by destruct a'.
Qed.

Lemma run_cache query selected a :
  functionCallCacheForFocus (run (λ _ _, ret tt) query selected a).1
  = functionCallCacheForFocus a.
Proof.
  destruct selected as [c|].
  - destruct (addFacts_spec c a) as (a' & Hrun & _ & _ & Hcache & _).
    unfold run, clearFacts. monad. by rewrite Hrun.
  - by destruct a.
Qed.

Lemma handleContextDetails_cache context a :
  functionCallCacheForFocus (handleContextDetails context a).1 = functionCallCacheForFocus a.
Proof.
  destruct context as [c|]; [|done]. unfold handleContextDetails. monad.
  by destruct a as [fmt ? [|]].
Qed.

(** The cache of a focus after a handler: as before, or with the fact
    of the result under the key of the call. *)
Lemma handler_cache_lookup c call a id :
  default [] (functionCallCacheForFocus (handler c call a).1 !! id)
  = default [] (functionCallCacheForFocus a !! id) ∨
  id = focus_id (getItem c) ∧
  ∃ key payload,
    cacheKey (parsedTrace (getItem c)) call = Some key ∧
    default [] (functionCallCacheForFocus (handler c call a).1 !! id)
    = assocSet key (functionCallFact key payload)
        (default [] (functionCallCacheForFocus a !! id)).
Proof.
  destruct (handler_effects c call a)
    as (_ & _ & _ & _ & _ & _ & _ & _ & _ & Hcache & _).
  rewrite Hcache.
  destruct ((handler c call a).2) as [[payload| |reason]|err]; try by left.
  destruct (cacheKey _ _) as [key|]; [|by left].
  destruct (decide (id = focus_id (getItem c))) as [->|Hne].
  - right. split; [done|]. exists key, payload. by rewrite lookup_insert_eq.
  - left. by rewrite lookup_insert_ne.
Qed.

(** A key that is cached for a focus stays cached, with a fact of a
    result under that key. *)
Lemma operate_keeps_the_key op a id key :
  (∃ payload, assocGet key (default [] (functionCallCacheForFocus a !! id))
              = Some (functionCallFact key payload)) →
  ∃ payload, assocGet key (default [] (functionCallCacheForFocus (operate op a) !! id))
             = Some (functionCallFact key payload).
Proof.
  intros [payload Hin]. destruct op as [c call|query context|query selected|context];
    cbn [operate].
  - destruct (handler_cache_lookup c call a id)
      as [->|(_ & key' & payload' & _ & ->)]; [by eauto|].
    destruct (decide (key' = key)) as [->|Hne].
    + exists payload'. apply assocGet_assocSet.
    + exists payload. by rewrite assocGet_assocSet_ne.
  - rewrite enhanceQuery_cache. by eauto.
  - rewrite run_cache. by eauto.
  - rewrite handleContextDetails_cache. by eauto.
Qed.

Lemma operations_keep_the_key ops : ∀ a id key,
  (∃ payload, assocGet key (default [] (functionCallCacheForFocus a !! id))
              = Some (functionCallFact key payload)) →
  ∃ payload, assocGet key (default [] (functionCallCacheForFocus (operations ops a) !! id))
             = Some (functionCallFact key payload).
Proof.
  induction ops as [|op ops IH]; intros a id key Hin; [done|].
  cbn [operations foldl]. apply IH. by apply operate_keeps_the_key.
Qed.

(** X10. When a handler returns a result, the [run] that starts in the
    state the handler left, for a context of the same focus, hands the
    fact of that result to the base class among the facts, under the key
    of the call.  After any further calls of handlers, [enhanceQuery],
    [run] and [handleContextDetails], a [run] for a context of that focus
    still hands on a fact under that key: the fact that the cache of the
    focus holds under the key then. *)
Theorem a_returned_result_stays_among_the_facts {R}
    (super_run : jsstring → option PerformanceTraceContext → M R)
    (query : jsstring) (c c' : PerformanceTraceContext)
    (call : FunctionCall) (payload : jsstring) (a : Agent) (between : list Operation) :
  (handler c call a).2 = Normal (result payload) →
  focus_id (getItem c') = focus_id (getItem c) →
  ∃ key,
    cacheKey (parsedTrace (getItem c)) call = Some key ∧
    (∃ a', run super_run query (Some c') (handler c call a).1 = super_run query (Some c') a' ∧
           functionCallFact key payload ∈ facts a') ∧
    (∃ a' payload',
       assocGet key
         (default [] (functionCallCacheForFocus (operations between (handler c call a).1)
                        !! focus_id (getItem c')))
       = Some (functionCallFact key payload') ∧
       run super_run query (Some c') (operations between (handler c call a).1)
       = super_run query (Some c') a' ∧
       functionCallFact key payload' ∈ facts a').
Proof.
  intros Hres Hid.
  destruct (handler_effects c call a)
    as (_ & _ & _ & _ & _ & _ & _ & _ & _ & Hcache & _ & _ & Hkey).
  destruct Hkey as [[key Hkey]|Hno]; [|by destruct (Hno payload)].
  rewrite Hres, Hkey in Hcache.
  assert (assocGet key (default [] (functionCallCacheForFocus (handler c call a).1
                                      !! focus_id (getItem c')))
          = Some (functionCallFact key payload)) as Hin.
  { rewrite Hid, Hcache, lookup_insert_eq. apply assocGet_assocSet. }
  assert (∀ a1 fact,
            assocGet key (default [] (functionCallCacheForFocus a1 !! focus_id (getItem c')))
            = Some fact →
            ∃ a', run super_run query (Some c') a1 = super_run query (Some c') a' ∧
                  fact ∈ facts a') as Hrun.
  { intros a1 fact Hfact.
    destruct (addFacts_spec c' a1) as (a' & Hrun & Hfacts & _).
    exists a'. split; [unfold run, clearFacts; monad; by rewrite Hrun|].
    rewrite Hfacts, !elem_of_app. right. right. by apply (assocGet_values key). }
  exists key. split_and!; [done|by apply Hrun|].
  destruct (operations_keep_the_key between (handler c call a).1 (focus_id (getItem c')) key)
    as [payload' Hin']; [by eauto|].
  destruct (Hrun _ _ Hin') as (a' & ? & ?). by exists a', payload'.
Qed.

(** *** Calls through [callFunction] *)









End CacheOverAConversation.

(** ** The further statements on the concrete traces *)

Section FurtherEvaluated.
Import PerformanceAgent FunctionCalls Turns Suggestions Examples MoreExamples.
#[local] Existing Instances exampleEngine exampleHost.

(** The JSON text of [requestX], returned by [getEventByKey] in a turn on
    [contextA], is among the facts of the next turn on [contextA]; and
    after a query on [contextB] and a call of [getEventByKey] there, a
    turn on [contextA] still has a fact under the key. *)
Lemma a_returned_result_stays_among_the_facts_witness :
  (handler contextA (Call_getEventByKey (js "s-1")) agentOnA).2 = Normal (result (js "{}")) ∧
  ∃ key,
    cacheKey traceA (Call_getEventByKey (js "s-1")) = Some key ∧
    (∃ a', factsOfTurn (Some contextA)
             (handler contextA (Call_getEventByKey (js "s-1")) agentOnA).1
           = (a', Normal tt) ∧
           functionCallFact key (js "{}") ∈ facts a') ∧
    (∃ a' payload',
       assocGet key
         (default []
            (functionCallCacheForFocus
               (operations [Op_enhanceQuery (js "q2") (Some contextB);
                            Op_handler contextB (Call_getEventByKey (js "r-2"))]
                           (handler contextA (Call_getEventByKey (js "s-1")) agentOnA).1)
             !! focus_id (getItem contextA)))
       = Some (functionCallFact key payload') ∧
       factsOfTurn (Some contextA)
         (operations [Op_enhanceQuery (js "q2") (Some contextB);
                      Op_handler contextB (Call_getEventByKey (js "r-2"))]
                     (handler contextA (Call_getEventByKey (js "s-1")) agentOnA).1)
       = (a', Normal tt) ∧
       functionCallFact key payload' ∈ facts a').
Proof.
  split; [reflexivity|].
  exact (a_returned_result_stays_among_the_facts (λ _ _, ret tt) (js "q")
           contextA contextA (Call_getEventByKey (js "s-1")) (js "{}") agentOnA
           [Op_enhanceQuery (js "q2") (Some contextB);
            Op_handler contextB (Call_getEventByKey (js "r-2"))]
           eq_refl eq_refl).
Defined.


(** The same for a call that returns a result: the handler of
    [getEventByKey] runs once, and the second call is answered with the
    text of the cached fact. *)
Example a_cached_call_is_answered_from_the_cache :
  (twoIdenticalCalls (Call_getEventByKey (js "s-1")) new_PerformanceAgent).2
  = Normal ((ACTION (js "Looking at trace event" ++ [8230%N]) (js "getEventByKey('s-1')"),
             result (js "{}")),
            (ACTION (js "Looking at trace event" ++ [8230%N]) (js "getEventByKey('s-1')"),
             result (js "This is the result of calling getEventByKey('s-1'):"
                     ++ [10%N] ++ js "{}"))) ∧
  debugLog (twoIdenticalCalls (Call_getEventByKey (js "s-1")) new_PerformanceAgent).1
  = [js "Function call: getEventByKey"].
Proof. split; vm_compute; reflexivity. Qed.


(** On [traceB], whose bounds are 5 and 50, the summary of the range
    from 0 to 1000 is that of the range from 5 to 50. *)
Lemma track_summaries_depend_on_the_clamped_window_witness :
  createBounds traceB (Some 0%Z) (Some 1000%Z) = createBounds traceB (Some 5%Z) (Some 50%Z) ∧
  handler contextB (Call_getMainThreadTrackSummary (Some 0%Z) (Some 1000%Z)) agentWithFormatter
  = handler contextB (Call_getMainThreadTrackSummary (Some 5%Z) (Some 50%Z)) agentWithFormatter.
Proof.
  split; [reflexivity|].
  exact (proj1 (track_summaries_depend_on_the_clamped_window contextB
                  (Some 0%Z) (Some 1000%Z) (Some 5%Z) (Some 50%Z) agentWithFormatter eq_refl)).
Defined.

(** The serializer of [brokenEngine] throws a [TypeError], which
    [getEventByKey] throws on. *)
Lemma serializer_failure_goes_through_the_handlers_witness :
  @eventForKey brokenEngine (js "s-1") traceA = Throw (js "TypeError: no active manager") ∧
  AIContext.includesUnknown (js "TypeError: no active manager") = false ∧
  (@handler brokenEngine exampleHost contextA (Call_getEventByKey (js "s-1")) agentOnA).2
  = Throw (js "TypeError: no active manager").
Proof.
  split; [reflexivity|]. split; [vm_compute; reflexivity|].
  exact (proj1 (@serializer_failure_goes_through_the_handlers brokenEngine exampleHost
                  contextA (js "s-1") (js "TypeError: no active manager") agentOnA
                  eq_refl eq_refl)).
Defined.

(** A new agent has no memoized summary facts; after [run] on [contextA]
    it has a formatter. *)
Lemma track_summaries_find_the_formatter_after_run_witness :
  formatterReady new_PerformanceAgent ∧
  ∃ a', factsOfTurn (Some contextA) new_PerformanceAgent = (a', Normal tt) ∧
        is_Some (formatter a').
Proof.
  assert (formatterReady new_PerformanceAgent) as Hready by (left; reflexivity).
  split; [exact Hready|].
  destruct (proj2 (proj2 (proj2 (proj2
              (track_summaries_find_the_formatter_after_run new_PerformanceAgent Hready))))
              unit (λ _ _, ret tt) (js "q") contextA)
    as (a' & Hrun & _ & Hfmt & _).
  exists a'. split; [exact Hrun|exact Hfmt].
Defined.

(** The first query on the LCP insight carries its section. *)
Lemma enhanceQuery_sends_an_insight_when_it_changes_witness :
  callTree (getItem (contextWithInsight insightLCP)) = None ∧
  (enhanceQuery (js "q") (Some (contextWithInsight insightLCP)) new_PerformanceAgent).2
  = Normal (js "User selected the LCPBreakdown insight." ++ NL ++ NL ++ userQuery (js "q")).
Proof.
  split; [reflexivity|].
  exact (proj1 (enhanceQuery_sends_an_insight_when_it_changes (js "q")
                  (contextWithInsight insightLCP) new_PerformanceAgent eq_refl)).
Defined.

(** The comment of the source: insight A, a follow-up, insight B, and A
    again; the follow-up alone goes without the section. *)
Example enhanceQuery_over_four_turns_on_insights :
  (sequence [enhanceQuery (js "q1") (Some (contextWithInsight insightLCP));
             enhanceQuery (js "q2") (Some (contextWithInsight insightLCP));
             enhanceQuery (js "q3") (Some (contextWithInsight insightCLS));
             enhanceQuery (js "q4") (Some (contextWithInsight insightLCP))]
            new_PerformanceAgent).2
  = Normal [insightSection insightLCP ++ userQuery (js "q1"); js "q2";
            insightSection insightCLS ++ userQuery (js "q3");
            insightSection insightLCP ++ userQuery (js "q4")].
Proof. vm_compute. reflexivity. Qed.

(** The match at a URL that a space follows. *)
Lemma a_match_is_a_link_or_a_standalone_url_witness :
  execAt (js "https://a.com/x now") = Some (standaloneMatch (js "https://a.com/x")) ∧
  ((∃ x d,
      match_ (standaloneMatch (js "https://a.com/x")) = js "[" ++ x ++ js "](" ++ d ++ js ")" ∧
      linkText (standaloneMatch (js "https://a.com/x")) = Some x ∧
      linkDest (standaloneMatch (js "https://a.com/x")) = Some d ∧
      standaloneUrlText (standaloneMatch (js "https://a.com/x")) = None ∧
      Forall (λ c, JS.isLineTerminator c = false) x ∧
      Forall (λ c, c ≠ 41%N ∧ JS.isLineTerminator c = false) d) ∨
   (∃ scheme run rest,
      (scheme = js "http" ∨ scheme = js "https") ∧
      match_ (standaloneMatch (js "https://a.com/x")) = scheme ++ js "://" ++ run ∧
      js "https://a.com/x now" = match_ (standaloneMatch (js "https://a.com/x")) ++ rest ∧
      linkText (standaloneMatch (js "https://a.com/x")) = None ∧
      linkDest (standaloneMatch (js "https://a.com/x")) = None ∧
      standaloneUrlText (standaloneMatch (js "https://a.com/x"))
      = Some (match_ (standaloneMatch (js "https://a.com/x"))) ∧
      run ≠ [] ∧ Forall (λ c, urlChar c = true) run ∧
      match rest with
      | c :: _ => urlChar c = false
      | [] => True
      end)).
Proof.
  split; [reflexivity|].
  exact (a_match_is_a_link_or_a_standalone_url (js "https://a.com/x now")
           (standaloneMatch (js "https://a.com/x")) eq_refl).
Defined.

(** The link written for the URL of [requestX] is left as it is. *)
Lemma the_link_of_a_known_url_is_left_alone_witness :
  execAt (js "https://a.com/x now") = Some (standaloneMatch (js "https://a.com/x")) ∧
  PerformanceAgent.replace (js "[https://a.com/x](#s-1)") (replacer focusA)
  = js "[https://a.com/x](#s-1)".
Proof.
  split; [reflexivity|].
  refine (the_link_of_a_known_url_is_left_alone focusA (js "https://a.com/x now")
            (standaloneMatch (js "https://a.com/x")) (js "https://a.com/x") (js "s-1")
            eq_refl eq_refl _).
  repeat (apply Forall_cons; split; [split; [discriminate|reflexivity]|]). apply Forall_nil_2.
Defined.

(** A response with the URL of [requestX] and a link to it: both become
    links to the key, and parsing the result again changes nothing. *)
Example parseForKnownUrls_twice :
  parseForKnownUrls agentOnA (js "see https://a.com/x or [this](https://a.com/x).")
  = js "see [https://a.com/x](#s-1) or [https://a.com/x](#s-1)." ∧
  parseForKnownUrls agentOnA (js "see [https://a.com/x](#s-1) or [https://a.com/x](#s-1).")
  = js "see [https://a.com/x](#s-1) or [https://a.com/x](#s-1).".
Proof. split; vm_compute; reflexivity. Qed.

(** The suggestions of a context on an insight set with an LCP that is
    not good, a good INP and no CLS. *)
Example getSuggestions_of_an_insight_set :
  @getSuggestions exampleInsights contextWithInsightSet
  = [firstSuggestion; performanceDefault (js "How can I improve LCP?")] ∧
  @getSuggestions exampleInsights contextTree = callTreeSuggestions ∧
  @getSuggestions exampleInsights contextA = [firstSuggestion].
Proof. split_and!; vm_compute; reflexivity. Qed.

(** [contextA] and [contextTree] are contexts of the same trace, with
    different foci. *)
Lemma getOrigin_tells_the_trace_bounds_apart_witness :
  (Z.abs (tw_min (traceBounds traceA)) < 10 ^ 21)%Z ∧
  (Z.abs (tw_max (traceBounds traceA)) < 10 ^ 21)%Z ∧
  focus_id (getItem contextA) = 1 ∧ focus_id (getItem contextTree) = 3 ∧
  getOrigin contextA = getOrigin contextTree.
Proof.
  assert (Z.abs (tw_min (traceBounds traceA)) < 10 ^ 21)%Z as Hmin by reflexivity.
  assert (Z.abs (tw_max (traceBounds traceA)) < 10 ^ 21)%Z as Hmax by reflexivity.
  split_and!; [exact Hmin|exact Hmax|reflexivity|reflexivity|].
  exact (proj2 (getOrigin_tells_the_trace_bounds_apart contextA contextTree
                  Hmin Hmax Hmin Hmax) (conj eq_refl eq_refl)).
Defined.

End FurtherEvaluated.
